(** * Sales analytics: question interpretation, query plans and session memory

    A shallow embedding of the decision logic of the sales-analytics
    service: [ModelContextProtocol] (src/index.js) and [MCPAnalyzer]
    (src/mcp-analyzer.js).

    Conventions of the embedding.
    - A JavaScript string is a Rocq [string]; each character stands for one
      code unit in the range 0..255.  Regular expressions work on the list
      of characters of the string.
    - A JavaScript number that the program only uses as a natural number
      (a year, a row limit, a count) is an [N].
    - Exceptions are values of the sum type [result].
    - The session [Map] is a [gmap] from session ids to contexts; the
      database driver, the clock and the reading of a column text as a
      date are parameters of [processQuestion]. *)

From Stdlib Require Import String Ascii List NArith Lia Bool Arith DecimalString.
From stdpp Require Import gmap strings list fin_maps.
Import ListNotations.

Local Open Scope string_scope.
Local Open Scope list_scope.

(** ** Characters *)

Module Char.

Definition code (c : ascii) : N := N_of_ascii c.

Definition between (lo hi : N) (c : ascii) : bool :=
  (lo <=? code c)%N && (code c <=? hi)%N.

(** [\d] *)
Definition is_digit (c : ascii) : bool := between 48 57 c.

Definition is_upper (c : ascii) : bool := between 65 90 c.
Definition is_lower (c : ascii) : bool := between 97 122 c.

(** [[A-Za-z]] *)
Definition is_alpha (c : ascii) : bool := is_upper c || is_lower c.

(** [\w] is [[A-Za-z0-9_]] *)
Definition is_word (c : ascii) : bool :=
  is_alpha c || is_digit c || (code c =? 95)%N.

(** [\s]: tab, line feed, vertical tab, form feed, carriage return, space
    and the no-break space. *)
Definition is_space (c : ascii) : bool :=
  between 9 13 c || (code c =? 32)%N || (code c =? 160)%N.

(** Line terminators, which [.] does not match. *)
Definition is_newline (c : ascii) : bool :=
  (code c =? 10)%N || (code c =? 13)%N.

(** [String.prototype.toLowerCase] on one code unit: the ASCII capitals and
    the capitals of the upper half (all of 192..222 but the multiplication
    sign) move up by 32. *)
Definition toLowerCase (c : ascii) : ascii :=
  if is_upper c || (between 192 222 c && negb (code c =? 215)%N)
  then ascii_of_N (code c + 32) else c.

(** [String.prototype.toUpperCase] on one code unit.  Three code units of
    the upper half (181, 223, 255) have an upper case outside 0..255; they
    are left as they are, and the program never upper-cases them: it only
    upper-cases the first character of a [\w+] capture. *)
Definition toUpperCase (c : ascii) : ascii :=
  if is_lower c
     || (between 224 254 c && negb (code c =? 247)%N)
  then ascii_of_N (code c - 32) else c.

(** Canonicalisation of the [i] flag: a code unit is compared through its
    upper case, unless that would fold a code unit above 127 onto ASCII. *)
Definition canonicalize (c : ascii) : ascii :=
  let u := toUpperCase c in
  if (128 <=? code c)%N && (code u <? 128)%N then c else u.

Definition eqb_ci (a b : ascii) : bool :=
  Ascii.eqb (canonicalize a) (canonicalize b).

End Char.

(** ** Strings *)

Module Str.

Abbreviation chars := list_ascii_of_string.
Abbreviation of_chars := string_of_list_ascii.

Definition toLowerCase (s : string) : string :=
  of_chars (map Char.toLowerCase (chars s)).

Definition toUpperCase (s : string) : string :=
  of_chars (map Char.toUpperCase (chars s)).

(** [s.startsWith(t)] on character lists. *)
Fixpoint starts_with (t s : list ascii) : bool :=
  match t, s with
  | [], _ => true
  | a :: t', b :: s' => Ascii.eqb a b && starts_with t' s'
  | _ :: _, [] => false
  end.

(** [s.includes(t)] on character lists: [t] starts at some index of [s]. *)
Fixpoint includes_chars (s t : list ascii) : bool :=
  starts_with t s ||
  match s with
  | [] => false
  | _ :: s' => includes_chars s' t
  end.

Definition includes (s t : string) : bool :=
  includes_chars (chars s) (chars t).

Definition drop_while (p : ascii -> bool) : list ascii -> list ascii :=
  fix go (l : list ascii) : list ascii :=
    match l with
    | c :: l' => if p c then go l' else l
    | [] => []
    end.

(** [s.trim()] removes white space at both ends. *)
Definition trim (s : string) : string :=
  of_chars
    (rev (drop_while Char.is_space
            (rev (drop_while Char.is_space (chars s))))).

(** [s.charAt(0)]: the first code unit as a string, or the empty string. *)
Definition charAt0 (s : string) : string :=
  match s with
  | EmptyString => EmptyString
  | String c _ => String c EmptyString
  end.

(** [s.slice(1)]. *)
Definition slice1 (s : string) : string :=
  match s with
  | EmptyString => EmptyString
  | String _ s' => s'
  end.

(** [a.join(sep)]. *)
Fixpoint join (sep : string) (l : list string) : string :=
  match l with
  | [] => EmptyString
  | [x] => x
  | x :: l' => x +:+ sep +:+ join sep l'
  end.

(** A string is truthy when it is not empty. *)
Definition truthy (s : string) : bool :=
  match s with
  | EmptyString => false
  | String _ _ => true
  end.

(** Decimal rendering of a natural number, as template literals do. *)
Definition of_N (n : N) : string := NilZero.string_of_uint (N.to_uint n).

(** [parseInt] on a string of decimal digits; exact, as JavaScript is up
    to 2^53. *)
Definition parseInt (s : string) : N :=
  fold_left (fun acc c => (10 * acc + (Char.code c - 48))%N) (chars s) 0%N.

(** [s.split(sep)[0]] for a non-empty separator: the text before the first
    occurrence of [sep], or all of [s]. *)
Fixpoint before_first (sep : list ascii) (s : list ascii) : list ascii :=
  if starts_with sep s then []
  else match s with
       | [] => []
       | c :: s' => c :: before_first sep s'
       end.

Definition split_head (sep s : string) : string :=
  of_chars (before_first (chars sep) (chars s)).

(** [s.split(sep)] for a non-empty separator.  [skip] counts the code units
    of a separator that was just found and are still to be passed over;
    [cur] holds the current piece, reversed. *)
Fixpoint split_from (sep : list ascii) (skip : nat) (cur : list ascii)
    (s : list ascii) : list (list ascii) :=
  match s with
  | [] => [rev cur]
  | c :: s' =>
      match skip with
      | S n => split_from sep n cur s'
      | O =>
          if starts_with sep s
          then rev cur :: split_from sep (List.length sep - 1) [] s'
          else split_from sep 0 (c :: cur) s'
      end
  end.

Definition split (sep s : string) : list string :=
  map of_chars (split_from (chars sep) 0 [] (chars s)).

End Str.

(** ** Regular expressions

    The backtracking matcher of ECMAScript for the constructs the program
    uses: character classes, sequence, alternation (left first), greedy and
    lazy repetition, capture groups, positive lookahead, [^], [$] and [\b].
    A matcher takes the state reached so far and a continuation for the rest
    of the pattern; backtracking is the [None] of the continuation. *)

Module Regex.

Inductive regex : Type :=
| Eps
| Chr (p : ascii -> bool)
| Seq (r1 r2 : regex)
| Alt (r1 r2 : regex)
| Star (greedy : bool) (r : regex)
| Group (n : nat) (r : regex)
| Look (r : regex)
| Bol
| Eol
| WordB.

(** The state of a match: the input before the current position (nearest
    character first), the input from the current position on, and the
    captures made so far (latest first). *)
Record mstate : Type := MState {
  prev : list ascii;
  rest : list ascii;
  caps : list (nat * list ascii)
}.

Definition advance (c : ascii) (tl : list ascii) (s : mstate) : mstate :=
  {| prev := c :: prev s; rest := tl; caps := caps s |}.

Definition set_cap (n : nat) (v : list ascii) (s : mstate) : mstate :=
  {| prev := prev s; rest := rest s; caps := (n, v) :: caps s |}.

Definition with_caps (cs : list (nat * list ascii)) (s : mstate) : mstate :=
  {| prev := prev s; rest := rest s; caps := cs |}.

(** The text consumed between two states of one match. *)
Definition consumed (s s1 : mstate) : list ascii :=
  firstn (List.length (rest s) - List.length (rest s1)) (rest s).

Definition head_is (p : ascii -> bool) (l : list ascii) : bool :=
  match l with
  | c :: _ => p c
  | [] => false
  end.

(** [\b]: exactly one side of the position is a word character. *)
Definition at_word_boundary (s : mstate) : bool :=
  xorb (head_is Char.is_word (prev s)) (head_is Char.is_word (rest s)).

(** The loop of a repetition: [step] matches the body once.  An iteration
    must consume input to count; a greedy loop tries one more iteration
    before it tries to leave, a lazy loop the other way round.  The fuel
    bounds the number of iterations by the length of the input left. *)
Fixpoint star_loop (greedy : bool)
    (step : mstate -> (mstate -> option mstate) -> option mstate)
    (k : mstate -> option mstate) (fuel : nat) (s : mstate)
    {struct fuel} : option mstate :=
  match fuel with
  | O => k s
  | S fuel' =>
      let again (s1 : mstate) :=
        if (List.length (rest s1) <? List.length (rest s))%nat
        then star_loop greedy step k fuel' s1 else None in
      if greedy then
        match step s again with
        | Some x => Some x
        | None => k s
        end
      else
        match k s with
        | Some x => Some x
        | None => step s again
        end
  end.

Fixpoint run (r : regex) (s : mstate) (k : mstate -> option mstate)
  {struct r} : option mstate :=
  match r with
  | Eps => k s
  | Chr p =>
      match rest s with
      | c :: tl => if p c then k (advance c tl s) else None
      | [] => None
      end
  | Seq r1 r2 => run r1 s (fun s1 => run r2 s1 k)
  | Alt r1 r2 =>
      match run r1 s k with
      | Some x => Some x
      | None => run r2 s k
      end
  | Star greedy r1 =>
      star_loop greedy (run r1) k (S (List.length (rest s))) s
  | Group n r1 =>
      run r1 s (fun s1 => k (set_cap n (consumed s s1) s1))
  | Look r1 =>
      match run r1 s Some with
      | Some s1 => k (with_caps (caps s1) s)
      | None => None
      end
  | Bol => match prev s with [] => k s | _ :: _ => None end
  | Eol => match rest s with [] => k s | _ :: _ => None end
  | WordB => if at_word_boundary s then k s else None
  end.

(** *** Pattern syntax *)

Definition plus (r : regex) : regex := Seq r (Star true r).
Definition plus_lazy (r : regex) : regex := Seq r (Star false r).
Definition star (r : regex) : regex := Star true r.
Definition star_lazy (r : regex) : regex := Star false r.
Definition opt (r : regex) : regex := Alt r Eps.

Fixpoint rep (n : nat) (r : regex) : regex :=
  match n with
  | O => Eps
  | S n' => Seq r (rep n' r)
  end.

Fixpoint seq_chars (eq : ascii -> ascii -> bool) (l : list ascii) : regex :=
  match l with
  | [] => Eps
  | c :: l' => Seq (Chr (eq c)) (seq_chars eq l')
  end.

(** A literal, and a literal under the [i] flag. *)
Definition lit (t : string) : regex := seq_chars Ascii.eqb (Str.chars t).
Definition liti (t : string) : regex := seq_chars Char.eqb_ci (Str.chars t).

Fixpoint alts (l : list regex) : regex :=
  match l with
  | [] => Eps
  | [r] => r
  | r :: l' => Alt r (alts l')
  end.

Definition digit : regex := Chr Char.is_digit.
Definition word : regex := Chr Char.is_word.
Definition space : regex := Chr Char.is_space.
Definition dot : regex := Chr (fun c => negb (Char.is_newline c)).

(** *** Searching *)

Record found : Type := Found {
  index : nat;
  before : list ascii;
  matched : list ascii;
  after : list ascii;
  groups : list (nat * list ascii)
}.

Definition start (pre inp : list ascii) : mstate :=
  {| prev := pre; rest := inp; caps := [] |}.

(** The first position, from the left, at which the pattern matches. *)
Fixpoint search (r : regex) (pre inp : list ascii) : option found :=
  match run r (start pre inp) Some with
  | Some s1 =>
      Some {| index := List.length pre;
              before := rev pre;
              matched := consumed (start pre inp) s1;
              after := rest s1;
              groups := caps s1 |}
  | None =>
      match inp with
      | [] => None
      | c :: tl => search r (c :: pre) tl
      end
  end.

(** [RegExp.prototype.exec] without the [g] flag. *)
Definition exec (r : regex) (s : string) : option found :=
  search r [] (Str.chars s).

(** [r.test(s)]. *)
Definition test (r : regex) (s : string) : bool :=
  match exec r s with Some _ => true | None => false end.

Fixpoint assoc (n : nat) (cs : list (nat * list ascii)) : option (list ascii) :=
  match cs with
  | [] => None
  | (i, v) :: cs' => if Nat.eqb i n then Some v else assoc n cs'
  end.

(** [match[n]] for a capture group that took part in the match. *)
Definition group (n : nat) (f : found) : string :=
  match assoc n (groups f) with
  | Some v => Str.of_chars v
  | None => EmptyString
  end.

(** [match[0]]. *)
Definition whole (f : found) : string := Str.of_chars (matched f).

(** [s.replace(r, t)] without the [g] flag, for a replacement text [t]
    free of [$]: the first match is replaced. *)
Definition replace (r : regex) (t : string) (s : string) : string :=
  match exec r s with
  | Some f => Str.of_chars (before f ++ Str.chars t ++ after f)
  | None => s
  end.

(** [s.replace(r, '')] with the [g] flag: every match is removed, the
    search resuming where the last match ended (one character further
    after an empty match). *)
Fixpoint remove_all_from (fuel : nat) (r : regex) (pre inp : list ascii)
  : list ascii :=
  match fuel with
  | O => inp
  | S fuel' =>
      match search r pre inp with
      | None => inp
      | Some f =>
          let skipped := firstn (index f - List.length pre) inp in
          match matched f, after f with
          | [], [] => skipped
          | [], c :: tl =>
              skipped ++ c :: remove_all_from fuel' r (c :: rev (before f)) tl
          | _ :: _, _ =>
              skipped ++
              remove_all_from fuel' r (rev (matched f) ++ rev (before f)) (after f)
          end
      end
  end.

Definition remove_all (r : regex) (s : string) : string :=
  Str.of_chars (remove_all_from (S (String.length s)) r [] (Str.chars s)).

(** [s.split(r)[0]] for a pattern that matches no empty text: the text
    before the first match, or all of [s]. *)
Definition split_head (r : regex) (s : string) : string :=
  match exec r s with
  | Some f => Str.of_chars (before f)
  | None => s
  end.

(** *** What a pattern matches

    The relation between the state before and the state after a pattern,
    without the order in which the matcher tries the alternatives. *)

Inductive matches : regex -> mstate -> mstate -> Prop :=
| m_eps s : matches Eps s s
| m_chr p c tl s :
    rest s = c :: tl -> p c = true -> matches (Chr p) s (advance c tl s)
| m_seq r1 r2 s s1 s2 :
    matches r1 s s1 -> matches r2 s1 s2 -> matches (Seq r1 r2) s s2
| m_alt_l r1 r2 s s1 : matches r1 s s1 -> matches (Alt r1 r2) s s1
| m_alt_r r1 r2 s s1 : matches r2 s s1 -> matches (Alt r1 r2) s s1
| m_star_stop g r s : matches (Star g r) s s
| m_star_step g r s s1 s2 :
    matches r s s1 -> matches (Star g r) s1 s2 -> matches (Star g r) s s2
| m_group n r s s1 :
    matches r s s1 -> matches (Group n r) s (set_cap n (consumed s s1) s1)
| m_look r s s1 : matches r s s1 -> matches (Look r) s (with_caps (caps s1) s)
| m_bol s : prev s = [] -> matches Bol s s
| m_eol s : rest s = [] -> matches Eol s s
| m_wordb s : at_word_boundary s = true -> matches WordB s s.

(** A greedy repetition of one character class, written by recursion on the
    input: take characters of the class as long as there are any, then give
    them back one by one until the continuation succeeds. *)
Fixpoint greedy_chars (p : ascii -> bool) (k : mstate -> option mstate)
    (pre : list ascii) (cs : list (nat * list ascii)) (inp : list ascii)
  : option mstate :=
  match inp with
  | c :: tl =>
      if p c then
        match greedy_chars p k (c :: pre) cs tl with
        | Some x => Some x
        | None => k {| prev := pre; rest := inp; caps := cs |}
        end
      else k {| prev := pre; rest := inp; caps := cs |}
  | [] => k {| prev := pre; rest := []; caps := cs |}
  end.

(** A lazy repetition of one character class, written by recursion on the
    input: try the continuation first, and take one more character of the
    class only when it fails. *)
Fixpoint lazy_chars (p : ascii -> bool) (k : mstate -> option mstate)
    (pre : list ascii) (cs : list (nat * list ascii)) (inp : list ascii)
  : option mstate :=
  match k {| prev := pre; rest := inp; caps := cs |} with
  | Some x => Some x
  | None =>
      match inp with
      | c :: tl => if p c then lazy_chars p k (c :: pre) cs tl else None
      | [] => None
      end
  end.

(** Patterns without capture groups. *)
Fixpoint groupless (r : regex) : bool :=
  match r with
  | Eps | Chr _ | Bol | Eol | WordB => true
  | Seq r1 r2 | Alt r1 r2 => groupless r1 && groupless r2
  | Star _ r1 | Look r1 => groupless r1
  | Group _ _ => false
  end.

End Regex.

(** ** Results and exceptions *)

Inductive exn : Type :=
| Error (msg : string)
| TypeError (msg : string)
| RangeError (msg : string).

Inductive result (A : Type) : Type :=
| Ok (a : A)
| Throw (e : exn).

Arguments Ok {A} a.
Arguments Throw {A} e.

(** [l.map(f)] for a function that may throw: the first exception ends
    the traversal. *)
Fixpoint mapM {A B : Type} (f : A -> result B) (l : list A) : result (list B) :=
  match l with
  | [] => Ok []
  | x :: l' =>
      match f x with
      | Ok y =>
          match mapM f l' with
          | Ok ys => Ok (y :: ys)
          | Throw e => Throw e
          end
      | Throw e => Throw e
      end
  end.

(** ** The protocol class of src/index.js *)

Module MCP.

Import Regex.

(** *** Data *)

Record QueryPlan : Type := {
  select : list string;
  from : string;
  where_ : list string;
  groupBy : list string;
  orderBy : list string;
  limit : option N
}.

(** A row of a query result: column name to the text the driver returns. *)
Abbreviation Row := (gmap string string).

Record HistoryEntry : Type := {
  question : string;
  timestamp : N;
  type : string
}.

Record SessionContext : Type := {
  lastState : option string;
  lastYear : option N;
  lastMetric : string;
  lastLimit : N;
  questions : list HistoryEntry
}.

Inductive TemporalKind : Type := absolute | relative | range.

(** The [entities] object.  Its [filters] map is a copy of a property that
    no session context has, so it is always empty; it is left out. *)
Record Entities : Type := {
  temporal : list (TemporalKind * string);
  categorical : list string;
  metrics : list string;
  geographic : option string
}.

(** The [data] of a result.  The chart data keeps the text of the columns,
    and for a month the ISO text of its date; the conversion to
    floating-point numbers, the chart geometry, the subtitle and the
    insights text are outside the model. *)
Inductive ChartData : Type :=
| Points (pts : list (option string * option string))
| Series (ss : list (string * list (option string * option string))).

(** [vtype] is the [type] property of the visualization. *)
Record Visualization : Type := {
  vtype : string;
  vdata : ChartData
}.

(** [year] is the property that [updateContext] reads; [processQuestion]
    never sets it. *)
Record ResultData : Type := {
  title : string;
  year : option N;
  visualization : Visualization;
  rawData : list Row
}.

(** [this.dataSources.orders] *)
Module orders.
Definition temporal : list string := ["order_date"; "ship_date"].
Definition categorical : list string :=
  ["region"; "customer_name"; "segment"; "country"; "city";
   "state"; "category"; "sub_category"; "product_name"; "ship_mode"].
Definition metrics : list string := ["sales"; "quantity"; "discount"; "profit"].
End orders.

(** *** Session contexts *)

Definition newContext : SessionContext :=
  {| lastState := None; lastYear := None; lastMetric := "sales";
     lastLimit := 5; questions := [] |}.

(** [getContext]: the context of the session, created when absent.  The
    context returned is the one stored. *)
Definition getContext (sessionContexts : gmap string SessionContext)
    (sessionId : string) : gmap string SessionContext * SessionContext :=
  match sessionContexts !! sessionId with
  | Some context => (sessionContexts, context)
  | None => (<[sessionId := newContext]> sessionContexts, newContext)
  end.

Definition truthy_opt (o : option string) : bool :=
  match o with
  | Some s => Str.truthy s
  | None => false
  end.

Definition howAbout : regex := liti "how about".

(** [lastMetric] is inserted as it is: the metric of every context of the
    service is [sales], in which [replace] finds no [$] to expand. *)
Definition enhanceQuestionWithContext (question : string)
    (context : SessionContext) : string :=
  let q := Str.toLowerCase question in
  if (0 <? List.length (questions context))%nat then
    if negb (Str.includes q "in") && truthy_opt (lastState context)
       && (Str.includes q "top" || Str.includes q "sales")
    then question +:+ " in " +:+ default "" (lastState context)
    else if Str.includes q "how about" && truthy_opt (lastState context)
    then replace howAbout ("show " +:+ lastMetric context +:+ " in") question
    else question
  else question.

(** *** Extraction *)

(** [/\b(?:in|for)\s+([A-Za-z\s]+?)(?=\s+|$)/i] *)
Definition statePattern : regex :=
  Seq WordB
 (Seq (Alt (liti "in") (liti "for"))
 (Seq (plus space)
 (Seq (Group 1 (plus_lazy (Chr (fun c => Char.is_alpha c || Char.is_space c))))
      (Look (Alt (plus space) Eol))))).

(** [/\b\d{4}(-\d{2}(-\d{2})?)?\b/] *)
Definition absolutePattern : regex :=
  Seq WordB
 (Seq (rep 4 digit)
 (Seq (opt (Group 1 (Seq (lit "-") (Seq (rep 2 digit)
               (opt (Group 2 (Seq (lit "-") (rep 2 digit))))))))
      WordB)).

(** [/\b(last|this|next)\s+(day|week|month|year)\b/i] *)
Definition relativePattern : regex :=
  Seq WordB
 (Seq (Group 1 (alts [liti "last"; liti "this"; liti "next"]))
 (Seq (plus space)
 (Seq (Group 2 (alts [liti "day"; liti "week"; liti "month"; liti "year"]))
      WordB))).

(** [/\bbetween\s+.*?\s+and\s+.*?\b/i] *)
Definition rangePattern : regex :=
  Seq WordB
 (Seq (liti "between")
 (Seq (plus space)
 (Seq (star_lazy dot)
 (Seq (plus space)
 (Seq (liti "and")
 (Seq (plus space)
 (Seq (star_lazy dot) WordB))))))).

Definition datePatterns : list (TemporalKind * regex) :=
  [(absolute, absolutePattern); (relative, relativePattern);
   (range, rangePattern)].

Definition extractEntitiesAndSource (question : string)
    (context : SessionContext) : Entities * string :=
  let geographic :=
    match exec statePattern question with
    | Some stateMatch => Some (Str.trim (group 1 stateMatch))
    | None => None
    end in
  let temporal :=
    flat_map (fun '(kind, pattern) =>
                match exec pattern question with
                | Some matches => [(kind, whole matches)]
                | None => []
                end) datePatterns in
  ({| temporal := temporal; categorical := []; metrics := [];
      geographic := geographic |}, "orders").

(** [/\btop\s+(\d+)\b/i] *)
Definition limitPattern : regex :=
  Seq WordB (Seq (liti "top") (Seq (plus space) (Seq (Group 1 (plus digit)) WordB))).

Definition extractLimit (question : string) : option N :=
  match exec limitPattern question with
  | Some m => Some (Str.parseInt (group 1 m))
  | None => None
  end.

(** [/\b(19|20)\d{2}\b/] *)
Definition yearPattern : regex :=
  Seq WordB (Seq (Group 1 (Alt (lit "19") (lit "20"))) (Seq (rep 2 digit) WordB)).

Definition extractYear (question : string) : option N :=
  match exec yearPattern question with
  | Some m => Some (Str.parseInt (whole m))
  | None => None
  end.

(** [/(\w+)\s+(?:vs|versus)\s+(\w+)/i] *)
Definition vsPattern : regex :=
  Seq (Group 1 (plus word))
 (Seq (plus space)
 (Seq (Alt (liti "vs") (liti "versus"))
 (Seq (plus space) (Group 2 (plus word))))).

(** [/between\s+(\w+)\s+and\s+(\w+)/i] *)
Definition betweenPattern : regex :=
  Seq (liti "between")
 (Seq (plus space)
 (Seq (Group 1 (plus word))
 (Seq (plus space)
 (Seq (liti "and")
 (Seq (plus space) (Group 2 (plus word))))))).

(** The clean-up of one captured name. *)
Definition capitalize (state : string) : string :=
  Str.toUpperCase (Str.charAt0 (Str.trim state))
  +:+ Str.toLowerCase (Str.slice1 (Str.trim state)).

Definition extractComparisonStates (question : string) : list string :=
  let q := Str.toLowerCase question in
  let states := [] in
  let states :=
    match exec vsPattern q with
    | Some vsMatch => [group 1 vsMatch; group 2 vsMatch]
    | None => states
    end in
  let states :=
    match exec betweenPattern q with
    | Some betweenMatch => [group 1 betweenMatch; group 2 betweenMatch]
    | None => states
    end in
  map capitalize states.

(** *** Validation *)

(** [/;|\bDROP\b|\bDELETE\b|\bUPDATE\b|\bINSERT\b/i] *)
Definition injectionPattern : regex :=
  alts [lit ";";
        Seq WordB (Seq (liti "DROP") WordB);
        Seq WordB (Seq (liti "DELETE") WordB);
        Seq WordB (Seq (liti "UPDATE") WordB);
        Seq WordB (Seq (liti "INSERT") WordB)].

(** [validateQuestion]; [None] stands for a question that is not a string.
    The class defines no [errorTypes], so the first check fails on reading
    a property of [undefined]. *)
Definition validateQuestion (question : option string) : result unit :=
  match question with
  | None => Throw (TypeError "Cannot read properties of undefined (reading 'INVALID_QUESTION')")
  | Some question =>
      if negb (Str.truthy question)
      then Throw (TypeError "Cannot read properties of undefined (reading 'INVALID_QUESTION')")
      else if (500 <? String.length question)%nat
      then Throw (Error "Question too long (max 500 characters)")
      else if (String.length question <? 3)%nat
      then Throw (Error "Question too short")
      else if test injectionPattern question
      then Throw (Error "Invalid question content")
      else Ok tt
  end.

(** *** The sanitizer *)

(** [validFields]: the three field lists of the schema and the function
    name [DATE_TRUNC]. *)
Definition validFields : gset string :=
  list_to_set (orders.temporal ++ orders.categorical ++ orders.metrics
               ++ ["DATE_TRUNC"]).

(** [/^SUM\(|\)$/g] *)
Definition sumWrapper : regex :=
  Alt (Seq Bol (lit "SUM(")) (Seq (lit ")") Eol).

(** [/.*\./] *)
Definition aliasPrefix : regex := Seq (star dot) (lit ".").

(** [/ ASC| DESC/i] *)
Definition direction : regex := Alt (liti " ASC") (liti " DESC").

(** The [baseField] of [isValidExpression]. *)
Definition baseField (expr : string) : string :=
  replace aliasPrefix "" (remove_all sumWrapper (Str.split_head " as " expr)).

Definition isValidExpression (expr : string) : bool :=
  if Str.includes expr "DATE_TRUNC" then true
  else bool_decide (baseField expr ∈ validFields).

(** The test of the [where] filter: the first blank-separated word,
    without its table alias. *)
Definition isValidCondition (condition : string) : bool :=
  let field := split_head (plus space) condition in
  bool_decide (replace aliasPrefix "" field ∈ validFields).

Definition isValidOrder (field : string) : bool :=
  isValidExpression (replace direction "" field).

Definition sanitizeQueryPlan (queryPlan : QueryPlan) : QueryPlan :=
  {| select := List.filter isValidExpression (select queryPlan);
     from := from queryPlan;
     where_ := List.filter isValidCondition (where_ queryPlan);
     groupBy := List.filter isValidExpression (groupBy queryPlan);
     orderBy := List.filter isValidOrder (orderBy queryPlan);
     limit := limit queryPlan |}.

(** *** Running a plan *)

Definition truthy_num (o : option N) : bool :=
  match o with
  | Some n => negb (n =? 0)%N
  | None => false
  end.

Definition buildSQL (queryPlan : QueryPlan) : string :=
  let select : string :=
    if (0 <? List.length (select queryPlan))%nat
    then Str.join ", " (select queryPlan) else "*" in
  let sql : string := "SELECT " +:+ select +:+ " FROM " +:+ from queryPlan in
  let sql : string :=
    if (0 <? List.length (where_ queryPlan))%nat
    then sql +:+ " WHERE " +:+ Str.join " AND " (where_ queryPlan) else sql in
  let sql : string :=
    if (0 <? List.length (groupBy queryPlan))%nat
    then sql +:+ " GROUP BY " +:+ Str.join ", " (groupBy queryPlan) else sql in
  let sql : string :=
    if (0 <? List.length (orderBy queryPlan))%nat
    then sql +:+ " ORDER BY " +:+ Str.join ", " (orderBy queryPlan) else sql in
  if truthy_num (limit queryPlan)
  then sql +:+ " LIMIT " +:+ Str.of_N (default 0%N (limit queryPlan)) else sql.

Definition message (e : exn) : string :=
  match e with
  | Error msg => msg
  | TypeError msg => msg
  | RangeError msg => msg
  end.

(** *** Updating the session *)

Definition set_lastState (v : option string) (c : SessionContext) : SessionContext :=
  {| lastState := v; lastYear := lastYear c; lastMetric := lastMetric c;
     lastLimit := lastLimit c; questions := questions c |}.

Definition set_lastYear (v : option N) (c : SessionContext) : SessionContext :=
  {| lastState := lastState c; lastYear := v; lastMetric := lastMetric c;
     lastLimit := lastLimit c; questions := questions c |}.

Definition set_questions (v : list HistoryEntry) (c : SessionContext) : SessionContext :=
  {| lastState := lastState c; lastYear := lastYear c; lastMetric := lastMetric c;
     lastLimit := lastLimit c; questions := v |}.

(** [updateContext]; [now] is the value of [new Date()]. *)
Definition updateContext (now : N) (sessionContexts : gmap string SessionContext)
    (sessionId : string) (result : ResultData) (entities : Entities)
  : gmap string SessionContext :=
  let '(sessionContexts, context) := getContext sessionContexts sessionId in
  let context :=
    if truthy_opt (geographic entities)
    then set_lastState (geographic entities) context else context in
  let context :=
    if truthy_num (year result)
    then set_lastYear (year result) context else context in
  let context :=
    set_questions
      (questions context ++
         [{| question := title result; timestamp := now;
             type := vtype (visualization result) |}]) context in
  let context :=
    if (5 <? List.length (questions context))%nat
    then set_questions (tail (questions context)) context else context in
  <[sessionId := context]> sessionContexts.

(** *** The request handler *)

(** What one call of [processQuestion] leaves behind: the session map, the
    plans handed to [executeQuery], in order, and the value returned or
    the exception thrown. *)
Record Outcome : Type := {
  sessionContexts : gmap string SessionContext;
  executed : list QueryPlan;
  response : result ResultData
}.

Definition yearCondition (year : option N) : list string :=
  if truthy_num year
  then ["EXTRACT(YEAR FROM order_date) = " +:+ Str.of_N (default 0%N year)]
  else [].

Definition stateCondition (geographic : option string) : list string :=
  if truthy_opt geographic
  then ["state = '" +:+ default "" geographic +:+ "'"]
  else [].

Definition inPart (geographic : option string) : string :=
  if truthy_opt geographic then " in " +:+ default "" geographic else "".

Definition yearPart (year : option N) : string :=
  if truthy_num year then " (" +:+ Str.of_N (default 0%N year) +:+ ")" else "".

Definition monthTrunc : string := "DATE_TRUNC('month', order_date)".

Definition comparisonPlan (states : list string) (year : option N) : QueryPlan :=
  {| select := [monthTrunc +:+ " as month"; "state"; "SUM(sales) as total_sales"];
     from := "orders";
     where_ := ["state IN ('" +:+ Str.join "', '" states +:+ "')"]
                 ++ yearCondition year;
     groupBy := [monthTrunc; "state"];
     orderBy := ["month ASC, state"];
     limit := None |}.

Definition rankingPlan (limit : N) (geographic : option string)
    (year : option N) : QueryPlan :=
  {| select := ["customer_name"; "SUM(sales) as total_sales"];
     from := "orders";
     where_ := stateCondition geographic ++ yearCondition year;
     groupBy := ["customer_name"];
     orderBy := ["total_sales DESC"];
     limit := Some limit |}.

Definition trendPlan (geographic : option string) : QueryPlan :=
  {| select := [monthTrunc +:+ " as month"; "SUM(sales) as total_sales"];
     from := "orders";
     where_ := stateCondition geographic;
     groupBy := [monthTrunc];
     orderBy := ["month ASC"];
     limit := None |}.

Definition defaultRankingPlan (geographic : option string) : QueryPlan :=
  {| select := ["customer_name"; "SUM(sales) as total_sales"];
     from := "orders";
     where_ := stateCondition geographic;
     groupBy := ["customer_name"];
     orderBy := ["total_sales DESC"];
     limit := Some 5%N |}.

(** [{label: row.customer_name, value: parseFloat(row.total_sales)}], with
    the text of the two columns. *)
Definition point (x y : string) (row : Row) : option string * option string :=
  (row !! x, row !! y).

Definition isComparisonQuery (enhancedQuestion : string) : bool :=
  Str.includes (Str.toLowerCase enhancedQuestion) "compare"
  || Str.includes (Str.toLowerCase enhancedQuestion) "vs"
  || Str.includes (Str.toLowerCase enhancedQuestion) "versus".

Section Handler.

(** [this.pgPool.query(sql)]: the rows, or the error of the driver. *)
Variable pgQuery : string -> result (list Row).

(** The clock read by [updateContext]. *)
Variable now : N.

(** [new Date(v).toISOString()] for the text [v] of a column: the ISO text
    of the date, or nothing when [v] is no valid date, in which case
    [toISOString] throws a [RangeError]. *)
Variable toISOString : string -> option string.

(** [{x: new Date(row.month).toISOString(), y: parseFloat(row.total_sales)}];
    a row without [month] gives an invalid date too. *)
Definition datePoint (row : Row) : result (option string * option string) :=
  match row !! "month" with
  | Some month =>
      match toISOString month with
      | Some x => Ok (Some x, row !! "total_sales")
      | None => Throw (RangeError "Invalid time value")
      end
  | None => Throw (RangeError "Invalid time value")
  end.

Definition executeQuery (queryPlan : QueryPlan) : result (list Row) :=
  let sql := buildSQL queryPlan in
  match pgQuery sql with
  | Ok [] =>
      Throw (Error ("Database query failed: " +:+ "No data found for the given query"))
  | Ok rows => Ok rows
  | Throw error => Throw (Error ("Database query failed: " +:+ message error))
  end.

(** The end of [processQuestion] once the plan is built: run it, build
    the result and update the session; an exception of the query or of the
    building of the result leaves the session as it is. *)
Definition finish (contexts : gmap string SessionContext)
    (sessionId : string) (entities : Entities) (queryPlan : QueryPlan)
    (build : list Row -> result ResultData) : Outcome :=
  match executeQuery queryPlan with
  | Ok data =>
      match build data with
      | Ok result =>
          {| sessionContexts :=
               updateContext now contexts sessionId result entities;
             executed := [queryPlan];
             response := Ok result |}
      | Throw error =>
          {| sessionContexts := contexts;
             executed := [queryPlan];
             response := Throw error |}
      end
  | Throw error =>
      {| sessionContexts := contexts;
         executed := [queryPlan];
         response := Throw error |}
  end.

(** [groupedData]: for each state, the points of its rows. *)
Definition groupByState (states : list string) (data : list Row)
  : result (list (string * list (option string * option string))) :=
  mapM (fun state =>
          match mapM datePoint
                  (List.filter
                     (fun row => bool_decide (row !! "state" = Some state))
                     data) with
          | Ok values => Ok (state, values)
          | Throw error => Throw error
          end) states.

Definition processQuestion (contexts : gmap string SessionContext)
    (question sessionId : string) : Outcome :=
  let '(contexts, context) := getContext contexts sessionId in
  let enhancedQuestion := enhanceQuestionWithContext question context in
  let '(entities, sourceType) :=
    extractEntitiesAndSource enhancedQuestion context in
  let year := extractYear enhancedQuestion in
  if isComparisonQuery enhancedQuestion then
    let states := extractComparisonStates enhancedQuestion in
    if (List.length states <? 2)%nat then
      {| sessionContexts := contexts;
         executed := [];
         response := Throw (Error "Could not identify states to compare") |}
    else
      finish contexts sessionId entities (comparisonPlan states year)
        (fun data =>
           match groupByState states data with
           | Ok groupedData =>
               Ok {| title := "Sales Comparison: " +:+ Str.join " vs " states
                              +:+ yearPart year;
                     year := None;
                     visualization :=
                       {| vtype := "multi-line"; vdata := Series groupedData |};
                     rawData := data |}
           | Throw error => Throw error
           end)
  else if Str.includes (Str.toLowerCase enhancedQuestion) "top" then
    let limit :=
      if truthy_num (extractLimit enhancedQuestion)
      then default 0%N (extractLimit enhancedQuestion) else 5%N in
    finish contexts sessionId entities
      (rankingPlan limit (geographic entities) year)
      (fun data =>
         Ok {| title := "Top " +:+ Str.of_N limit +:+ " Customers"
                        +:+ inPart (geographic entities) +:+ yearPart year;
               year := None;
               visualization :=
                 {| vtype := "horizontal-bar";
                    vdata := Points (map (point "customer_name" "total_sales") data) |};
               rawData := data |})
  else
    let isTrendQuery :=
      negb (Str.includes (Str.toLowerCase enhancedQuestion) "top") in
    if isTrendQuery then
      finish contexts sessionId entities (trendPlan (geographic entities))
        (fun data =>
           match mapM datePoint data with
           | Ok points =>
               Ok {| title := "Monthly Sales Trend" +:+ inPart (geographic entities);
                     year := None;
                     visualization := {| vtype := "line"; vdata := Points points |};
                     rawData := data |}
           | Throw error => Throw error
           end)
    else
      finish contexts sessionId entities
        (defaultRankingPlan (geographic entities))
        (fun data =>
           Ok {| title := "Top 5 Customers" +:+ inPart (geographic entities);
                 year := None;
                 visualization :=
                   {| vtype := "horizontal-bar";
                      vdata := Points (map (point "customer_name" "total_sales") data) |};
                 rawData := data |}).

End Handler.

(** *** Plans for time series *)

(** [/(?:in|for)\s+(\w+)(?:\s|$)/i], the pattern of [buildQueryPlan]. *)
Definition wordAfterInPattern : regex :=
  Seq (Alt (liti "in") (liti "for"))
 (Seq (plus space) (Seq (Group 1 (plus word)) (Alt space Eol))).

(** [word.charAt(0).toUpperCase() + word.slice(1).toLowerCase()] *)
Definition formatWord (w : string) : string :=
  Str.toUpperCase (Str.charAt0 w) +:+ Str.toLowerCase (Str.slice1 w).

(** [buildQueryPlan(intent, sourceType, entities, question)]; the function
    reads neither [intent] nor [entities]. *)
Definition buildQueryPlan {Intent : Type} (intent : Intent) (sourceType : string)
    (entities : Entities) (question : string) : QueryPlan :=
  let state :=
    match exec wordAfterInPattern question with
    | Some stateMatch => Some (group 1 stateMatch)
    | None => None
    end in
  let where_ :=
    if truthy_opt state then
      let formattedState :=
        Str.join " " (map formatWord (Str.split " " (default "" state))) in
      ["state = '" +:+ formattedState +:+ "'"]
    else [] in
  let select := [monthTrunc +:+ " as month"; "SUM(sales) as total_sales"] in
  let select :=
    if truthy_opt state
    then select ++ ["'" +:+ default "" state +:+ "' as state"]
    else select in
  {| select := select;
     from := sourceType;
     where_ := where_;
     groupBy := [monthTrunc];
     orderBy := [monthTrunc +:+ " ASC"];
     limit := None |}.

(** *** Date filters *)

Definition newline : string := String (ascii_of_N 10) "".

(** [this.dataSources.orders.temporal[0]] in a template literal. *)
Definition dateField : string := default "undefined" (head orders.temporal).

Definition lastMonthCondition : string :=
  dateField +:+ "::date >= date_trunc('month', now()) - interval '1 month' "
  +:+ newline +:+ "                    AND "
  +:+ dateField +:+ "::date < date_trunc('month', now())".

Definition thisYearCondition : string :=
  dateField +:+ "::date >= date_trunc('year', now())".

Definition buildRelativeDateCondition (temporal : string) : string :=
  let t := Str.toLowerCase temporal in
  if String.eqb t "last month" then lastMonthCondition
  else if String.eqb t "this year" then thisYearCondition
  else "".

(** [range.split('between').map(part => part.trim())], of which the first
    two parts are used; a part that is missing is rendered as [undefined]. *)
Definition buildDateRangeCondition (range : string) : string :=
  let parts := map Str.trim (Str.split "between" range) in
  let start := default "undefined" (parts !! 0%nat) in
  let end_ := default "undefined" (parts !! 1%nat) in
  "order_date::date >= '" +:+ start +:+ "' AND order_date::date < '"
  +:+ end_ +:+ "'".

(** [/\d{4}-\d{2}-\d{2}/] *)
Definition isoDatePattern : regex :=
  Seq (rep 4 digit) (Seq (lit "-") (Seq (rep 2 digit) (Seq (lit "-") (rep 2 digit)))).

(** What [buildDateFilter] is given.  Its caller passes [entities.temporal],
    which [extractEntitiesAndSource] fills as an array of entries; the
    function reads the [value] property, which one entry has and an array
    has not. *)
Inductive TemporalArg : Type :=
| entryList (entries : list (TemporalKind * string))
| entry (kind : TemporalKind) (value : option string).

(** [temporal.value] *)
Definition value_of (temporal : TemporalArg) : option string :=
  match temporal with
  | entryList _ => None
  | entry _ value => value
  end.

(** [buildDateFilter(temporal)]: [None] is [null]; nothing in the [try]
    block throws. *)
Definition buildDateFilter (temporal : option TemporalArg) : option string :=
  match temporal with
  | None => None
  | Some temporal =>
      let value :=
        if truthy_opt (value_of temporal)
        then Some (Str.toLowerCase (default "" (value_of temporal)))
        else None in
      if negb (truthy_opt value) then None
      else
        let value := default "" value in
        if test isoDatePattern value
        then Some ("order_date::date = '" +:+ value +:+ "'")
        else if Str.includes value "last"
        then Some (buildRelativeDateCondition value)
        else if Str.includes value "between"
        then Some (buildDateRangeCondition value)
        else None
  end.

(** *** Plans by question type *)

(** The object of [determineQuestionType]: [type], and for a ranking
    [direction] and [limit]. *)
Record QuestionType : Type := {
  qtype : string;
  qdirection : option string;
  qlimit : option N
}.

Definition typeOnly (t : string) : QuestionType :=
  {| qtype := t; qdirection := None; qlimit := None |}.

Definition determineQuestionType (question : string) : QuestionType :=
  let q := Str.toLowerCase question in
  if Str.includes q "top" || Str.includes q "bottom" then
    {| qtype := "ranking";
       qdirection := Some (if Str.includes q "top" then "desc" else "asc");
       qlimit := extractLimit q |}
  else if Str.includes q "trend" || Str.includes q "over time" then
    typeOnly "trend"
  else if Str.includes q "compare" || Str.includes q "versus"
          || Str.includes q "vs" then
    typeOnly "comparison"
  else if Str.includes q "distribution" || Str.includes q "spread" then
    typeOnly "distribution"
  else if Str.includes q "breakdown" || Str.includes q "composition" then
    typeOnly "composition"
  else typeOnly "general".

(** [buildQueryPlanForType(questionType, entities)]; nothing in its [try]
    block throws.  The [trend] case and the default case are the same. *)
Definition buildQueryPlanForType (questionType : QuestionType)
    (entities : Entities) : QueryPlan :=
  let where_ :=
    if truthy_opt (geographic entities)
    then ["state = '" +:+ default "" (geographic entities) +:+ "'"]
    else [] in
  let dateFilter := buildDateFilter (Some (entryList (temporal entities))) in
  let where_ :=
    if truthy_opt dateFilter then where_ ++ [default "" dateFilter] else where_ in
  if String.eqb (qtype questionType) "ranking" then
    {| select := ["customer_name"; "SUM(sales) as total_sales"];
       from := "orders";
       where_ := where_;
       groupBy := ["customer_name"];
       orderBy :=
         ["total_sales " +:+
          (if truthy_opt (qdirection questionType)
           then default "" (qdirection questionType) else "DESC")];
       limit :=
         Some (if truthy_num (qlimit questionType)
               then default 0%N (qlimit questionType) else 5%N) |}
  else
    {| select := ["DATE_TRUNC('month', order_date) as month";
                  "SUM(sales) as total_sales"];
       from := "orders";
       where_ := where_;
       groupBy := ["month"];
       orderBy := ["month ASC"];
       limit := None |}.

Definition getVisualizationType (questionType : QuestionType) : string :=
  let t := qtype questionType in
  if String.eqb t "ranking" then "horizontal-bar"
  else if String.eqb t "trend" then "line"
  else if String.eqb t "comparison" then "bar-horizontal"
  else if String.eqb t "distribution" then "histogram"
  else if String.eqb t "composition" then "pie"
  else "bar-vertical".

(** *** Plans from an analysis *)

(** The fields of the parsed analysis that [transformAnalysisToQueryPlan]
    reads: [analysis.analysis.dimensions], [.metrics], [.filters.geographic],
    [.limit], and [analysis.query.aggregation], [.orderBy]. *)
Record Analysis : Type := {
  dimensions : list string;
  analysisMetrics : list string;
  filterGeographic : option string;
  analysisLimit : option N;
  aggregation : string;
  queryOrderBy : option string
}.

(** The [queryPlan] of [transformAnalysisToQueryPlan(analysis, entities)];
    the [visualization] of the analysis is handed on as it is. *)
Definition transformAnalysisToQueryPlan (analysis : Analysis)
    (entities : Entities) : QueryPlan :=
  {| select :=
       dimensions analysis
       ++ map (fun metric =>
                 aggregation analysis +:+ "(" +:+ metric +:+ ") as total_" +:+ metric)
              (analysisMetrics analysis);
     from := "orders";
     where_ :=
       if truthy_opt (filterGeographic analysis)
       then ["state = '" +:+ default "" (filterGeographic analysis) +:+ "'"]
       else [];
     groupBy := dimensions analysis;
     orderBy :=
       if truthy_opt (queryOrderBy analysis)
       then ["total_" +:+ default "undefined" (head (analysisMetrics analysis))
             +:+ " " +:+ default "" (queryOrderBy analysis)]
       else [];
     limit :=
       if truthy_num (analysisLimit analysis) then analysisLimit analysis
       else None |}.

End MCP.

(** ** The analyzer class of src/mcp-analyzer.js *)

Module Analyzer.

Import Regex.

(** [/(?:a|b|c)/i] *)
Definition anyOf (l : list string) : regex := alts (map liti l).

(** [stateValues], in the order of the source. *)
Definition stateValues : list string :=
  ["California"; "Texas"; "New York"; "Florida"; "Illinois";
   "Ohio"; "Pennsylvania"; "Georgia"; "North Carolina";
   "Michigan"; "New Jersey"; "Virginia"; "Washington";
   "Arizona"; "Massachusetts"; "Tennessee"; "Indiana";
   "Missouri"; "Maryland"; "Wisconsin"; "Colorado";
   "Minnesota"; "South Carolina"; "Alabama"; "Louisiana";
   "Kentucky"; "Oregon"; "Oklahoma"; "Connecticut";
   "Iowa"; "Mississippi"; "Arkansas"; "Utah";
   "Nevada"; "Kansas"; "New Mexico"; "West Virginia";
   "Nebraska"; "Idaho"; "Hawaii"; "Maine";
   "New Hampshire"; "Rhode Island"; "Montana"; "Delaware";
   "South Dakota"; "North Dakota"; "Alaska"; "Vermont";
   "Wyoming"].

(** [this.entityPatterns], in the order of the source. *)
Definition entityPatterns : list (string * regex) :=
  [("sales", anyOf ["sales"; "revenue"; "income"]);
   ("quantity", anyOf ["quantity"; "amount"; "count"]);
   ("discount", anyOf ["discount"; "rebate"]);
   ("profit", anyOf ["profit"; "gain"; "loss"]);
   ("customer", anyOf ["customer"; "client"; "buyer"; "user"]);
   ("customer_id", anyOf ["customer id"; "client id"]);
   ("customer_name", anyOf ["customer name"; "client name"]);
   ("segment", anyOf ["segment"; "category"; "group"]);
   ("country", anyOf ["country"; "nation"]);
   ("state", anyOf (["state"; "province"] ++
      ["California"; "Texas"; "New York"; "Florida"; "Illinois"; "Ohio";
       "Pennsylvania"; "Georgia"; "North Carolina"; "Michigan"; "New Jersey";
       "Virginia"; "Washington"; "Arizona"; "Massachusetts"; "Tennessee";
       "Indiana"; "Missouri"; "Maryland"; "Wisconsin"; "Colorado";
       "Minnesota"; "South Carolina"; "Alabama"; "Louisiana"; "Kentucky";
       "Oregon"; "Oklahoma"; "Connecticut"; "Iowa"; "Mississippi";
       "Arkansas"; "Utah"; "Nevada"; "Kansas"; "New Mexico";
       "West Virginia"; "Nebraska"; "Idaho"; "Hawaii"; "Maine";
       "New Hampshire"; "Rhode Island"; "Montana"; "Delaware";
       "South Dakota"; "North Dakota"; "Alaska"; "Vermont"; "Wyoming"]));
   ("city", anyOf ["city"; "town"]);
   ("region", anyOf ["region"; "area"]);
   ("product", anyOf ["product"; "item"; "goods"]);
   ("product_id", anyOf ["product id"]);
   ("product_name", anyOf ["product name"; "item name"]);
   ("category", anyOf ["category"; "type"]);
   ("sub_category", anyOf ["sub-category"; "subcategory"]);
   ("order_id", anyOf ["order id"; "order number"]);
   ("order_date", anyOf ["order date"; "date of order"]);
   ("ship_date", anyOf ["ship date"; "shipping date"]);
   ("ship_mode", anyOf ["ship mode"; "shipping method"]);
   ("postal_code", anyOf ["postal code"; "zip code"]);
   ("month", anyOf ["month"; "monthly"]);
   ("quarter", anyOf ["quarter"; "quarterly"]);
   ("year", anyOf ["year"; "yearly"])].

(** A property of the [entities] object: [true], or the name of a state. *)
Inductive EntityValue : Type :=
| Flag
| Name (state : string).

(** The first loop of [extractEntities]: one flag per matching pattern. *)
Definition flagEntities (question : string) : gmap string EntityValue :=
  fold_left (fun entities '(entity, pattern) =>
               if test pattern question
               then <[entity := Flag]> entities else entities)
            entityPatterns ∅.

(** The second loop: the first state of the list that the question
    includes. *)
Definition firstState (question : string) : option string :=
  find (fun state => Str.includes question state) stateValues.

Definition extractEntities (question : string) : gmap string EntityValue :=
  let entities := flagEntities question in
  match firstState question with
  | Some state => <["state" := Name state]> entities
  | None => entities
  end.

(** *** Question types *)

Record QuestionType : Type := {
  comparison : bool;
  trend : bool;
  distribution : bool;
  composition : bool;
  subType : option string
}.

Record PatternGroup : Type := {
  patterns : list regex;
  subTypes : list (string * regex)
}.

(** [this.questionPatterns] *)
Definition questionPatterns : list (string * PatternGroup) :=
  [("comparison",
    {| patterns :=
         [anyOf ["compare"; "versus"; "vs"; "difference"; "top"; "bottom";
                 "highest"; "lowest"];
          anyOf ["which"; "who"; "what"; "show me"]];
       subTypes :=
         [("timeBased", anyOf ["over time"; "trend"; "monthly"; "yearly"; "daily"]);
          ("ranking", anyOf ["top"; "bottom"; "best"; "worst"; "highest"; "lowest"]);
          ("categorical", anyOf ["by"; "per"; "across"; "among"])] |});
   ("trend",
    {| patterns :=
         [anyOf ["trend"; "change"; "growth"; "decline"; "over time"];
          anyOf ["how has"; "how did"; "track"; "progress"]];
       subTypes := [] |});
   ("distribution",
    {| patterns :=
         [anyOf ["distribute"; "spread"; "range"; "variation"];
          anyOf ["how many"; "what is the distribution"]];
       subTypes := [] |});
   ("composition",
    {| patterns :=
         [anyOf ["breakdown"; "composition"; "make up"; "split"; "divide"];
          anyOf ["what percent"; "proportion"; "share"]];
       subTypes := [] |})].

Definition set_flag (type : string) (t : QuestionType) : QuestionType :=
  {| comparison := comparison t || String.eqb type "comparison";
     trend := trend t || String.eqb type "trend";
     distribution := distribution t || String.eqb type "distribution";
     composition := composition t || String.eqb type "composition";
     subType := subType t |}.

Definition set_subType (v : option string) (t : QuestionType) : QuestionType :=
  {| comparison := comparison t; trend := trend t;
     distribution := distribution t; composition := composition t;
     subType := v |}.

Definition analyzeQuestionType (question : string) : QuestionType :=
  fold_left
    (fun types '(type, group) =>
       if existsb (fun pattern => test pattern question) (patterns group) then
         let types := set_flag type types in
         match find (fun '(_, pattern) => test pattern question) (subTypes group) with
         | Some (subType, _) => set_subType (Some subType) types
         | None => types
         end
       else types)
    questionPatterns
    {| comparison := false; trend := false; distribution := false;
       composition := false; subType := None |}.

(** *** Data characteristics *)

Abbreviation Row := (gmap string string).

Record DataCharacteristics : Type := {
  recordCount : N;
  hasTimeComponent : bool;
  uniqueCategories : N;
  isHierarchical : bool
}.

(** [row.f] is truthy: present and not empty. *)
Definition has (row : Row) (f : string) : bool :=
  match row !! f with
  | Some v => Str.truthy v
  | None => false
  end.

(** [row.a || row.b || row.c]: the first truthy one, else the last. *)
Definition firstTruthy (row : Row) (a b c : string) : option string :=
  if has row a then row !! a
  else if has row b then row !! b
  else row !! c.

Definition checkForHierarchy (data : list Row) : bool :=
  match data with
  | [] => false
  | _ =>
      let hasParentChild :=
        existsb (fun row => has row "parent_id" || has row "parent"
                            || has row "category_parent"
                            || bool_decide (is_Some (row !! "level"))) data in
      let hasNesting :=
        existsb (fun row => has row "subcategory" || has row "sub_category"
                            || has row "child_category") data in
      hasParentChild || hasNesting
  end.

Definition analyzeDataCharacteristics (data : list Row) : DataCharacteristics :=
  match data with
  | [] =>
      {| recordCount := 0; hasTimeComponent := false;
         uniqueCategories := 0; isHierarchical := false |}
  | _ =>
      {| recordCount := N.of_nat (List.length data);
         hasTimeComponent :=
           existsb (fun row => has row "date" || has row "order_date"
                               || has row "timestamp") data;
         uniqueCategories :=
           N.of_nat (size (list_to_set
               (map (fun row => firstTruthy row "category" "customer_name" "name")
                    data) : gset (option string)));
         isHierarchical := checkForHierarchy data |}
  end.

(** *** The selector *)

Inductive Config : Type :=
| SortedValues (sorted showValues animation : bool)
| PointsTooltip (showPoints showTooltip animation : bool)
| Bins (bins : N)
| Grouped (grouped : bool)
| Percentage (showPercentage donut : bool)
| ShowValues (showValues : bool).

Record Selection : Type := {
  type : string;
  orientation : option string;
  config : Config
}.

(** [Math.ceil(Math.sqrt(n))] for a count [n]: the square root of a count
    is rounded correctly, so the result is the least [r] with [n <= r * r]. *)
Definition ceil_sqrt (n : N) : N :=
  let r := N.sqrt n in
  if (r * r =? n)%N then r else (r + 1)%N.

Definition subType_is (t : QuestionType) (v : string) : bool :=
  match subType t with
  | Some s => String.eqb s v
  | None => false
  end.

Definition line : Selection :=
  {| type := "line"; orientation := None;
     config := PointsTooltip true true true |}.

Definition selectVisualization {MetricType : Type} (visType : QuestionType)
    (metricType : MetricType) (dataCharacteristics : DataCharacteristics)
  : Selection :=
  if comparison visType && subType_is visType "ranking" then
    {| type := "bar"; orientation := Some "horizontal";
       config := SortedValues true true true |}
  else if comparison visType && subType_is visType "timeBased" then line
  else if trend visType && hasTimeComponent dataCharacteristics then line
  else if distribution visType then
    if (10 <? uniqueCategories dataCharacteristics)%N then
      {| type := "histogram"; orientation := None;
         config := Bins (N.min 20 (ceil_sqrt (recordCount dataCharacteristics))) |}
    else
      {| type := "bar"; orientation := Some "vertical";
         config := Grouped true |}
  else if composition visType then
    if (uniqueCategories dataCharacteristics <=? 5)%N then
      {| type := "pie"; orientation := None; config := Percentage true false |}
    else
      {| type := "treemap"; orientation := None; config := ShowValues true |}
  else
    {| type := "bar"; orientation := Some "vertical";
       config := ShowValues true |}.

(** *** From a question to a chart *)

(** What [determineVisualization] is given as [data]: the rows of a result,
    or, from [generateVisualization], the characteristics object, which is
    no array. *)
Inductive Data : Type :=
| array (rows : list Row)
| object (fields : DataCharacteristics).

(** [analyzeDataCharacteristics(data)] for either kind of [data]: what is
    no array is treated as an empty one. *)
Definition analyzeDataCharacteristicsOf (data : Data) : DataCharacteristics :=
  match data with
  | array rows => analyzeDataCharacteristics rows
  | object _ =>
      {| recordCount := 0; hasTimeComponent := false;
         uniqueCategories := 0; isHierarchical := false |}
  end.

(** [determineVisualization(question, data)].  The metric type that
    [analyzeMetricType] computes is not read by [selectVisualization]; it
    is left out. *)
Definition determineVisualization (question : string) (data : Data) : Selection :=
  let visType := analyzeQuestionType question in
  let dataCharacteristics := analyzeDataCharacteristicsOf data in
  selectVisualization visType tt dataCharacteristics.

(** The [chartType] and [orientation] of the object that
    [generateVisualization(visualizationType, data)] returns for an array
    of rows, where [question] is [visualizationType.question]. *)
Record Chart : Type := {
  chartType : string;
  chartOrientation : string
}.

Definition generateVisualization (question : string) (data : list Row) : Chart :=
  let dataCharacteristics := analyzeDataCharacteristics data in
  let visType := determineVisualization question (object dataCharacteristics) in
  {| chartType := if Str.truthy (type visType) then type visType else "bar";
     chartOrientation := default "vertical" (orientation visType) |}.

End Analyzer.

(** ** Vocabulary of the statements *)

(** [t] occurs in [s]. *)
Definition substring_of (t s : string) : Prop :=
  exists a b : string, s = a +:+ t +:+ b.

(** A word token: one or more characters of [\w]. *)
Definition word_token (w : string) : Prop :=
  w <> "" /\ Forall (fun c => Char.is_word c = true) (Str.chars w).

(** Title case: the first character in upper case, the others in lower case. *)
Definition titleCase (w : string) : string :=
  match w with
  | EmptyString => EmptyString
  | String c w' => String (Char.toUpperCase c) (Str.toLowerCase w')
  end.

(** The session maps the service can be in: the empty map of the
    constructor, and what [getContext] and [updateContext] make of one. *)
Inductive reachable : gmap string MCP.SessionContext -> Prop :=
| reach_new : reachable ∅
| reach_get contexts sessionId :
    reachable contexts -> reachable (MCP.getContext contexts sessionId).1
| reach_update now contexts sessionId result entities :
    reachable contexts ->
    reachable (MCP.updateContext now contexts sessionId result entities).

(** The history entry that [updateContext] records for a result. *)
Definition entryOf (now : N) (result : MCP.ResultData) : MCP.HistoryEntry :=
  {| MCP.question := MCP.title result;
     MCP.timestamp := now;
     MCP.type := MCP.vtype (MCP.visualization result) |}.


(** The history of a session in a session map; empty for an unknown session. *)
Definition history (contexts : gmap string MCP.SessionContext)
    (sessionId : string) : list MCP.HistoryEntry :=
  match contexts !! sessionId with
  | Some context => MCP.questions context
  | None => []
  end.

(** The last [n] elements of a list. *)
Definition lastn {A : Type} (n : nat) (l : list A) : list A :=
  skipn (List.length l - n) l.

(** Consecutive calls of [updateContext] on one session, each with its
    clock value, result and entities. *)
Definition applyUpdates (sessionId : string)
    (updates : list (N * MCP.ResultData * MCP.Entities))
    (contexts : gmap string MCP.SessionContext) : gmap string MCP.SessionContext :=
  fold_left (fun contexts '(now, result, entities) =>
               MCP.updateContext now contexts sessionId result entities)
            updates contexts.

Definition entryOfUpdate (u : N * MCP.ResultData * MCP.Entities) : MCP.HistoryEntry :=
  entryOf u.1.1 u.1.2.

(** Append an entry, then drop the oldest one when there are more than five. *)
Definition push_cap (h : list MCP.HistoryEntry) (e : MCP.HistoryEntry)
  : list MCP.HistoryEntry :=
  if (5 <? List.length (h ++ [e]))%nat then tail (h ++ [e]) else h ++ [e].

(** Both groups of a match are word tokens. *)
Definition two_words (f : Regex.found) : Prop :=
  exists w1 w2,
    w1 <> [] /\ Forall (fun c => Char.is_word c = true) w1 /\
    w2 <> [] /\ Forall (fun c => Char.is_word c = true) w2 /\
    Regex.group 1 f = Str.of_chars w1 /\ Regex.group 2 f = Str.of_chars w2.

(** Sample values for the instances below. *)
Definition sampleResult (title : string) : MCP.ResultData :=
  {| MCP.title := title; MCP.year := None;
     MCP.visualization := {| MCP.vtype := "line"; MCP.vdata := MCP.Points [] |};
     MCP.rawData := [] |}.

Definition noEntities : MCP.Entities :=
  {| MCP.temporal := []; MCP.categorical := []; MCP.metrics := [];
     MCP.geographic := None |}.

Definition sixUpdates : list (N * MCP.ResultData * MCP.Entities) :=
  map (fun title => (0%N, sampleResult title, noEntities))
      ["q1"; "q2"; "q3"; "q4"; "q5"; "q6"].

Definition sampleRow : MCP.Row :=
  {[ "customer_name" := "Ann"; "total_sales" := "10.5" ]}.

(** A driver that answers every statement with one row. *)
Definition oneRow (sql : string) : result (list MCP.Row) := Ok [sampleRow].

(** [/^\d{4}-(0[1-9]|1[0-2])-(0[1-9]|1\d|2[0-8])$/]: a calendar day written
    as year, month and day, with a day that every month has. *)
Definition dayPattern : Regex.regex :=
  let digit_in (lo hi : N) := Regex.Chr (Char.between lo hi) in
  Regex.Seq Regex.Bol
 (Regex.Seq (Regex.rep 4 Regex.digit)
 (Regex.Seq (Regex.lit "-")
 (Regex.Seq (Regex.Alt (Regex.Seq (Regex.lit "0") (digit_in 49%N 57%N))
                       (Regex.Seq (Regex.lit "1") (digit_in 48%N 50%N)))
 (Regex.Seq (Regex.lit "-")
 (Regex.Seq (Regex.alts [Regex.Seq (Regex.lit "0") (digit_in 49%N 57%N);
                         Regex.Seq (Regex.lit "1") Regex.digit;
                         Regex.Seq (Regex.lit "2") (digit_in 48%N 56%N)])
            Regex.Eol))))).

(** A reading of dates for the examples: such a day is a date, at midnight
    UTC; any other text is taken as no date. *)
Definition isoOfDay (v : string) : option string :=
  if Regex.test dayPattern v then Some (v +:+ "T00:00:00.000Z") else None.

(** A row of a monthly series, and a driver that answers with it. *)
Definition monthRow : MCP.Row :=
  {[ "month" := "2017-01-01"; "total_sales" := "10.5" ]}.

Definition oneMonth (sql : string) : result (list MCP.Row) := Ok [monthRow].

(** The rules of [selectVisualization] that come before the distribution
    rule: a comparison with the ranking or the time-based subtype, and a
    trend over data with a time component. *)
Definition earlier_rule (visType : Analyzer.QuestionType)
    (dataCharacteristics : Analyzer.DataCharacteristics) : bool :=
  (Analyzer.comparison visType
   && (Analyzer.subType_is visType "ranking"
       || Analyzer.subType_is visType "timeBased"))
  || (Analyzer.trend visType && Analyzer.hasTimeComponent dataCharacteristics).

(** Fifteen categories in a hundred records. *)
Definition fifteenOfHundred : Analyzer.DataCharacteristics :=
  {| Analyzer.recordCount := 100; Analyzer.hasTimeComponent := false;
     Analyzer.uniqueCategories := 15; Analyzer.isHierarchical := false |}.

(** The whitelist of the sanitizer as a list. *)
Definition whitelist : list string :=
  MCP.orders.temporal ++ MCP.orders.categorical ++ MCP.orders.metrics
  ++ ["DATE_TRUNC"].







(** The session maps of a running service: the empty map of the
    constructor, and what [processQuestion] leaves behind, whatever the
    database answers. *)
Inductive served : gmap string MCP.SessionContext -> Prop :=
| served_new : served ∅
| served_step pgQuery now toISOString contexts question sessionId :
    served contexts ->
    served (MCP.sessionContexts
              (MCP.processQuestion pgQuery now toISOString contexts question
                 sessionId)).

(** The state a session remembers after some updates: the geographic entity
    of the latest update that has one, else the state it had. *)
Definition latestGeographic (old : option string)
    (updates : list (N * MCP.ResultData * MCP.Entities)) : option string :=
  fold_left (fun acc '(_, _, entities) =>
               if MCP.truthy_opt (MCP.geographic entities)
               then MCP.geographic entities else acc)
            updates old.

(** The chart types of the results of [processQuestion]. *)
Definition resultCharts : list string := ["multi-line"; "horizontal-bar"; "line"].

(** A letter of [[A-Za-z]] or white space. *)
Definition letter_or_space (c : ascii) : bool := Char.is_alpha c || Char.is_space c.

(** The plans of the four branches of [processQuestion]. *)
Definition branch_plan (p : MCP.QueryPlan) : Prop :=
  (exists states year, p = MCP.comparisonPlan states year)
  \/ (exists limit geographic year,
        p = MCP.rankingPlan limit geographic year /\ (0 < limit)%N)
  \/ (exists geographic, p = MCP.trendPlan geographic)
  \/ (exists geographic, p = MCP.defaultRankingPlan geographic).

(** The results the branches build: the rows as they came, no [year], one
    of three chart types; or the exception of an invalid date. *)
Definition branch_result (build : list MCP.Row -> result MCP.ResultData) : Prop :=
  forall data,
    (exists result,
        build data = Ok result
        /\ MCP.rawData result = data /\ MCP.year result = None
        /\ In (MCP.vtype (MCP.visualization result)) resultCharts)
    \/ build data = Throw (RangeError "Invalid time value").

(** What every context of a running service satisfies. *)
Definition steady (context : MCP.SessionContext) : Prop :=
  MCP.lastMetric context = "sales" /\ MCP.lastLimit context = 5%N
  /\ MCP.lastYear context = None
  /\ (List.length (MCP.questions context) <= 5)%nat
  /\ Forall (fun entry => In (MCP.type entry) resultCharts) (MCP.questions context).

(** The check of a year text: it reads as a number from 1900 to 2099 and
    that number prints as the text. *)
Definition year_ok (w : string) : bool :=
  (1900 <=? Str.parseInt w)%N && (Str.parseInt w <=? 2099)%N
  && String.eqb (Str.of_N (Str.parseInt w)) w.

Definition digits : list ascii := Str.chars "0123456789".

(** Eleven rows with eleven customers. *)
Definition elevenRows : list Analyzer.Row :=
  map (fun n => {[ "customer_name" := Str.of_N (N.of_nat n) ]}) (seq 0 11).

(** * Properties *)

(** ** The matcher *)

Module RegexFacts.

Import Regex.

Section Loop.

Variable r : regex.
Variable step : mstate -> (mstate -> option mstate) -> option mstate.
Hypothesis step_sound :
  forall s k x, step s k = Some x ->
                exists s', matches r s s' /\ k s' = Some x.

Lemma star_loop_sound (g : bool) (k : mstate -> option mstate) (x : mstate) :
  forall (fuel : nat) (s : mstate),
    star_loop g step k fuel s = Some x ->
    exists s', matches (Star g r) s s' /\ k s' = Some x.
Proof.
  induction fuel as [ | fuel IH]; intros s H; simpl in H.
  - exists s. split; [constructor | exact H].
  - assert (Hagain :
      step s (fun s1 => if (List.length (rest s1) <? List.length (rest s))%nat
                        then star_loop g step k fuel s1 else None) = Some x ->
      exists s', matches (Star g r) s s' /\ k s' = Some x).
    { intros E. apply step_sound in E as (s1 & M1 & E).
      destruct (_ <? _)%nat; [ | discriminate].
      apply IH in E as (s2 & M2 & E).
      exists s2. split; [eapply m_star_step; eassumption | exact E]. }
    destruct g.
    + destruct (step s _) eqn:E.
      * injection H as ->. now apply Hagain.
      * exists s. split; [constructor | exact H].
    + destruct (k s) eqn:Ek.
      * injection H as ->. exists s. split; [constructor | exact Ek].
      * now apply Hagain.
Qed.

End Loop.

(** Whatever the matcher returns went through the continuation at a state
    the pattern relates to the start. *)
Lemma run_sound (r : regex) :
  forall (s : mstate) (k : mstate -> option mstate) (x : mstate),
    run r s k = Some x ->
    exists s', matches r s s' /\ k s' = Some x.
Proof.
  induction r as [ | p | r1 IH1 r2 IH2 | r1 IH1 r2 IH2 | g r1 IH1
                 | n r1 IH1 | r1 IH1 | | | ]; intros s k x H; simpl in H.
  - exists s. split; [constructor | exact H].
  - destruct (rest s) as [ | c tl] eqn:Hr; [discriminate | ].
    destruct (p c) eqn:Hp; [ | discriminate].
    exists (advance c tl s). split; [now constructor | exact H].
  - apply IH1 in H as (s1 & M1 & H). apply IH2 in H as (s2 & M2 & H).
    exists s2. split; [econstructor; eassumption | exact H].
  - destruct (run r1 s k) eqn:E.
    + injection H as ->. apply IH1 in E as (s1 & M1 & E).
      exists s1. split; [now apply m_alt_l | exact E].
    + apply IH2 in H as (s1 & M1 & H).
      exists s1. split; [now apply m_alt_r | exact H].
  - exact (star_loop_sound r1 (run r1) IH1 g k x (S (List.length (rest s))) s H).
  - apply IH1 in H as (s1 & M1 & H).
    exists (set_cap n (consumed s s1) s1). split; [now constructor | exact H].
  - destruct (run r1 s Some) eqn:E; [ | discriminate].
    apply IH1 in E as (s1 & M1 & E). injection E as <-.
    exists (with_caps (caps s1) s). split; [now constructor | exact H].
  - destruct (prev s) eqn:E; [ | discriminate].
    exists s. split; [now constructor | exact H].
  - destruct (rest s) eqn:E; [ | discriminate].
    exists s. split; [now constructor | exact H].
  - destruct (at_word_boundary s) eqn:E; [ | discriminate].
    exists s. split; [now constructor | exact H].
Qed.

(** A successful search is a match of the pattern from some position, and
    the groups of the result are the captures of that match. *)
Lemma search_sound (r : regex) :
  forall (inp pre : list ascii) (f : found),
    search r pre inp = Some f ->
    exists pre' inp' s1,
      matches r (start pre' inp') s1 /\ groups f = caps s1
      /\ rev pre ++ inp = rev pre' ++ inp'
      /\ before f = rev pre' /\ after f = rest s1
      /\ matched f = consumed (start pre' inp') s1.
Proof.
  induction inp as [ | c tl IH]; intros pre f H; simpl in H.
  - destruct (run r (start pre []) Some) eqn:E; [ | discriminate].
    injection H as <-. apply run_sound in E as (s1 & M & E).
    injection E as <-. exists pre, [], s1. repeat split; auto.
  - destruct (run r (start pre (c :: tl)) Some) eqn:E.
    + injection H as <-. apply run_sound in E as (s1 & M & E).
      injection E as <-. exists pre, (c :: tl), s1. repeat split; auto.
    + apply IH in H as (pre' & inp' & s1 & M & G & Hs & R).
      exists pre', inp', s1. simpl in Hs. rewrite <- app_assoc in Hs.
      split; [exact M | ]. split; [exact G | ]. split; [exact Hs | exact R].
Qed.

(** A pattern moves forward in the input. *)
Lemma matches_rest (r : regex) (s s' : mstate) :
  matches r s s' -> exists w, rest s = w ++ rest s'.
Proof.
  induction 1 as [ s | p c tl s Hr Hp | r1 r2 s s1 s2 _ [w1 E1] _ [w2 E2]
                 | r1 r2 s s1 _ IH | r1 r2 s s1 _ IH | g r s
                 | g r s s1 s2 _ [w1 E1] _ [w2 E2] | n r s s1 _ IH
                 | r s s1 _ IH | s | s | s ];
    try (exists []; reflexivity); try exact IH.
  - exists [c]. simpl. exact Hr.
  - exists (w1 ++ w2). rewrite E1, E2. now rewrite app_assoc.
  - exists (w1 ++ w2). rewrite E1, E2. now rewrite app_assoc.
Qed.

(** A pattern without groups leaves the captures alone. *)
Lemma matches_groupless (r : regex) (s s' : mstate) :
  matches r s s' -> groupless r = true -> caps s' = caps s.
Proof.
  induction 1; simpl; intros G; try reflexivity;
    try (apply andb_true_iff in G as [G1 G2]); try discriminate; auto.
  - rewrite IHmatches2, IHmatches1; auto.
  - rewrite IHmatches2, IHmatches1; auto.
Qed.

Lemma consumed_app (s s1 : mstate) (w : list ascii) :
  rest s = w ++ rest s1 -> consumed s s1 = w.
Proof.
  intros E. unfold consumed. rewrite E, length_app.
  replace (List.length w + List.length (rest s1) - List.length (rest s1))%nat
    with (List.length w) by lia.
  now rewrite firstn_app, Nat.sub_diag, firstn_all, app_nil_r.
Qed.

(** One or more characters of a class. *)
Lemma matches_star_chr (g : bool) (p : ascii -> bool) (s s' : mstate) :
  matches (Star g (Chr p)) s s' ->
  exists w, Forall (fun c => p c = true) w
            /\ rest s = w ++ rest s' /\ caps s' = caps s.
Proof.
  intros M. remember (Star g (Chr p)) as r eqn:Er.
  induction M; try discriminate; injection Er as -> ->.
  - exists []. auto.
  - destruct (IHM2 eq_refl) as (w & F & E & C).
    inversion M1 as [ | p0 c tl s0 Hr Hp | | | | | | | | | | ]; subst.
    exists (c :: w). simpl in E, C. split; [now constructor | ].
    split; [ | exact C]. rewrite Hr, E. reflexivity.
Qed.

Lemma matches_plus_chr (g : bool) (p : ascii -> bool) (s s' : mstate) :
  matches (Seq (Chr p) (Star g (Chr p))) s s' ->
  exists w, w <> [] /\ Forall (fun c => p c = true) w
            /\ rest s = w ++ rest s' /\ caps s' = caps s.
Proof.
  intros M. inversion M as [ | | r1 r2 s0 s1 s2 M1 M2 | | | | | | | | | ]; subst.
  inversion M1 as [ | p0 c tl s3 Hr Hp | | | | | | | | | | ]; subst.
  apply matches_star_chr in M2 as (w & F & E & C).
  exists (c :: w). simpl in E, C. split; [discriminate | ].
  split; [now constructor | ]. split; [ | exact C].
  rewrite Hr, E. reflexivity.
Qed.

(** A group around one or more characters of a class captures them. *)
Lemma matches_group_plus (n : nat) (g : bool) (p : ascii -> bool) (s s' : mstate) :
  matches (Group n (Seq (Chr p) (Star g (Chr p)))) s s' ->
  exists w, w <> [] /\ Forall (fun c => p c = true) w
            /\ rest s = w ++ rest s' /\ caps s' = (n, w) :: caps s.
Proof.
  intros M. inversion M; subst.
  match goal with H : matches (Seq _ _) _ _ |- _ =>
    apply matches_plus_chr in H as (w & N & F & E & C) end.
  exists w. simpl. rewrite C. rewrite (consumed_app _ _ _ E). auto.
Qed.

End RegexFacts.

(** ** Characters and strings *)

Module StrFacts.

Ltac by_cases_on_char c :=
  destruct c as [[] [] [] [] [] [] [] []]; vm_compute; intros;
  first [reflexivity | discriminate | congruence].

Lemma word_not_space (c : ascii) :
  Char.is_word c = true -> Char.is_space c = false.
Proof. by_cases_on_char c. Qed.

Lemma word_toUpperCase (c : ascii) :
  Char.is_word c = true -> Char.is_word (Char.toUpperCase c) = true.
Proof. by_cases_on_char c. Qed.

Lemma word_toLowerCase (c : ascii) :
  Char.is_word c = true -> Char.is_word (Char.toLowerCase c) = true.
Proof. by_cases_on_char c. Qed.

Lemma chars_of_chars (l : list ascii) : Str.chars (Str.of_chars l) = l.
Proof. apply list_ascii_of_string_of_list_ascii. Qed.

Lemma of_chars_chars (s : string) : Str.of_chars (Str.chars s) = s.
Proof. apply string_of_list_ascii_of_string. Qed.

Lemma of_chars_app (a b : list ascii) :
  Str.of_chars (a ++ b) = Str.of_chars a +:+ Str.of_chars b.
Proof. induction a as [ | c a IH]; simpl; [reflexivity | now rewrite IH]. Qed.

Lemma chars_app (a b : string) :
  Str.chars (a +:+ b) = Str.chars a ++ Str.chars b.
Proof. induction a as [ | c a IH]; simpl; [reflexivity | now rewrite IH]. Qed.

Lemma drop_while_head (p : ascii -> bool) (c : ascii) (l : list ascii) :
  p c = false -> Str.drop_while p (c :: l) = c :: l.
Proof. intros H. simpl. now rewrite H. Qed.

(** Trimming leaves a word token as it is. *)
Lemma trim_word (w : list ascii) :
  Forall (fun c => Char.is_word c = true) w ->
  Str.trim (Str.of_chars w) = Str.of_chars w.
Proof.
  intros F. unfold Str.trim. rewrite chars_of_chars.
  destruct w as [ | c w]; [reflexivity | ].
  rewrite drop_while_head
    by (apply word_not_space; now inversion F).
  apply Forall_rev in F.
  destruct (rev (c :: w)) as [ | d l] eqn:E.
  - apply (f_equal (@rev ascii)) in E. rewrite rev_involutive in E.
    discriminate.
  - rewrite drop_while_head
      by (apply word_not_space; now inversion F).
    rewrite <- E, rev_involutive. reflexivity.
Qed.

Lemma capitalize_word (w : list ascii) :
  Forall (fun c => Char.is_word c = true) w ->
  MCP.capitalize (Str.of_chars w) = titleCase (Str.of_chars w).
Proof.
  intros F. unfold MCP.capitalize. rewrite (trim_word w F).
  destruct w as [ | c w]; reflexivity.
Qed.

Lemma word_token_of_chars (w : list ascii) :
  w <> [] -> Forall (fun c => Char.is_word c = true) w ->
  word_token (Str.of_chars w).
Proof.
  intros N F. split.
  - destruct w; [contradiction | discriminate].
  - now rewrite chars_of_chars.
Qed.

(** The title case of a word token has no white space in it. *)
Lemma titleCase_no_space (w : string) :
  word_token w ->
  Forall (fun c => Char.is_space c = false) (Str.chars (titleCase w)).
Proof.
  intros [_ F]. destruct w as [ | c w]; simpl; [constructor | ].
  simpl in F. inversion F as [ | c0 l0 Hc Hw]; subst. constructor.
  - now apply word_not_space, word_toUpperCase.
  - unfold Str.toLowerCase. rewrite chars_of_chars.
    apply List.Forall_map. eapply List.Forall_impl; [ | exact Hw].
    intros a Ha. now apply word_not_space, word_toLowerCase.
Qed.

End StrFacts.

(** ** The names of a comparison *)

Module ComparisonFacts.

Import Regex RegexFacts StrFacts MCP.

Lemma matches_seq_inv (r1 r2 : regex) (s s' : mstate) :
  matches (Seq r1 r2) s s' ->
  exists s1, matches r1 s s1 /\ matches r2 s1 s'.
Proof. intros M. inversion M; subst. eauto. Qed.

(** Skip a leading part that has no group. *)
Lemma matches_seq_groupless (r1 r2 : regex) (s s' : mstate) :
  matches (Seq r1 r2) s s' -> groupless r1 = true ->
  exists s1, caps s1 = caps s /\ matches r2 s1 s'.
Proof.
  intros M G. apply matches_seq_inv in M as (s1 & M1 & M2).
  exists s1. split; [eapply matches_groupless; eassumption | exact M2].
Qed.

(** Take a leading group of word characters. *)
Lemma matches_seq_word_group (n : nat) (r2 : regex) (s s' : mstate) :
  matches (Seq (Group n (plus word)) r2) s s' ->
  exists w s1, w <> [] /\ Forall (fun c => Char.is_word c = true) w
               /\ caps s1 = (n, w) :: caps s /\ matches r2 s1 s'.
Proof.
  intros M. apply matches_seq_inv in M as (s1 & M1 & M2).
  apply (matches_group_plus n true Char.is_word) in M1 as (w & N & F & _ & C).
  exists w, s1. auto.
Qed.

Lemma vsPattern_groups (q : string) (f : found) :
  exec vsPattern q = Some f -> two_words f.
Proof.
  intros H. apply search_sound in H as (pre & inp & s1 & M & G & _).
  unfold vsPattern in M.
  apply matches_seq_word_group in M as (w1 & sa & N1 & F1 & Ca & M).
  apply matches_seq_groupless in M as (sb & Cb & M); [ | reflexivity].
  apply matches_seq_groupless in M as (sc & Cc & M); [ | reflexivity].
  apply matches_seq_groupless in M as (sd & Cd & M); [ | reflexivity].
  apply (matches_group_plus 2 true Char.is_word) in M as (w2 & N2 & F2 & _ & C).
  exists w1, w2. unfold group. rewrite G, C, Cd, Cc, Cb, Ca. simpl.
  repeat split; assumption.
Qed.

Lemma betweenPattern_groups (q : string) (f : found) :
  exec betweenPattern q = Some f -> two_words f.
Proof.
  intros H. apply search_sound in H as (pre & inp & s1 & M & G & _).
  unfold betweenPattern in M.
  apply matches_seq_groupless in M as (sa & Ca & M); [ | reflexivity].
  apply matches_seq_groupless in M as (sb & Cb & M); [ | reflexivity].
  apply matches_seq_word_group in M as (w1 & sc & N1 & F1 & Cc & M).
  apply matches_seq_groupless in M as (sd & Cd & M); [ | reflexivity].
  apply matches_seq_groupless in M as (se & Ce & M); [ | reflexivity].
  apply matches_seq_groupless in M as (sf & Cf & M); [ | reflexivity].
  apply (matches_group_plus 2 true Char.is_word) in M as (w2 & N2 & F2 & _ & C).
  exists w1, w2. unfold group. rewrite G, C, Cf, Ce, Cd, Cc. simpl.
  repeat split; assumption.
Qed.

Lemma two_words_names (f : found) :
  two_words f ->
  exists w1 w2, word_token w1 /\ word_token w2 /\
    map capitalize [group 1 f; group 2 f] = [titleCase w1; titleCase w2].
Proof.
  intros (w1 & w2 & N1 & F1 & N2 & F2 & -> & ->).
  exists (Str.of_chars w1), (Str.of_chars w2).
  split; [now apply word_token_of_chars | ].
  split; [now apply word_token_of_chars | ].
  simpl. now rewrite !capitalize_word.
Qed.

Lemma extractComparisonStates_shape (question : string) :
  extractComparisonStates question = [] \/
  exists w1 w2, word_token w1 /\ word_token w2 /\
    extractComparisonStates question = [titleCase w1; titleCase w2].
Proof.
  unfold extractComparisonStates.
  destruct (exec betweenPattern _) as [fb | ] eqn:Eb.
  - right. apply two_words_names. eapply betweenPattern_groups; eassumption.
  - destruct (exec vsPattern _) as [fv | ] eqn:Ev.
    + right. apply two_words_names. eapply vsPattern_groups; eassumption.
    + left. reflexivity.
Qed.

End ComparisonFacts.

(** ** Substrings *)

Module IncludesFacts.

Import StrFacts.

Lemma starts_with_spec (t s : list ascii) :
  Str.starts_with t s = true <-> exists b, s = t ++ b.
Proof.
  revert s. induction t as [ | a t IH]; intros s; simpl.
  - split; [intros _; now exists s | reflexivity].
  - destruct s as [ | b s].
    + split; [discriminate | intros [x H]; discriminate].
    + rewrite andb_true_iff, IH. split.
      * intros [E [x ->]]. apply Ascii.eqb_eq in E as ->. now exists x.
      * intros [x H]. injection H as -> ->. split; [apply Ascii.eqb_refl | now exists x].
Qed.

Lemma includes_chars_spec (s t : list ascii) :
  Str.includes_chars s t = true <-> exists a b, s = a ++ t ++ b.
Proof.
  induction s as [ | c s IH]; simpl; rewrite orb_true_iff, starts_with_spec.
  - split.
    + intros [[b H] | H]; [ | discriminate]. now exists [], b.
    + intros (a & b & H). left. destruct a; [now exists b | discriminate].
  - rewrite IH. split.
    + intros [[b H] | (a & b & ->)]; [now exists [], b | now exists (c :: a), b].
    + intros (a & b & H). destruct a as [ | c' a]; simpl in H.
      * left. now exists b.
      * right. injection H as -> ->. now exists a, b.
Qed.




End IncludesFacts.

(** ** Statements about [MCPAnalyzer] *)

Module AnalyzerFacts.

Import Analyzer IncludesFacts.



Example extractEntities_ohio_texas :
  extractEntities "sales in Ohio and Texas" !! "state" = Some (Name "Texas").
Proof. vm_compute. reflexivity. Qed.


End AnalyzerFacts.

(** ** Statements about [extractComparisonStates] *)

Module ComparisonClaims.

Import MCP StrFacts ComparisonFacts.

(** C10, as amended.  For every question, [extractComparisonStates] returns
    no name at all, or exactly two names, each the title case of one word
    token; no name it returns contains white space.  A state name of
    several words is cut down to one word next to the keyword by the [vs]
    pattern ("New York vs New Jersey" gives York and New), while
    "between New York and New Jersey" matches neither pattern and gives no
    name. *)
Theorem extractComparisonStates_single_words (question : string) :
  (extractComparisonStates question = [] \/
   exists w1 w2, word_token w1 /\ word_token w2 /\
     extractComparisonStates question = [titleCase w1; titleCase w2])
  /\ Forall (fun name =>
               Forall (fun c => Char.is_space c = false) (Str.chars name))
       (extractComparisonStates question)
  /\ extractComparisonStates "New York vs New Jersey" = ["York"; "New"]
  /\ extractComparisonStates "between New York and New Jersey" = [].
Proof.
  split; [apply extractComparisonStates_shape | ].
  split; [ | split; vm_compute; reflexivity].
  destruct (extractComparisonStates_shape question)
    as [-> | (w1 & w2 & T1 & T2 & ->)]; [constructor | ].
  repeat constructor; now apply titleCase_no_space.
Qed.

(** C10, as stated, gives York and New for the [between] phrase. *)
Lemma extractComparisonStates_between_new_york :
  extractComparisonStates "between New York and New Jersey" <> ["York"; "New"].
Proof. vm_compute. discriminate. Qed.

End ComparisonClaims.

(** ** The history of a session *)

Module HistoryFacts.

Import MCP.

Lemma lastn_all {A : Type} (n : nat) (l : list A) :
  (List.length l <= n)%nat -> lastn n l = l.
Proof.
  intros H. unfold lastn.
  replace (List.length l - n)%nat with 0%nat by lia. reflexivity.
Qed.

Lemma lastn_length {A : Type} (n : nat) (l : list A) :
  List.length (lastn n l) = Nat.min n (List.length l).
Proof. unfold lastn. rewrite length_skipn. lia. Qed.

(** Keeping the last [n] on the way does not change the last [n]. *)
Lemma lastn_app_lastn {A : Type} (n : nat) (l m : list A) :
  lastn n (lastn n l ++ m) = lastn n (l ++ m).
Proof.
  destruct (Nat.le_gt_cases (List.length l) n) as [H | H].
  - now rewrite (lastn_all n l H).
  - unfold lastn at 1 3. rewrite !length_app, lastn_length.
    rewrite !List.skipn_app, lastn_length. unfold lastn.
    rewrite List.skipn_skipn. f_equal; f_equal; lia.
Qed.

Lemma push_cap_lastn (h : list HistoryEntry) (e : HistoryEntry) :
  (List.length h <= 5)%nat -> push_cap h e = lastn 5 (h ++ [e]).
Proof.
  intros H. unfold push_cap, lastn. rewrite length_app. simpl.
  destruct (5 <? _)%nat eqn:E.
  - apply Nat.ltb_lt in E.
    replace (List.length h + 1 - 5)%nat with 1%nat by lia. reflexivity.
  - apply Nat.ltb_ge in E.
    replace (List.length h + 1 - 5)%nat with 0%nat by lia. reflexivity.
Qed.

Lemma getContext_lookup (contexts : gmap string SessionContext) (sessionId : string) :
  (getContext contexts sessionId).1 !! sessionId
  = Some (getContext contexts sessionId).2.
Proof.
  unfold getContext. destruct (contexts !! sessionId) eqn:E; simpl.
  - exact E.
  - apply lookup_insert_eq.
Qed.

(** Creating a context does not change any history. *)
Lemma history_getContext (contexts : gmap string SessionContext)
    (sessionId other : string) :
  history (getContext contexts sessionId).1 other = history contexts other.
Proof.
  unfold getContext, history.
  destruct (contexts !! sessionId) eqn:E; simpl; [reflexivity | ].
  destruct (decide (sessionId = other)) as [<- | Hne].
  - now rewrite lookup_insert_eq, E.
  - now rewrite lookup_insert_ne.
Qed.

Lemma history_getContext_2 (contexts : gmap string SessionContext)
    (sessionId : string) :
  questions (getContext contexts sessionId).2 = history contexts sessionId.
Proof.
  unfold getContext, history. now destruct (contexts !! sessionId).
Qed.

Lemma history_updateContext (now : N) (contexts : gmap string SessionContext)
    (sessionId : string) (result : ResultData) (entities : Entities) :
  history (updateContext now contexts sessionId result entities) sessionId
  = push_cap (history contexts sessionId) (entryOf now result).
Proof.
  unfold updateContext.
  pose proof (history_getContext_2 contexts sessionId) as Hq.
  destruct (getContext contexts sessionId) as [contexts' context].
  simpl in Hq. unfold history at 1. rewrite lookup_insert_eq.
  unfold push_cap, entryOf. rewrite <- Hq.
  destruct (truthy_opt _), (truthy_num _); simpl;
    destruct (5 <? _)%nat; reflexivity.
Qed.

Lemma history_updateContext_ne (now : N) (contexts : gmap string SessionContext)
    (sessionId other : string) (result : ResultData) (entities : Entities) :
  sessionId <> other ->
  history (updateContext now contexts sessionId result entities) other
  = history contexts other.
Proof.
  intros Hne. unfold updateContext.
  pose proof (history_getContext contexts sessionId other) as Hq.
  destruct (getContext contexts sessionId) as [contexts' context].
  simpl in Hq. unfold history at 1. rewrite lookup_insert_ne by exact Hne.
  exact Hq.
Qed.

Lemma push_cap_length (h : list HistoryEntry) (e : HistoryEntry) :
  (List.length h <= 5)%nat -> (List.length (push_cap h e) <= 5)%nat.
Proof.
  intros H. rewrite push_cap_lastn by exact H. rewrite lastn_length. lia.
Qed.

(** No reachable session map holds a history of more than five entries. *)
Lemma reachable_capped (contexts : gmap string SessionContext) :
  reachable contexts ->
  forall sessionId, (List.length (history contexts sessionId) <= 5)%nat.
Proof.
  induction 1 as [ | contexts sessionId _ IH
                 | now contexts sessionId result entities _ IH]; intros other.
  - unfold history. rewrite lookup_empty. simpl. lia.
  - rewrite history_getContext. apply IH.
  - destruct (decide (sessionId = other)) as [<- | Hne].
    + rewrite history_updateContext. apply push_cap_length, IH.
    + rewrite history_updateContext_ne by exact Hne. apply IH.
Qed.

Lemma reachable_applyUpdates (sessionId : string)
    (updates : list (N * ResultData * Entities)) :
  forall contexts, reachable contexts ->
                   reachable (applyUpdates sessionId updates contexts).
Proof.
  induction updates as [ | [[now result] entities] updates IH];
    intros contexts R; simpl; [exact R | ].
  apply IH. now constructor.
Qed.

Lemma history_applyUpdates (sessionId : string)
    (updates : list (N * ResultData * Entities)) :
  forall contexts,
    (List.length (history contexts sessionId) <= 5)%nat ->
    history (applyUpdates sessionId updates contexts) sessionId
    = lastn 5 (history contexts sessionId ++ map entryOfUpdate updates).
Proof.
  induction updates as [ | [[now result] entities] updates IH];
    intros contexts H; simpl.
  - rewrite app_nil_r. symmetry. now apply lastn_all.
  - rewrite IH; rewrite history_updateContext.
    + rewrite push_cap_lastn by exact H.
      rewrite lastn_app_lastn, <- app_assoc. reflexivity.
    + now apply push_cap_length.
Qed.

(** C8.  In every session map the service can reach, and after any further
    calls of [updateContext] on a session, the history of the session
    holds at most five entries: the last five of all that were recorded,
    the oldest dropped first.  After six calls it holds exactly the
    entries of the last five calls; the entry of the first call is gone. *)
Theorem history_capped_at_five (contexts : gmap string SessionContext)
    (sessionId : string) (updates : list (N * ResultData * Entities)) :
  reachable contexts ->
  let after := applyUpdates sessionId updates contexts in
  (List.length (history after sessionId) <= 5)%nat
  /\ history after sessionId
     = lastn 5 (history contexts sessionId ++ map entryOfUpdate updates)
  /\ (List.length updates = 6%nat ->
      history after sessionId = map entryOfUpdate (tail updates)
      /\ List.length (history after sessionId) = 5%nat).
Proof.
  intros R after. pose proof (reachable_capped contexts R sessionId) as Hc.
  split; [apply reachable_capped, reachable_applyUpdates, R | ].
  assert (E : history after sessionId
              = lastn 5 (history contexts sessionId ++ map entryOfUpdate updates))
    by (now apply history_applyUpdates).
  split; [exact E | ]. intros H6. rewrite E.
  assert (T : lastn 5 (history contexts sessionId ++ map entryOfUpdate updates)
              = map entryOfUpdate (tail updates)).
  { unfold lastn. rewrite length_app, length_map, H6, List.skipn_app.
    rewrite List.skipn_all2 by lia.
    replace (List.length (history contexts sessionId) + 6 - 5
             - List.length (history contexts sessionId))%nat with 1%nat by lia.
    destruct updates; reflexivity. }
  rewrite T. split; [reflexivity | ].
  rewrite length_map. destruct updates; simpl in *; lia.
Qed.

(** Six calls on a new session leave the entries of the last five. *)
Lemma history_capped_at_five_witness :
  let after := applyUpdates "s1" sixUpdates ∅ in
  (List.length (history after "s1") <= 5)%nat
  /\ history after "s1"
     = lastn 5 (history ∅ "s1" ++ map entryOfUpdate sixUpdates)
  /\ (List.length sixUpdates = 6%nat ->
      history after "s1" = map entryOfUpdate (tail sixUpdates)
      /\ List.length (history after "s1") = 5%nat).
Proof. exact (history_capped_at_five ∅ "s1" sixUpdates reach_new). Defined.

End HistoryFacts.

(** ** Statements about the visualization selector *)

Module SelectorFacts.

Import Analyzer.

(** [ceil_sqrt n] is the least number whose square reaches [n]. *)
Lemma ceil_sqrt_spec (n : N) :
  (n <= ceil_sqrt n * ceil_sqrt n)%N
  /\ forall r, (n <= r * r)%N -> (ceil_sqrt n <= r)%N.
Proof.
  unfold ceil_sqrt. pose proof (N.sqrt_spec n (N.le_0_l n)) as [Hlo Hhi].
  cbv zeta. destruct (N.eqb_spec (N.sqrt n * N.sqrt n) n) as [E | Hne].
  - split; [lia | ]. intros r Hr. nia.
  - split; [nia | ]. intros r Hr. nia.
Qed.

(** C9, as amended.  When the distribution flag of the question type is
    set, no earlier rule of the decision tree applies and the data has
    more than ten unique categories, [selectVisualization] returns a
    histogram whose number of bins is the smaller of 20 and the rounded-up
    square root of the record count; for 100 records that is 10 bins. *)
Theorem selectVisualization_histogram {MetricType : Type}
    (visType : QuestionType) (metricType : MetricType)
    (dataCharacteristics : DataCharacteristics) :
  distribution visType = true ->
  earlier_rule visType dataCharacteristics = false ->
  (10 < uniqueCategories dataCharacteristics)%N ->
  let n := recordCount dataCharacteristics in
  selectVisualization visType metricType dataCharacteristics
  = {| type := "histogram"; orientation := None;
       config := Bins (N.min 20 (ceil_sqrt n)) |}
  /\ (n <= ceil_sqrt n * ceil_sqrt n)%N
  /\ (forall r, (n <= r * r)%N -> (ceil_sqrt n <= r)%N)
  /\ (n = 100%N -> N.min 20 (ceil_sqrt n) = 10%N).
Proof.
  intros Hd He Hu n. split; [ | split; [apply ceil_sqrt_spec | split]].
  - unfold selectVisualization. unfold earlier_rule in He.
    apply orb_false_iff in He as [Hc Ht]. rewrite Ht.
    destruct (comparison visType); simpl in Hc |- *.
    + apply orb_false_iff in Hc as [-> ->]. rewrite Hd.
      apply N.ltb_lt in Hu. now rewrite Hu.
    + rewrite Hd. apply N.ltb_lt in Hu. now rewrite Hu.
  - apply ceil_sqrt_spec.
  - intros ->. reflexivity.
Qed.

(** "spread of sales" is a distribution question and nothing else. *)
Lemma selectVisualization_histogram_witness :
  let n := recordCount fifteenOfHundred in
  selectVisualization (analyzeQuestionType "spread of sales") tt fifteenOfHundred
  = {| type := "histogram"; orientation := None;
       config := Bins (N.min 20 (ceil_sqrt n)) |}
  /\ (n <= ceil_sqrt n * ceil_sqrt n)%N
  /\ (forall r, (n <= r * r)%N -> (ceil_sqrt n <= r)%N)
  /\ (n = 100%N -> N.min 20 (ceil_sqrt n) = 10%N).
Proof.
  apply (selectVisualization_histogram
           (analyzeQuestionType "spread of sales") tt fifteenOfHundred).
  - vm_compute. reflexivity.
  - vm_compute. reflexivity.
  - vm_compute. reflexivity.
Defined.

(** C9, as stated, fails for a question that is a distribution question
    and a ranking comparison at once: "top spread" sets both flags, and
    the ranking rule comes first. *)
Lemma distribution_flag_without_histogram :
  distribution (analyzeQuestionType "top spread") = true
  /\ (10 < uniqueCategories fifteenOfHundred)%N
  /\ selectVisualization (analyzeQuestionType "top spread") tt fifteenOfHundred
     = {| type := "bar"; orientation := Some "horizontal";
          config := SortedValues true true true |}
  /\ type (selectVisualization (analyzeQuestionType "top spread") tt
             fifteenOfHundred) <> "histogram".
Proof.
  split; [vm_compute; reflexivity | ].
  split; [vm_compute; reflexivity | ].
  split; [vm_compute; reflexivity | ].
  vm_compute. discriminate.
Qed.

End SelectorFacts.

(** ** Statements about [processQuestion] *)

Module ProcessFacts.

Import MCP.

(** [finish] hands exactly its plan to the executor. *)
Lemma executed_finish pgQuery now contexts sessionId entities queryPlan build :
  executed (finish pgQuery now contexts sessionId entities queryPlan build)
  = [queryPlan].
Proof.
  unfold finish. destruct (executeQuery pgQuery queryPlan) as [data | error];
    [destruct (build data) | ]; reflexivity.
Qed.

Lemma response_finish_Ok pgQuery now contexts sessionId entities queryPlan build
    (row : Row) (rows : list Row) (result : ResultData) :
  pgQuery (buildSQL queryPlan) = Ok (row :: rows) ->
  build (row :: rows) = Ok result ->
  response (finish pgQuery now contexts sessionId entities queryPlan build)
  = Ok result
  /\ sessionContexts (finish pgQuery now contexts sessionId entities queryPlan build)
     = updateContext now contexts sessionId result entities.
Proof.
  intros H Hb. unfold finish, executeQuery. rewrite H, Hb. split; reflexivity.
Qed.

(** The only exception of the conversion of the rows is the one of an
    invalid date. *)
Lemma mapM_datePoint_Throw toISOString (data : list Row) (e : exn) :
  mapM (datePoint toISOString) data = Throw e ->
  e = RangeError "Invalid time value".
Proof.
  induction data as [ | row data IH]; simpl; [discriminate | ].
  unfold datePoint at 1.
  destruct (row !! "month") as [month | ]; [ | now intros [= <-]].
  destruct (toISOString month); [ | now intros [= <-]].
  destruct (mapM _ data); [discriminate | ].
  intros [= <-]. now apply IH.
Qed.

Lemma groupByState_Throw toISOString (states : list string) (data : list Row)
    (e : exn) :
  groupByState toISOString states data = Throw e ->
  e = RangeError "Invalid time value".
Proof.
  unfold groupByState.
  induction states as [ | state states IH]; simpl; [discriminate | ].
  destruct (mapM (datePoint toISOString) _) eqn:E.
  - destruct (mapM _ states); [discriminate | ].
    intros [= <-]. now apply IH.
  - intros [= <-]. now apply mapM_datePoint_Throw in E.
Qed.

(** The question of a new session is processed as it is. *)
Lemma enhanceQuestionWithContext_new (question : string) :
  enhanceQuestionWithContext question newContext = question.
Proof. reflexivity. Qed.

(** [processQuestion] on the empty session map. *)
Lemma processQuestion_new pgQuery now toISOString question sessionId :
  processQuestion pgQuery now toISOString ∅ question sessionId
  = let contexts : gmap string SessionContext := {[ sessionId := newContext ]} in
    let entities := (extractEntitiesAndSource question newContext).1 in
    let year := extractYear question in
    if isComparisonQuery question then
      let states := extractComparisonStates question in
      if (List.length states <? 2)%nat then
        {| sessionContexts := contexts;
           executed := [];
           response := Throw (Error "Could not identify states to compare") |}
      else
        finish pgQuery now contexts sessionId entities (comparisonPlan states year)
          (fun data =>
             match groupByState toISOString states data with
             | Ok groupedData =>
                 Ok {| title := "Sales Comparison: " +:+ Str.join " vs " states
                                +:+ yearPart year;
                       year := None;
                       visualization :=
                         {| vtype := "multi-line"; vdata := Series groupedData |};
                       rawData := data |}
             | Throw error => Throw error
             end)
    else if Str.includes (Str.toLowerCase question) "top" then
      let limit :=
        if truthy_num (extractLimit question)
        then default 0%N (extractLimit question) else 5%N in
      finish pgQuery now contexts sessionId entities
        (rankingPlan limit (geographic entities) year)
        (fun data =>
           Ok {| title := "Top " +:+ Str.of_N limit +:+ " Customers"
                          +:+ inPart (geographic entities) +:+ yearPart year;
                 year := None;
                 visualization :=
                   {| vtype := "horizontal-bar";
                      vdata := Points (map (point "customer_name" "total_sales") data) |};
                 rawData := data |})
    else
      finish pgQuery now contexts sessionId entities (trendPlan (geographic entities))
        (fun data =>
           match mapM (datePoint toISOString) data with
           | Ok points =>
               Ok {| title := "Monthly Sales Trend" +:+ inPart (geographic entities);
                     year := None;
                     visualization := {| vtype := "line"; vdata := Points points |};
                     rawData := data |}
           | Throw error => Throw error
           end).
Proof.
  unfold processQuestion, getContext. rewrite lookup_empty.
  rewrite enhanceQuestionWithContext_new. cbv zeta.
  destruct (extractEntitiesAndSource question newContext) as [entities sourceType].
  simpl fst. destruct (isComparisonQuery question); [reflexivity | ].
  destruct (Str.includes (Str.toLowerCase question) "top"); reflexivity.
Qed.

Lemma updateContext_lastState now contexts sessionId result entities :
  truthy_opt (geographic entities) = true ->
  exists context,
    updateContext now contexts sessionId result entities !! sessionId = Some context
    /\ lastState context = geographic entities.
Proof.
  intros H. unfold updateContext.
  destruct (getContext contexts sessionId) as [contexts' context].
  rewrite lookup_insert_eq. eexists. split; [reflexivity | ].
  rewrite H. destruct (truthy_num _), (5 <? _)%nat; reflexivity.
Qed.

(** C1.  "Show top 5 customers in California", asked in a new session with
    a database that returns rows: the geographic entity is California, the
    plan handed to the executor is the ranking plan of the scenario over
    [orders], the chart is a horizontal bar chart, and the session
    remembers California. *)
Theorem scenario_top_customers_in_california
    (pgQuery : string -> result (list Row)) (now : N)
    (toISOString : string -> option string) (sessionId : string)
    (row : Row) (rows : list Row) :
  let question := "Show top 5 customers in California" in
  let plan :=
    {| select := ["customer_name"; "SUM(sales) as total_sales"];
       from := "orders";
       where_ := ["state = 'California'"];
       groupBy := ["customer_name"];
       orderBy := ["total_sales DESC"];
       limit := Some 5%N |} in
  pgQuery (buildSQL plan) = Ok (row :: rows) ->
  let outcome := processQuestion pgQuery now toISOString ∅ question sessionId in
  geographic (extractEntitiesAndSource question newContext).1 = Some "California"
  /\ executed outcome = [plan]
  /\ (exists result,
        response outcome = Ok result
        /\ vtype (visualization result) = "horizontal-bar"
        /\ title result = "Top 5 Customers in California"
        /\ rawData result = row :: rows)
  /\ (exists context,
        sessionContexts outcome !! sessionId = Some context
        /\ lastState context = Some "California").
Proof.
  intros question plan Hdb outcome. subst outcome.
  rewrite processQuestion_new. cbv zeta.
  assert (E1 : isComparisonQuery question = false) by (vm_compute; reflexivity).
  assert (E2 : Str.includes (Str.toLowerCase question) "top" = true)
    by (vm_compute; reflexivity).
  assert (E3 : extractLimit question = Some 5%N) by (vm_compute; reflexivity).
  assert (E4 : extractYear question = None) by (vm_compute; reflexivity).
  assert (E5 : (extractEntitiesAndSource question newContext).1
               = {| temporal := []; categorical := []; metrics := [];
                    geographic := Some "California" |})
    by (vm_compute; reflexivity).
  rewrite E1, E2, E3, E4, E5. simpl truthy_num. cbv iota. simpl default.
  simpl geographic.
  change (rankingPlan 5 (Some "California") None) with plan.
  split; [reflexivity | ]. split; [apply executed_finish | ].
  destruct (response_finish_Ok pgQuery now {[ sessionId := newContext ]}
              sessionId
              {| temporal := []; categorical := []; metrics := [];
                 geographic := Some "California" |}
              plan
              (fun data =>
                 Ok {| title := "Top " +:+ Str.of_N 5 +:+ " Customers"
                                +:+ inPart (Some "California") +:+ yearPart None;
                       year := None;
                       visualization :=
                         {| vtype := "horizontal-bar";
                            vdata := Points (map (point "customer_name" "total_sales") data) |};
                       rawData := data |})
              row rows _ Hdb eq_refl) as [Hr Hs].
  split.
  - eexists. split; [exact Hr | ]. repeat split; reflexivity.
  - rewrite Hs. apply updateContext_lastState. reflexivity.
Qed.

Lemma scenario_top_customers_in_california_witness :
  let question := "Show top 5 customers in California" in
  let plan :=
    {| select := ["customer_name"; "SUM(sales) as total_sales"];
       from := "orders";
       where_ := ["state = 'California'"];
       groupBy := ["customer_name"];
       orderBy := ["total_sales DESC"];
       limit := Some 5%N |} in
  let outcome := processQuestion oneRow 0 isoOfDay ∅ question "s1" in
  geographic (extractEntitiesAndSource question newContext).1 = Some "California"
  /\ executed outcome = [plan]
  /\ (exists result,
        response outcome = Ok result
        /\ vtype (visualization result) = "horizontal-bar"
        /\ title result = "Top 5 Customers in California"
        /\ rawData result = [sampleRow])
  /\ (exists context,
        sessionContexts outcome !! "s1" = Some context
        /\ lastState context = Some "California").
Proof.
  exact (scenario_top_customers_in_california oneRow 0 isoOfDay "s1" sampleRow []
           eq_refl).
Defined.

(** *** The comparison trigger comes first *)

Lemma enhanceQuestionWithContext_compare_top (context : SessionContext) :
  enhanceQuestionWithContext "compare top customers in Texas and Ohio" context
  = "compare top customers in Texas and Ohio".
Proof.
  unfold enhanceQuestionWithContext. cbv zeta.
  replace (Str.includes
             (Str.toLowerCase "compare top customers in Texas and Ohio") "in")
    with true by (vm_compute; reflexivity).
  replace (Str.includes
             (Str.toLowerCase "compare top customers in Texas and Ohio")
             "how about")
    with false by (vm_compute; reflexivity).
  simpl. now destruct (0 <? _)%nat.
Qed.

(** C6.  "compare top customers in Texas and Ohio" matches the comparison
    trigger and the "top" trigger; [processQuestion] tests the comparison
    trigger first and takes the comparison branch, in every session: the
    question ends in the error of that branch, and no plan is handed to
    the executor, the ranking plan included. *)
Theorem compare_top_takes_comparison_branch
    (pgQuery : string -> result (list Row)) (now : N)
    (toISOString : string -> option string)
    (contexts : gmap string SessionContext) (sessionId : string) :
  let question := "compare top customers in Texas and Ohio" in
  let outcome := processQuestion pgQuery now toISOString contexts question sessionId in
  isComparisonQuery question = true
  /\ Str.includes (Str.toLowerCase question) "top" = true
  /\ response outcome = Throw (Error "Could not identify states to compare")
  /\ executed outcome = []
  /\ forall limit geographic year,
       ~ In (rankingPlan limit geographic year) (executed outcome).
Proof.
  intros question outcome.
  assert (E : outcome
              = {| sessionContexts := (getContext contexts sessionId).1;
                   executed := [];
                   response := Throw (Error "Could not identify states to compare") |}).
  { subst outcome. unfold processQuestion.
    destruct (getContext contexts sessionId) as [contexts' context].
    subst question. rewrite enhanceQuestionWithContext_compare_top.
    destruct (extractEntitiesAndSource _ context) as [entities sourceType].
    replace (isComparisonQuery "compare top customers in Texas and Ohio")
      with true by (vm_compute; reflexivity).
    replace (extractComparisonStates "compare top customers in Texas and Ohio")
      with (@nil string) by (vm_compute; reflexivity).
    reflexivity. }
  rewrite E. simpl.
  split; [vm_compute; reflexivity | ].
  split; [vm_compute; reflexivity | ].
  split; [reflexivity | ]. split; [reflexivity | ]. intros ? ? ? [].
Qed.

(** *** The trend branch and the year *)

(** C7 fails on the code: for "Show sales trend for 2017" the year 2017 is
    extracted, and the trend plan handed to the executor has an empty
    [where] list: grouped by month, ordered by month, no limit, and no
    year filter.  The ranking branch does add the year filter, as
    "Show top customers for 2017" shows.  With a database that returns a
    row of a month, the answer is a line chart. *)
Theorem trend_plan_has_no_year_filter
    (pgQuery : string -> result (list Row)) (now : N)
    (toISOString : string -> option string) (sessionId : string) :
  let question := "Show sales trend for 2017" in
  extractYear question = Some 2017%N
  /\ executed (processQuestion pgQuery now toISOString ∅ question sessionId)
     = [{| select := ["DATE_TRUNC('month', order_date) as month";
                      "SUM(sales) as total_sales"];
           from := "orders";
           where_ := [];
           groupBy := ["DATE_TRUNC('month', order_date)"];
           orderBy := ["month ASC"];
           limit := None |}]
  /\ executed (processQuestion pgQuery now toISOString ∅ "Show top customers for 2017" sessionId)
     = [{| select := ["customer_name"; "SUM(sales) as total_sales"];
           from := "orders";
           where_ := ["EXTRACT(YEAR FROM order_date) = 2017"];
           groupBy := ["customer_name"];
           orderBy := ["total_sales DESC"];
           limit := Some 5%N |}]
  /\ exists result,
       response (processQuestion oneMonth now isoOfDay ∅ question sessionId)
       = Ok result
       /\ vtype (visualization result) = "line".
Proof.
  intros question. split; [vm_compute; reflexivity | ].
  split; [ | split].
  - rewrite processQuestion_new. cbv zeta.
    replace (isComparisonQuery question) with false by (vm_compute; reflexivity).
    replace (Str.includes (Str.toLowerCase question) "top")
      with false by (vm_compute; reflexivity).
    rewrite executed_finish.
    replace (extractEntitiesAndSource question newContext).1
      with {| temporal := [(absolute, "2017")]; categorical := [];
              metrics := []; geographic := None |}
      by (vm_compute; reflexivity).
    reflexivity.
  - rewrite processQuestion_new. cbv zeta.
    replace (isComparisonQuery "Show top customers for 2017")
      with false by (vm_compute; reflexivity).
    replace (Str.includes (Str.toLowerCase "Show top customers for 2017") "top")
      with true by (vm_compute; reflexivity).
    rewrite executed_finish.
    replace (extractEntitiesAndSource "Show top customers for 2017" newContext).1
      with {| temporal := [(absolute, "2017")]; categorical := [];
              metrics := []; geographic := None |}
      by (vm_compute; reflexivity).
    replace (extractLimit "Show top customers for 2017")
      with (@None N) by (vm_compute; reflexivity).
    replace (extractYear "Show top customers for 2017")
      with (Some 2017%N) by (vm_compute; reflexivity).
    reflexivity.
  - rewrite processQuestion_new. cbv zeta.
    replace (isComparisonQuery question) with false by (vm_compute; reflexivity).
    replace (Str.includes (Str.toLowerCase question) "top")
      with false by (vm_compute; reflexivity).
    replace (extractEntitiesAndSource question newContext).1
      with {| temporal := [(absolute, "2017")]; categorical := [];
              metrics := []; geographic := None |}
      by (vm_compute; reflexivity).
    unfold finish, executeQuery, oneMonth.
    replace (mapM (datePoint isoOfDay) [monthRow])
      with (Ok (A := list (option string * option string))
              [(Some "2017-01-01T00:00:00.000Z", Some "10.5")])
      by (vm_compute; reflexivity).
    eexists. split; reflexivity.
Qed.

(** *** Validation *)

(** What [validateQuestion] rejects: the empty question, more than 500 or
    fewer than 3 characters, and a match of the injection pattern. *)
Lemma validateQuestion_rejects (question : string) :
  question = ""
  \/ (500 < String.length question)%nat
  \/ (String.length question < 3)%nat
  \/ Regex.test injectionPattern question = true ->
  exists e, validateQuestion (Some question) = Throw e.
Proof.
  intros H. unfold validateQuestion.
  destruct (Str.truthy question) eqn:Et; simpl; [ | eauto].
  destruct (500 <? String.length question)%nat eqn:E5; [eauto | ].
  destruct (String.length question <? 3)%nat eqn:E3; [eauto | ].
  destruct (Regex.test injectionPattern question) eqn:Ei; [eauto | ].
  apply Nat.ltb_ge in E5, E3.
  destruct H as [-> | [H | [H | H]]]; [discriminate | lia | lia | discriminate].
Qed.

(** C3 fails on the code: [validateQuestion] rejects "DROP TABLE orders;"
    with the error of the injection pattern, but [processQuestion] does
    not call it: the question goes down the trend branch, whose plan is
    handed to the executor; whatever the database answers, the response is
    not the validation error, and with a database that returns a row of a
    month the call succeeds. *)
Theorem drop_table_reaches_the_executor
    (pgQuery : string -> result (list Row)) (now : N)
    (toISOString : string -> option string) (sessionId : string) :
  let question := "DROP TABLE orders;" in
  let outcome := processQuestion pgQuery now toISOString ∅ question sessionId in
  validateQuestion (Some question) = Throw (Error "Invalid question content")
  /\ executed outcome = [trendPlan None]
  /\ buildSQL (trendPlan None)
     = "SELECT DATE_TRUNC('month', order_date) as month, SUM(sales) as total_sales FROM orders GROUP BY DATE_TRUNC('month', order_date) ORDER BY month ASC"
  /\ response outcome <> Throw (Error "Invalid question content")
  /\ exists result,
       response (processQuestion oneMonth now isoOfDay ∅ question sessionId)
       = Ok result.
Proof.
  intros question outcome. split; [vm_compute; reflexivity | ].
  assert (E : forall db iso,
             processQuestion db now iso ∅ question sessionId
             = finish db now {[ sessionId := newContext ]} sessionId
                 {| temporal := []; categorical := []; metrics := [];
                    geographic := None |}
                 (trendPlan None)
                 (fun data =>
                    match mapM (datePoint iso) data with
                    | Ok points =>
                        Ok {| title := "Monthly Sales Trend" +:+ inPart None;
                              year := None;
                              visualization :=
                                {| vtype := "line"; vdata := Points points |};
                              rawData := data |}
                    | Throw error => Throw error
                    end)).
  { intros db iso. rewrite processQuestion_new. cbv zeta.
    replace (isComparisonQuery question) with false by (vm_compute; reflexivity).
    replace (Str.includes (Str.toLowerCase question) "top")
      with false by (vm_compute; reflexivity).
    replace (extractEntitiesAndSource question newContext).1
      with {| temporal := []; categorical := []; metrics := [];
              geographic := None |}
      by (vm_compute; reflexivity).
    reflexivity. }
  subst outcome. rewrite !E.
  split; [apply executed_finish | ]. split; [vm_compute; reflexivity | ].
  split.
  - unfold finish, executeQuery.
    destruct (pgQuery _) as [[ | row rows] | error];
      try (simpl; discriminate).
    destruct (mapM (datePoint toISOString) (row :: rows))
      as [points | error] eqn:M; simpl; [discriminate | ].
    apply mapM_datePoint_Throw in M as ->. discriminate.
  - unfold finish, executeQuery, oneMonth.
    replace (mapM (datePoint isoOfDay) [monthRow])
      with (Ok (A := list (option string * option string))
              [(Some "2017-01-01T00:00:00.000Z", Some "10.5")])
      by (vm_compute; reflexivity).
    eexists. reflexivity.
Qed.

(** *** The sanitizer is not on the path *)

(** The plans [processQuestion] can hand to the executor. *)
Lemma executed_processQuestion pgQuery now toISOString contexts question sessionId p :
  In p (executed (processQuestion pgQuery now toISOString contexts question sessionId)) ->
  (exists states year, p = comparisonPlan states year)
  \/ (exists limit geographic year, p = rankingPlan limit geographic year)
  \/ (exists geographic, p = trendPlan geographic)
  \/ (exists geographic, p = defaultRankingPlan geographic).
Proof.
  unfold processQuestion.
  destruct (getContext contexts sessionId) as [contexts' context].
  destruct (extractEntitiesAndSource _ context) as [entities sourceType].
  destruct (isComparisonQuery _).
  - destruct (_ <? 2)%nat; [intros [] | ].
    rewrite executed_finish. intros [<- | []]. left. eauto.
  - destruct (Str.includes _ "top"); simpl negb; cbv iota;
      rewrite executed_finish; intros [<- | []]; eauto 6.
Qed.

Lemma sanitizeQueryPlan_orderBy_valid (p : QueryPlan) (e : string) :
  In e (orderBy (sanitizeQueryPlan p)) -> isValidOrder e = true.
Proof. simpl. intros H. now apply List.filter_In in H. Qed.

(** Every plan of [processQuestion] orders by a name that is not a field
    of the schema. *)
Lemma executed_orderBy_invalid pgQuery now toISOString contexts question sessionId p :
  In p (executed (processQuestion pgQuery now toISOString contexts question sessionId)) ->
  exists e, In e (orderBy p) /\ isValidOrder e = false.
Proof.
  intros H. apply executed_processQuestion in H
    as [(? & ? & ->) | [(? & ? & ? & ->) | [(? & ->) | (? & ->)]]].
  - exists "month ASC, state". split; [now left | vm_compute; reflexivity].
  - exists "total_sales DESC". split; [now left | vm_compute; reflexivity].
  - exists "month ASC". split; [now left | vm_compute; reflexivity].
  - exists "total_sales DESC". split; [now left | vm_compute; reflexivity].
Qed.

(** C2 fails on the code: no plan that [processQuestion] hands to the
    executor has been through [sanitizeQueryPlan].  Each of them has an
    [orderBy] entry that the sanitizer removes, so it is not a result of
    the sanitizer, and sanitizing it would change it. *)
Theorem executed_plan_is_not_sanitized
    (pgQuery : string -> result (list Row)) (now : N)
    (toISOString : string -> option string)
    (contexts : gmap string SessionContext) (question sessionId : string)
    (p : QueryPlan) :
  In p (executed (processQuestion pgQuery now toISOString contexts question sessionId)) ->
  sanitizeQueryPlan p <> p /\ forall p0, p <> sanitizeQueryPlan p0.
Proof.
  intros H. apply executed_orderBy_invalid in H as (e & Hin & Hbad).
  assert (Himg : forall p0, p <> sanitizeQueryPlan p0).
  { intros p0 E. rewrite E in Hin.
    apply sanitizeQueryPlan_orderBy_valid in Hin. congruence. }
  split; [ | exact Himg]. intros E. now apply (Himg p).
Qed.

Lemma executed_plan_is_not_sanitized_witness :
  let p := rankingPlan 5 (Some "California") None in
  sanitizeQueryPlan p <> p /\ forall p0, p <> sanitizeQueryPlan p0.
Proof.
  apply (executed_plan_is_not_sanitized oneRow 0 isoOfDay ∅
           "Show top 5 customers in California" "s1").
  vm_compute. left. reflexivity.
Defined.

Example sanitizeQueryPlan_drops_the_order :
  orderBy (sanitizeQueryPlan (rankingPlan 5 (Some "California") None)) = [].
Proof. vm_compute. reflexivity. Qed.

(** *** Comparisons without two names *)

(** In a new session, a comparison question for which
    [extractComparisonStates] finds no name ends in the error of the
    comparison branch, and nothing is handed to the executor. *)
Lemma comparison_without_states_fails pgQuery now toISOString question sessionId :
  isComparisonQuery question = true ->
  extractComparisonStates question = [] ->
  response (processQuestion pgQuery now toISOString ∅ question sessionId)
  = Throw (Error "Could not identify states to compare")
  /\ executed (processQuestion pgQuery now toISOString ∅ question sessionId) = [].
Proof.
  intros Hc Hs. rewrite processQuestion_new. cbv zeta. rewrite Hc, Hs.
  split; reflexivity.
Qed.

(** *** The positional pattern *)

(** [extractEntitiesAndSource] has no list of states: its geographic entity
    is the text after the first [in] or [for]. *)
Example extractEntitiesAndSource_after_in :
  geographic (extractEntitiesAndSource "sales in Ohio and Texas" newContext).1
  = Some "Ohio"
  /\ geographic (extractEntitiesAndSource "California sales" newContext).1 = None.
Proof. split; vm_compute; reflexivity. Qed.

(** *** The session maps of the service *)

(** Whatever the question and the answer of the database, [processQuestion]
    leaves a reachable session map reachable. *)
Lemma processQuestion_reachable pgQuery now toISOString contexts question sessionId :
  reachable contexts ->
  reachable (sessionContexts
               (processQuestion pgQuery now toISOString contexts question sessionId)).
Proof.
  intros R. apply (reach_get _ sessionId) in R. unfold processQuestion.
  destruct (getContext contexts sessionId) as [contexts' context].
  simpl in R.
  assert (F : forall entities p build,
             reachable (sessionContexts
                          (finish pgQuery now contexts' sessionId entities p build))).
  { intros entities p build. unfold finish.
    destruct (executeQuery _ _) as [data | error]; [ | exact R].
    destruct (build data); [now apply reach_update | exact R]. }
  destruct (extractEntitiesAndSource _ context) as [entities sourceType].
  destruct (isComparisonQuery _);
    [destruct (_ <? 2)%nat; [exact R | ]
    | destruct (Str.includes _ "top"); simpl negb; cbv iota];
    apply F.
Qed.

End ProcessFacts.

(** ** Searching *)

Module SearchFacts.

Import Regex RegexFacts.

(** A successful search starts at a suffix of the input. *)
Lemma search_suffix (r : regex) :
  forall (inp pre : list ascii) (f : found),
    search r pre inp = Some f ->
    exists skipped inp' s1,
      inp = skipped ++ inp' /\ matches r (start (rev skipped ++ pre) inp') s1.
Proof.
  induction inp as [ | c tl IH]; intros pre f H; simpl in H.
  - destruct (run r (start pre []) Some) eqn:E; [ | discriminate].
    apply run_sound in E as (s1 & M & _). now exists [], [], s1.
  - destruct (run r (start pre (c :: tl)) Some) eqn:E.
    + apply run_sound in E as (s1 & M & _). now exists [], (c :: tl), s1.
    + apply IH in H as (skipped & inp' & s1 & -> & M).
      exists (c :: skipped), inp', s1. split; [reflexivity | ].
      simpl. now rewrite <- app_assoc.
Qed.

(** No match at any suffix, no result. *)
Lemma search_None (r : regex) (pre inp : list ascii) :
  (forall skipped inp' s1,
     inp = skipped ++ inp' -> ~ matches r (start (rev skipped ++ pre) inp') s1) ->
  search r pre inp = None.
Proof.
  intros H. destruct (search r pre inp) as [f | ] eqn:E; [ | reflexivity].
  apply search_suffix in E as (skipped & inp' & s1 & E & M).
  now apply H in M.
Qed.

(** A match at the first position tried is the result. *)
Lemma search_here (r : regex) (pre inp : list ascii) (s1 : mstate) :
  run r (start pre inp) Some = Some s1 ->
  search r pre inp
  = Some {| index := List.length pre;
            before := rev pre;
            matched := consumed (start pre inp) s1;
            after := rest s1;
            groups := caps s1 |}.
Proof. intros H. destruct inp; simpl; now rewrite H. Qed.

(** No match at the first position: the search moves on. *)
Lemma search_next (r : regex) (pre : list ascii) (c : ascii) (tl : list ascii) :
  run r (start pre (c :: tl)) Some = None ->
  search r pre (c :: tl) = search r (c :: pre) tl.
Proof. intros H. simpl. now rewrite H. Qed.

(** A literal matches itself. *)
Lemma matches_seq_chars (l : list ascii) :
  forall s s', matches (seq_chars Ascii.eqb l) s s' -> rest s = l ++ rest s'.
Proof.
  induction l as [ | c l IH]; intros s s' M; simpl in M.
  - inversion M; subst. reflexivity.
  - inversion M as [ | | r1 r2 s0 s1 s2 M1 M2 | | | | | | | | | ]; subst.
    inversion M1 as [ | p0 c0 tl s3 Hr Hp | | | | | | | | | | ]; subst.
    apply Ascii.eqb_eq in Hp as <-. apply IH in M2. simpl in M2.
    rewrite Hr, M2. reflexivity.
Qed.

(** The loop of a greedy class repetition is [greedy_chars]. *)
Lemma star_loop_greedy_chars (p : ascii -> bool) (k : mstate -> option mstate) :
  forall (inp pre : list ascii) (cs : list (nat * list ascii)) (fuel : nat),
    (List.length inp < fuel)%nat ->
    star_loop true (run (Chr p)) k fuel {| prev := pre; rest := inp; caps := cs |}
    = greedy_chars p k pre cs inp.
Proof.
  induction inp as [ | c tl IH]; intros pre cs fuel Hf;
    (destruct fuel as [ | fuel]; [simpl in Hf; lia | ]); simpl.
  - reflexivity.
  - destruct (p c); [ | reflexivity].
    unfold advance. simpl.
    replace (List.length tl <? S (List.length tl))%nat with true
      by (symmetry; apply Nat.ltb_lt; lia).
    rewrite IH by (simpl in Hf; lia). reflexivity.
Qed.

End SearchFacts.

(** ** The patterns of the sanitizer *)

Module BaseFieldFacts.

Import Regex RegexFacts SearchFacts StrFacts MCP.

#[local] Arguments Ascii.eqb : simpl never.
#[local] Arguments Char.is_newline : simpl never.
#[local] Arguments Char.is_word : simpl never.

Lemma word_no_punct (c : ascii) :
  Char.is_word c = true ->
  Ascii.eqb " " c = false /\ Ascii.eqb "." c = false
  /\ Ascii.eqb "(" c = false /\ Ascii.eqb ")" c = false
  /\ Char.is_newline c = false.
Proof.
  destruct c as [[] [] [] [] [] [] [] []]; vm_compute; intros;
    first [discriminate | repeat split; reflexivity].
Qed.


(** *** Cutting at [" as "] *)

Lemma before_first_as (x a : list ascii) :
  Forall (fun c => Ascii.eqb " " c = false) x ->
  Str.before_first (Str.chars " as ") (x ++ Str.chars " as " ++ a) = x.
Proof.
  induction 1 as [ | c x Hc _ IH]; simpl; [reflexivity | ].
  rewrite Hc. simpl. simpl in IH. now rewrite IH.
Qed.


(** *** The wrapper pattern *)

Lemma matches_sumWrapper (s s' : mstate) :
  matches sumWrapper s s' ->
  (exists tl, rest s = Str.chars "SUM(" ++ tl) \/ rest s = [")"%char].
Proof.
  intros M. unfold sumWrapper in M.
  inversion M as [ | | | r1 r2 s0 s1 M1 | r1 r2 s0 s1 M1 | | | | | | | ]; subst.
  - inversion M1 as [ | | r1 r2 s0 s1 s2 Ma Mb | | | | | | | | | ]; subst.
    inversion Ma; subst. apply matches_seq_chars in Mb. left. eauto.
  - inversion M1 as [ | | r1 r2 s0 s1 s2 Ma Mb | | | | | | | | | ]; subst.
    apply matches_seq_chars in Ma. inversion Mb as [ | | | | | | | | | | s0 He | ]; subst.
    right. rewrite Ma, He. reflexivity.
Qed.

Lemma search_sumWrapper_None (pre inp : list ascii) :
  Forall (fun c => Ascii.eqb "(" c = false /\ Ascii.eqb ")" c = false) inp ->
  search sumWrapper pre inp = None.
Proof.
  intros F. apply search_None. intros skipped inp' s1 -> M.
  apply Forall_app in F as [_ F].
  apply matches_sumWrapper in M as [[tl E] | E]; simpl in E; rewrite E in F.
  - do 3 (apply Forall_inv_tail in F). apply Forall_inv in F as [F _].
    discriminate.
  - apply Forall_inv in F as [_ F]. discriminate.
Qed.

Lemma remove_all_no_match (r : regex) (l : list ascii) :
  search r [] l = None -> remove_all r (Str.of_chars l) = Str.of_chars l.
Proof.
  intros H. unfold remove_all. rewrite chars_of_chars. simpl. now rewrite H.
Qed.

(** *** The alias pattern *)

Lemma matches_aliasPrefix (s s' : mstate) :
  matches aliasPrefix s s' -> In "."%char (rest s).
Proof.
  intros M. unfold aliasPrefix, star in M.
  inversion M as [ | | r1 r2 s0 s1 s2 Ma Mb | | | | | | | | | ]; subst.
  apply matches_star_chr in Ma as (w & _ & E & _).
  apply matches_seq_chars in Mb. rewrite E, Mb.
  apply in_or_app. right. now left.
Qed.

Lemma replace_aliasPrefix_no_dot (l : list ascii) :
  Forall (fun c => Ascii.eqb "." c = false) l ->
  replace aliasPrefix "" (Str.of_chars l) = Str.of_chars l.
Proof.
  intros F. unfold replace, exec. rewrite chars_of_chars.
  rewrite search_None; [reflexivity | ].
  intros skipped inp' s1 -> M. apply matches_aliasPrefix in M.
  apply Forall_app in F as [_ F]. rewrite List.Forall_forall in F.
  apply F in M. discriminate.
Qed.




End BaseFieldFacts.

(** ** The base field of an expression *)

Module WrapperFacts.

Import Regex RegexFacts SearchFacts StrFacts MCP BaseFieldFacts.

#[local] Arguments Ascii.eqb : simpl never.
#[local] Arguments Char.is_newline : simpl never.
#[local] Arguments Char.is_word : simpl never.
#[local] Arguments remove_all_from : simpl never.
#[local] Arguments search : simpl never.











End WrapperFacts.

(** ** Statements about the sanitizer *)

Module SanitizerFacts.

Import MCP IncludesFacts WrapperFacts.

Lemma validFields_whitelist (f : string) :
  f ∈ validFields <-> In f whitelist.
Proof.
  unfold validFields, whitelist. rewrite elem_of_list_to_set.
  apply list_elem_of_In.
Qed.












End SanitizerFacts.

(** ** Sessions *)

Module SessionFacts.

Import MCP HistoryFacts ProcessFacts.

Lemma delete_getContext (contexts : gmap string SessionContext) (sessionId : string) :
  delete sessionId (getContext contexts sessionId).1 = delete sessionId contexts.
Proof.
  unfold getContext. destruct (contexts !! sessionId); simpl; [reflexivity | ].
  apply delete_insert_eq.
Qed.

Lemma getContext_again (contexts : gmap string SessionContext) (sessionId : string) :
  getContext (getContext contexts sessionId).1 sessionId
  = getContext contexts sessionId.
Proof.
  unfold getContext. destruct (contexts !! sessionId) eqn:E; simpl.
  - now rewrite E.
  - now rewrite lookup_insert_eq.
Qed.

(** X1.  [getContext] stores what it returns: a lookup finds the context, a
    second call returns the same pair, the map changes only by a new
    default context for an unknown session, and no other session is
    touched. *)
Theorem getContext_stores_the_context
    (contexts : gmap string SessionContext) (sessionId : string) :
  let contexts' := (getContext contexts sessionId).1 in
  let context := (getContext contexts sessionId).2 in
  contexts' !! sessionId = Some context
  /\ getContext contexts' sessionId = (contexts', context)
  /\ delete sessionId contexts' = delete sessionId contexts
  /\ match contexts !! sessionId with
     | Some stored => contexts' = contexts /\ context = stored
     | None => contexts' = <[sessionId := newContext]> contexts
               /\ context = newContext
     end.
Proof.
  cbv zeta. split; [apply getContext_lookup | ].
  split; [rewrite getContext_again; now destruct (getContext contexts sessionId) | ].
  split; [apply delete_getContext | ].
  unfold getContext. destruct (contexts !! sessionId); simpl; auto.
Qed.

(** What [updateContext] stores for the session. *)
Lemma updateContext_lookup now contexts sessionId result entities :
  let old := (getContext contexts sessionId).2 in
  updateContext now contexts sessionId result entities !! sessionId
  = Some {| lastState := if truthy_opt (geographic entities)
                         then geographic entities else lastState old;
            lastYear := if truthy_num (year result)
                        then year result else lastYear old;
            lastMetric := lastMetric old;
            lastLimit := lastLimit old;
            questions := push_cap (questions old) (entryOf now result) |}.
Proof.
  cbv zeta. unfold updateContext.
  destruct (getContext contexts sessionId) as [contexts' context]. simpl.
  rewrite lookup_insert_eq. unfold push_cap, entryOf.
  destruct (truthy_opt _), (truthy_num _); simpl;
    destruct (5 <? _)%nat; reflexivity.
Qed.

Lemma delete_updateContext now contexts sessionId result entities :
  delete sessionId (updateContext now contexts sessionId result entities)
  = delete sessionId contexts.
Proof.
  unfold updateContext.
  pose proof (delete_getContext contexts sessionId) as H.
  destruct (getContext contexts sessionId) as [contexts' context].
  simpl in H. now rewrite delete_insert_eq.
Qed.

Lemma getContext_updateContext now contexts sessionId result entities :
  (getContext (updateContext now contexts sessionId result entities) sessionId).2
  = let old := (getContext contexts sessionId).2 in
    {| lastState := if truthy_opt (geographic entities)
                    then geographic entities else lastState old;
       lastYear := if truthy_num (year result)
                   then year result else lastYear old;
       lastMetric := lastMetric old;
       lastLimit := lastLimit old;
       questions := push_cap (questions old) (entryOf now result) |}.
Proof.
  pose proof (updateContext_lookup now contexts sessionId result entities) as H.
  cbv zeta in H. unfold getContext at 1. rewrite H. reflexivity.
Qed.

Lemma delete_applyUpdates sessionId updates :
  forall contexts,
    delete sessionId (applyUpdates sessionId updates contexts)
    = delete sessionId contexts.
Proof.
  induction updates as [ | [[now result] entities] updates IH];
    intros contexts; simpl; [reflexivity | ].
  now rewrite IH, delete_updateContext.
Qed.

Lemma lastState_applyUpdates sessionId updates :
  forall contexts,
    let old := (getContext contexts sessionId).2 in
    let new := (getContext (applyUpdates sessionId updates contexts) sessionId).2 in
    lastState new = latestGeographic (lastState old) updates
    /\ lastMetric new = lastMetric old /\ lastLimit new = lastLimit old.
Proof.
  induction updates as [ | [[now result] entities] updates IH];
    intros contexts; simpl; [auto | ].
  destruct (IH (updateContext now contexts sessionId result entities))
    as (H1 & H2 & H3).
  rewrite H1, H2, H3, getContext_updateContext. simpl. auto.
Qed.

(** X2.  The memory of a session: after any calls of [updateContext] on a
    session, its [lastState] is the geographic entity of the latest call
    that had a non-empty one, and the state it had before when no call had
    one (a call without geographic entity clears nothing); [lastMetric] and
    [lastLimit] never change; and the contexts of all other sessions are as
    they were. *)
Theorem updateContext_remembers_the_latest_state
    (contexts : gmap string SessionContext) (sessionId : string)
    (updates : list (N * ResultData * Entities)) :
  let old := (getContext contexts sessionId).2 in
  let after := applyUpdates sessionId updates contexts in
  let new := (getContext after sessionId).2 in
  lastState new = latestGeographic (lastState old) updates
  /\ lastMetric new = lastMetric old
  /\ lastLimit new = lastLimit old
  /\ delete sessionId after = delete sessionId contexts.
Proof.
  cbv zeta.
  destruct (lastState_applyUpdates sessionId updates contexts) as (H1 & H2 & H3).
  repeat split; try assumption. apply delete_applyUpdates.
Qed.

End SessionFacts.

(** ** One call of [processQuestion] *)

Module ServiceFacts.

Import MCP HistoryFacts ProcessFacts SessionFacts.

(** [processQuestion] either fails before a plan is built, or finishes one
    of the four branches on the context of the session; only the branches
    without a limit, the comparison and the trend, convert dates. *)
Lemma processQuestion_cases pgQuery now toISOString contexts question sessionId :
  let contexts' := (getContext contexts sessionId).1 in
  processQuestion pgQuery now toISOString contexts question sessionId
  = {| sessionContexts := contexts';
       executed := [];
       response := Throw (Error "Could not identify states to compare") |}
  \/ exists entities p build,
       processQuestion pgQuery now toISOString contexts question sessionId
       = finish pgQuery now contexts' sessionId entities p build
       /\ branch_plan p /\ branch_result build
       /\ forall data e, build data = Throw e -> limit p = None.
Proof.
  cbv zeta. unfold processQuestion.
  destruct (getContext contexts sessionId) as [contexts' context]. simpl fst.
  destruct (extractEntitiesAndSource _ context) as [entities sourceType].
  destruct (isComparisonQuery _).
  - destruct (_ <? 2)%nat; [now left | ]. right.
    eexists _, _, _. split; [reflexivity | ]. split; [left; eauto | ].
    split; [ | reflexivity].
    intros data. destruct (groupByState _ _ data) eqn:G.
    + left. eexists. split; [reflexivity | ].
      simpl. unfold resultCharts. simpl. tauto.
    + right. now apply groupByState_Throw in G as ->.
  - right. destruct (Str.includes _ "top"); simpl negb; cbv iota;
      eexists _, _, _; (split; [reflexivity | ]); split.
    + right. left. eexists _, _, _. split; [reflexivity | ].
      destruct (extractLimit _) as [n | ]; simpl; [ | reflexivity].
      destruct (N.eqb_spec n 0); simpl; lia.
    + split; [ | discriminate].
      intros data. left. eexists. split; [reflexivity | ].
      simpl. unfold resultCharts. simpl. tauto.
    + right. right. left. eauto.
    + split; [ | reflexivity].
      intros data. destruct (mapM _ data) eqn:M.
      * left. eexists. split; [reflexivity | ].
        simpl. unfold resultCharts. simpl. tauto.
      * right. now apply mapM_datePoint_Throw in M as ->.
Qed.

(** [executeQuery] succeeds exactly with the rows of the driver, when there
    are some; every failure carries the prefix of the wrapper. *)
Lemma executeQuery_cases pgQuery (p : QueryPlan) :
  (exists row rows, pgQuery (buildSQL p) = Ok (row :: rows)
                    /\ executeQuery pgQuery p = Ok (row :: rows))
  \/ (exists msg, executeQuery pgQuery p
                  = Throw (Error ("Database query failed: " +:+ msg))).
Proof.
  unfold executeQuery. destruct (pgQuery (buildSQL p)) as [[ | row rows] | e].
  - right. eauto.
  - left. eauto.
  - right. eauto.
Qed.

Lemma history_delete (c1 c2 : gmap string SessionContext) (sessionId other : string) :
  delete sessionId c1 = delete sessionId c2 -> sessionId <> other ->
  c1 !! other = c2 !! other.
Proof.
  intros H Hne.
  rewrite <- (lookup_delete_ne c1 sessionId other) by exact Hne.
  rewrite <- (lookup_delete_ne c2 sessionId other) by exact Hne.
  now rewrite H.
Qed.

(** X3.  A successful call: exactly one plan went to the executor, the rows
    of the result are the rows the driver returned for the statement of
    that plan, and there is at least one; the chart is a multi-line, a
    horizontal-bar or a line chart; the history of the session gets the
    entry of the result (the oldest one leaves beyond five), and no other
    session changes. *)
Theorem processQuestion_success pgQuery now toISOString contexts question sessionId result :
  let outcome := processQuestion pgQuery now toISOString contexts question sessionId in
  response outcome = Ok result ->
  (exists p, executed outcome = [p]
             /\ pgQuery (buildSQL p) = Ok (rawData result))
  /\ rawData result <> []
  /\ In (vtype (visualization result)) resultCharts
  /\ history (sessionContexts outcome) sessionId
     = push_cap (history contexts sessionId) (entryOf now result)
  /\ delete sessionId (sessionContexts outcome) = delete sessionId contexts.
Proof.
  intros outcome H. subst outcome.
  destruct (processQuestion_cases pgQuery now toISOString contexts question sessionId)
    as [E | (entities & p & build & E & _ & Hb & _)]; rewrite E in *;
    [discriminate | ].
  unfold finish in *.
  destruct (executeQuery_cases pgQuery p) as [(row & rows & Hq & Ex) | [msg Ex]];
    rewrite Ex in *; simpl in *; [ | discriminate].
  destruct (Hb (row :: rows)) as [(built & Eb & Hr & _ & Hc) | Eb];
    rewrite Eb in *; simpl in *; [ | discriminate].
  injection H as <-.
  rewrite Hr. split; [eauto | ]. split; [discriminate | ].
  split; [exact Hc | ].
  rewrite history_updateContext, history_getContext, delete_updateContext.
  split; [reflexivity | apply delete_getContext].
Qed.


Lemma delete_processQuestion pgQuery now toISOString contexts question sessionId :
  delete sessionId
    (sessionContexts (processQuestion pgQuery now toISOString contexts question sessionId))
  = delete sessionId contexts.
Proof.
  destruct (processQuestion_cases pgQuery now toISOString contexts question sessionId)
    as [E | (entities & p & build & E & _)]; rewrite E.
  - apply delete_getContext.
  - unfold finish. destruct (executeQuery pgQuery p) as [data | error]; simpl.
    + destruct (build data); simpl.
      * rewrite delete_updateContext. apply delete_getContext.
      * apply delete_getContext.
    + apply delete_getContext.
Qed.

(** X5.  Whatever the question and the database, one call runs at most one
    statement, leaves a context for the session, and changes no other
    session. *)
Theorem processQuestion_one_session_one_statement
    pgQuery now toISOString contexts question sessionId :
  let outcome := processQuestion pgQuery now toISOString contexts question sessionId in
  (List.length (executed outcome) <= 1)%nat
  /\ is_Some (sessionContexts outcome !! sessionId)
  /\ delete sessionId (sessionContexts outcome) = delete sessionId contexts.
Proof.
  intros outcome. subst outcome.
  cut ((List.length
          (executed (processQuestion pgQuery now toISOString contexts question sessionId))
        <= 1)%nat
       /\ is_Some (sessionContexts
                     (processQuestion pgQuery now toISOString contexts question sessionId)
                   !! sessionId)).
  { intros [H1 H2]. split; [exact H1 | ]. split; [exact H2 | ].
    apply delete_processQuestion. }
  destruct (processQuestion_cases pgQuery now toISOString contexts question sessionId)
    as [E | (entities & p & build & E & _)]; rewrite E.
  - simpl. split; [lia | ]. rewrite getContext_lookup. eauto.
  - rewrite executed_finish. split; [simpl; lia | ]. unfold finish.
    destruct (executeQuery pgQuery p) as [data | error]; simpl.
    + destruct (build data); simpl.
      * rewrite updateContext_lookup. eauto.
      * rewrite getContext_lookup. eauto.
    + rewrite getContext_lookup. eauto.
Qed.

(** X6.  Every plan handed to the executor reads from [orders], has one
    [orderBy] entry, at most two [where] entries, and either no limit
    (comparison and trend) or a positive one: a request for the top 0 falls
    back to 5. *)
Theorem executed_plan_shape pgQuery now toISOString contexts question sessionId p :
  In p (executed (processQuestion pgQuery now toISOString contexts question sessionId)) ->
  from p = "orders"
  /\ (limit p = None \/ exists n, limit p = Some n /\ (0 < n)%N)
  /\ List.length (orderBy p) = 1%nat
  /\ (List.length (where_ p) <= 2)%nat
  /\ select p <> [] /\ groupBy p <> [].
Proof.
  intros H.
  destruct (processQuestion_cases pgQuery now toISOString contexts question sessionId)
    as [E | (entities & p' & build & E & Hp & _)]; rewrite E in H.
  - destruct H.
  - rewrite executed_finish in H. destruct H as [<- | []].
    assert (Hy : forall y, (List.length (yearCondition y) <= 1)%nat)
      by (intros y; unfold yearCondition; destruct (truthy_num y); simpl; lia).
    assert (Hs : forall g, (List.length (stateCondition g) <= 1)%nat)
      by (intros g; unfold stateCondition; destruct (truthy_opt g); simpl; lia).
    destruct Hp as [(s & y & ->) | [(l & g & y & -> & Hl) | [(g & ->) | (g & ->)]]];
      simpl; rewrite ?length_app; simpl;
      (split; [reflexivity | ]);
      (split; [first [now left | right; eexists; split; [reflexivity | lia]] | ]);
      (split; [reflexivity | ]);
      (split; [first [specialize (Hy y); specialize (Hs g); lia
                     | specialize (Hy y); lia | specialize (Hs g); lia] | ]);
      split; discriminate.
Qed.

Lemma executed_plan_shape_witness :
  let p := rankingPlan 5 None None in
  from p = "orders"
  /\ (limit p = None \/ exists n, limit p = Some n /\ (0 < n)%N)
  /\ List.length (orderBy p) = 1%nat
  /\ (List.length (where_ p) <= 2)%nat
  /\ select p <> [] /\ groupBy p <> [].
Proof.
  apply (executed_plan_shape oneRow 0 isoOfDay ∅ "top 0 customers" "s1").
  vm_compute. left. reflexivity.
Defined.

Lemma processQuestion_success_witness :
  let outcome :=
    processQuestion oneRow 0 isoOfDay ∅ "Show top 5 customers" "s1" in
  (exists p, executed outcome = [p]
             /\ oneRow (buildSQL p) = Ok [sampleRow])
  /\ [sampleRow] <> []
  /\ In "horizontal-bar" resultCharts
  /\ history (sessionContexts outcome) "s1"
     = push_cap (history ∅ "s1")
         (entryOf 0 {| title := "Top 5 Customers"; year := None;
                       visualization :=
                         {| vtype := "horizontal-bar";
                            vdata := Points [(Some "Ann", Some "10.5")] |};
                       rawData := [sampleRow] |})
  /\ delete "s1" (sessionContexts outcome) = delete "s1" ∅.
Proof.
  exact (processQuestion_success oneRow 0 isoOfDay ∅ "Show top 5 customers"
           "s1" _ eq_refl).
Defined.


End ServiceFacts.

(** ** What a running service keeps *)

Module SteadyFacts.

Import MCP HistoryFacts ProcessFacts SessionFacts ServiceFacts.

Lemma steady_newContext : steady newContext.
Proof. unfold steady. simpl. repeat split; try lia. constructor. Qed.

Lemma push_cap_Forall (P : HistoryEntry -> Prop) (h : list HistoryEntry)
    (e : HistoryEntry) :
  Forall P h -> P e -> Forall P (push_cap h e).
Proof.
  intros Hh He. assert (F : Forall P (h ++ [e]))
    by (apply Forall_app; split; [exact Hh | now constructor]).
  unfold push_cap. destruct (5 <? _)%nat; [ | exact F].
  destruct (h ++ [e]); [constructor | now inversion F].
Qed.

(** The context of a session, as [getContext] returns it, is steady when all
    stored contexts are. *)
Lemma steady_getContext (contexts : gmap string SessionContext) (sessionId : string) :
  (forall other context, contexts !! other = Some context -> steady context) ->
  steady (getContext contexts sessionId).2.
Proof.
  intros H. unfold getContext. destruct (contexts !! sessionId) eqn:E; simpl.
  - eapply H. eassumption.
  - apply steady_newContext.
Qed.

Lemma steady_step pgQuery now toISOString contexts question sessionId :
  (forall other context, contexts !! other = Some context -> steady context) ->
  forall other context,
    sessionContexts (processQuestion pgQuery now toISOString contexts question sessionId)
      !! other = Some context ->
    steady context.
Proof.
  intros IH other context.
  pose proof (steady_getContext contexts sessionId IH) as Hold.
  destruct (decide (sessionId = other)) as [<- | Hne].
  - destruct (processQuestion_cases pgQuery now toISOString contexts question sessionId)
      as [E | (entities & p & build & E & _ & Hb & _)]; rewrite E.
    + simpl. rewrite getContext_lookup. intros H. injection H as <-. exact Hold.
    + unfold finish. destruct (executeQuery pgQuery p) as [data | e]; simpl.
      * destruct (Hb data) as [(built & Eb & _ & Hy & Hc) | Eb]; rewrite Eb;
          simpl.
        -- rewrite updateContext_lookup, getContext_again.
           intros H. injection H as <-.
           destruct Hold as (H1 & H2 & H3 & H4 & H5).
           unfold steady. simpl. rewrite Hy. simpl.
           repeat split; try assumption.
           ++ now apply push_cap_length.
           ++ apply push_cap_Forall; [exact H5 | exact Hc].
        -- rewrite getContext_lookup. intros H. injection H as <-. exact Hold.
      * rewrite getContext_lookup. intros H. injection H as <-. exact Hold.
  - rewrite (history_delete _ _ _ _
               (delete_processQuestion pgQuery now toISOString contexts question sessionId)
               Hne).
    apply IH.
Qed.

(** X7.  In a running service every stored context keeps the defaults
    [lastMetric = "sales"] and [lastLimit = 5], never gets a [lastYear] (no
    result of [processQuestion] carries a year, so the year of a question is
    not remembered), and has a history of at most five entries whose chart
    types are multi-line, horizontal-bar or line. *)
Theorem served_contexts_are_steady
    (contexts : gmap string SessionContext) (sessionId : string)
    (context : SessionContext) :
  served contexts -> contexts !! sessionId = Some context ->
  lastMetric context = "sales" /\ lastLimit context = 5%N
  /\ lastYear context = None
  /\ (List.length (questions context) <= 5)%nat
  /\ Forall (fun entry => In (type entry) resultCharts) (questions context).
Proof.
  intros S. revert sessionId context.
  induction S as [ | pgQuery now toISOString contexts question sid _ IH].
  - intros sessionId context H. rewrite lookup_empty in H. discriminate.
  - apply steady_step. exact IH.
Qed.

Lemma served_contexts_are_steady_witness :
  let contexts :=
    sessionContexts
      (processQuestion oneRow 7 isoOfDay ∅ "Show top 5 customers in California for 2017"
         "s1") in
  exists context,
    contexts !! "s1" = Some context
    /\ lastState context = Some "California"
    /\ lastMetric context = "sales" /\ lastLimit context = 5%N
    /\ lastYear context = None
    /\ (List.length (questions context) <= 5)%nat
    /\ Forall (fun entry => In (type entry) resultCharts) (questions context).
Proof.
  eexists. split; [vm_compute; reflexivity | ].
  split; [reflexivity | ].
  eapply (served_contexts_are_steady _ "s1").
  - apply (served_step oneRow 7 isoOfDay ∅
             "Show top 5 customers in California for 2017" "s1" served_new).
  - vm_compute. reflexivity.
Defined.

End SteadyFacts.

(** ** What the extractors return *)

Module ExtractFacts.

Import Regex RegexFacts SearchFacts StrFacts ComparisonFacts IncludesFacts MCP.

Lemma matches_wordb (s s' : mstate) : matches WordB s s' -> s' = s.
Proof. intros M. now inversion M. Qed.

Lemma matches_rep_chr (p : ascii -> bool) (n : nat) :
  forall s s', matches (rep n (Chr p)) s s' ->
    exists w, List.length w = n /\ Forall (fun c => p c = true) w
              /\ rest s = w ++ rest s' /\ caps s' = caps s.
Proof.
  induction n as [ | n IH]; intros s s' M; simpl in M.
  - inversion M; subst. exists []. auto.
  - apply matches_seq_inv in M as (s1 & M1 & M2).
    inversion M1 as [ | p0 c tl s0 Hr Hp | | | | | | | | | | ]; subst.
    apply IH in M2 as (w & Hl & Hw & Hrest & Hc).
    exists (c :: w). simpl in *. rewrite Hl, Hr, Hrest.
    repeat split; auto.
Qed.

Lemma is_digit_cases (c : ascii) : Char.is_digit c = true -> In c digits.
Proof.
  destruct c as [[] [] [] [] [] [] [] []]; vm_compute; intros H;
    first [discriminate | tauto].
Qed.

(** What the year pattern consumes: 19 or 20 and two digits. *)
Lemma matches_yearPattern (s s' : mstate) :
  matches yearPattern s s' ->
  exists p c d,
    In p [Str.chars "19"; Str.chars "20"] /\ In c digits /\ In d digits
    /\ rest s = (p ++ [c; d]) ++ rest s'.
Proof.
  intros M. unfold yearPattern in M.
  apply matches_seq_inv in M as (s0 & M0 & M). apply matches_wordb in M0 as ->.
  apply matches_seq_inv in M as (sa & Ma & M).
  apply matches_seq_inv in M as (sb & Mb & M). apply matches_wordb in M as ->.
  apply (matches_rep_chr Char.is_digit 2) in Mb as (w & Hl & Hw & Hrest & _).
  destruct w as [ | c [ | d [ | ? ?]]]; try discriminate.
  inversion Hw as [ | ? ? Hc Hw']; subst. inversion Hw' as [ | ? ? Hd _]; subst.
  apply is_digit_cases in Hc, Hd.
  inversion Ma as [ | | | | | | | n r s0 s1 Mg | | | | ]; subst. simpl in Hrest.
  inversion Mg as [ | | | r1 r2 s0 s2 Ml | r1 r2 s0 s2 Ml | | | | | | | ]; subst;
    apply matches_seq_chars in Ml.
  - exists (Str.chars "19"), c, d. rewrite Ml, Hrest. simpl. tauto.
  - exists (Str.chars "20"), c, d. rewrite Ml, Hrest. simpl. tauto.
Qed.

Lemma year_texts_ok :
  forallb (fun p =>
    forallb (fun c =>
      forallb (fun d => year_ok (Str.of_chars (p ++ [c; d]))) digits) digits)
    [Str.chars "19"; Str.chars "20"] = true.
Proof. vm_compute. reflexivity. Qed.

(** X8.  [extractYear] returns no year, or a year from 1900 to 2099 whose
    four digits stand in the question. *)
Theorem extractYear_range (question : string) (y : N) :
  extractYear question = Some y ->
  (1900 <= y <= 2099)%N /\ substring_of (Str.of_N y) question.
Proof.
  unfold extractYear. destruct (exec yearPattern question) as [f | ] eqn:E;
    [ | discriminate].
  intros H. injection H as <-.
  apply search_sound in E as (pre & inp & s1 & M & _ & Hq & _ & _ & Hm).
  apply matches_yearPattern in M as (p & c & d & Hp & Hc & Hd & Hr).
  unfold whole. rewrite Hm, (consumed_app _ _ _ Hr). simpl in Hr.
  pose proof year_texts_ok as Hall.
  rewrite forallb_forall in Hall. specialize (Hall p Hp).
  rewrite forallb_forall in Hall. specialize (Hall c Hc).
  rewrite forallb_forall in Hall. specialize (Hall d Hd).
  unfold year_ok in Hall. apply andb_true_iff in Hall as [Hall He].
  apply andb_true_iff in Hall as [H1 H2].
  apply N.leb_le in H1, H2. apply String.eqb_eq in He.
  split; [lia | ]. rewrite He.
  exists (Str.of_chars (rev pre)), (Str.of_chars (rest s1)).
  rewrite <- !of_chars_app, <- Hr. simpl in Hq. rewrite <- Hq.
  symmetry. apply of_chars_chars.
Qed.

Lemma extractYear_range_witness :
  (1900 <= 2017 <= 2099)%N
  /\ substring_of (Str.of_N 2017) "sales in 12 months of 2017, not 1850".
Proof.
  apply (extractYear_range "sales in 12 months of 2017, not 1850" 2017).
  vm_compute. reflexivity.
Defined.

(** *** The geographic entity *)

Lemma matches_look_groupless (r : regex) (s s' : mstate) :
  matches (Look r) s s' -> groupless r = true -> caps s' = caps s.
Proof.
  intros M G. inversion M; subst. simpl.
  eapply matches_groupless; eassumption.
Qed.

Lemma statePattern_group (q : string) (f : found) :
  exec statePattern q = Some f ->
  exists w, w <> [] /\ Forall (fun c => letter_or_space c = true) w
            /\ group 1 f = Str.of_chars w.
Proof.
  intros H. apply search_sound in H as (pre & inp & s1 & M & G & _).
  unfold statePattern in M.
  apply matches_seq_groupless in M as (sa & Ca & M); [ | reflexivity].
  apply matches_seq_groupless in M as (sb & Cb & M); [ | reflexivity].
  apply matches_seq_groupless in M as (sc & Cc & M); [ | reflexivity].
  apply matches_seq_inv in M as (sd & Md & M).
  apply (matches_group_plus 1 false
           (fun c => Char.is_alpha c || Char.is_space c)) in Md
    as (w & N & F & _ & Cd).
  apply matches_look_groupless in M; [ | reflexivity].
  exists w. unfold group. rewrite G, M, Cd. simpl.
  repeat split; assumption.
Qed.

Lemma drop_while_Forall (P : ascii -> Prop) (p : ascii -> bool) (l : list ascii) :
  Forall P l -> Forall P (Str.drop_while p l).
Proof.
  induction 1 as [ | c l Hc Hl IH]; simpl; [constructor | ].
  destruct (p c); [exact IH | now constructor].
Qed.

Lemma drop_while_head_is (p : ascii -> bool) (l : list ascii) :
  head_is p (Str.drop_while p l) = false.
Proof.
  induction l as [ | c l IH]; simpl; [reflexivity | ].
  destruct (p c) eqn:E; [exact IH | simpl; exact E].
Qed.

Lemma drop_while_snoc (p : ascii -> bool) (y : ascii) (l : list ascii) :
  p y = false -> exists l', Str.drop_while p (l ++ [y]) = l' ++ [y].
Proof.
  intros Hy. induction l as [ | c l [l' IH]]; simpl.
  - rewrite Hy. now exists [].
  - destruct (p c); [now exists l' | now exists (c :: l ++ [])%list; rewrite app_nil_r].
Qed.

(** Trimming keeps the characters and leaves no white space at the ends. *)
Lemma trim_ends (P : ascii -> Prop) (s : string) :
  Forall P (Str.chars s) ->
  Forall P (Str.chars (Str.trim s))
  /\ head_is Char.is_space (Str.chars (Str.trim s)) = false
  /\ head_is Char.is_space (rev (Str.chars (Str.trim s))) = false.
Proof.
  intros F. unfold Str.trim. rewrite chars_of_chars.
  pose proof (drop_while_Forall P Char.is_space _ F) as F1.
  pose proof (drop_while_head_is Char.is_space (Str.chars s)) as H1.
  set (y := Str.drop_while Char.is_space (Str.chars s)) in *.
  split; [ | split].
  - apply Forall_rev, drop_while_Forall, Forall_rev, F1.
  - destruct y as [ | c y]; [reflexivity | ]. simpl in H1. simpl rev at 2.
    destruct (drop_while_snoc Char.is_space c (rev y) H1) as [l' ->].
    rewrite rev_app_distr. simpl. exact H1.
  - rewrite rev_involutive. apply drop_while_head_is.
Qed.

(** X9.  The geographic entity that [extractEntitiesAndSource] returns, if
    any, consists of letters and white space only, with no white space at
    either end; in particular it holds no quote, so the state filter built
    from it is one quoted literal. *)
Theorem geographic_is_letters_and_spaces
    (question : string) (context : SessionContext) (g : string) :
  geographic (extractEntitiesAndSource question context).1 = Some g ->
  Forall (fun c => letter_or_space c = true) (Str.chars g)
  /\ head_is Char.is_space (Str.chars g) = false
  /\ head_is Char.is_space (rev (Str.chars g)) = false
  /\ ~ In "'"%char (Str.chars g).
Proof.
  unfold extractEntitiesAndSource. simpl.
  destruct (exec statePattern question) as [f | ] eqn:E; [ | discriminate].
  intros H. injection H as <-.
  apply statePattern_group in E as (w & _ & F & ->).
  destruct (trim_ends (fun c => letter_or_space c = true) (Str.of_chars w))
    as (H1 & H2 & H3); [now rewrite chars_of_chars | ].
  repeat split; try assumption.
  intros Hq. rewrite List.Forall_forall in H1. apply H1 in Hq. discriminate.
Qed.

Lemma geographic_is_letters_and_spaces_witness :
  Forall (fun c => letter_or_space c = true) (Str.chars "California")
  /\ head_is Char.is_space (Str.chars "California") = false
  /\ head_is Char.is_space (rev (Str.chars "California")) = false
  /\ ~ In "'"%char (Str.chars "California").
Proof.
  apply (geographic_is_letters_and_spaces
           "top customers in  California now" newContext "California").
  vm_compute. reflexivity.
Defined.

(** *** Validation *)

(** A match somewhere in the input is found by the search. *)
Lemma search_finds (r : regex) (skipped : list ascii) :
  forall (pre inp : list ascii),
    run r (start (rev skipped ++ pre) inp) Some <> None ->
    search r pre (skipped ++ inp) <> None.
Proof.
  induction skipped as [ | c skipped IH]; intros pre inp H; simpl in H.
  - simpl. destruct inp; simpl;
      destruct (run r (start pre _) Some); congruence.
  - rewrite <- app_assoc in H. simpl in H. apply IH in H.
    simpl. destruct (run r (start pre _) Some); [discriminate | exact H].
Qed.

Lemma injectionPattern_semicolon (question : string) :
  In ";"%char (Str.chars question) -> test injectionPattern question = true.
Proof.
  intros H. apply in_split in H as (a & b & E).
  unfold test, exec. rewrite E.
  destruct (search injectionPattern [] (a ++ ";"%char :: b)) eqn:S;
    [reflexivity | ].
  exfalso. revert S. apply search_finds. simpl. discriminate.
Qed.

(** X10.  A question that [validateQuestion] accepts has between 3 and 500
    characters and no semicolon; the empty question and a missing one are
    rejected with a [TypeError], because the class has no [errorTypes]. *)
Theorem validateQuestion_accepts (question : string) :
  validateQuestion (Some question) = Ok tt ->
  (3 <= String.length question <= 500)%nat
  /\ ~ In ";"%char (Str.chars question)
  /\ test injectionPattern question = false
  /\ validateQuestion (Some "")
     = Throw (TypeError "Cannot read properties of undefined (reading 'INVALID_QUESTION')")
  /\ validateQuestion None
     = Throw (TypeError "Cannot read properties of undefined (reading 'INVALID_QUESTION')").
Proof.
  unfold validateQuestion at 1.
  destruct (Str.truthy question); simpl; [ | discriminate].
  destruct (500 <? String.length question)%nat eqn:E5; [discriminate | ].
  destruct (String.length question <? 3)%nat eqn:E3; [discriminate | ].
  destruct (test injectionPattern question) eqn:Ei; [discriminate | ].
  intros _. apply Nat.ltb_ge in E5, E3.
  split; [lia | ]. split; [ | auto].
  intros H. apply injectionPattern_semicolon in H. congruence.
Qed.

Lemma validateQuestion_accepts_witness :
  (3 <= String.length "top 5 customers" <= 500)%nat
  /\ ~ In ";"%char (Str.chars "top 5 customers")
  /\ test injectionPattern "top 5 customers" = false
  /\ validateQuestion (Some "")
     = Throw (TypeError "Cannot read properties of undefined (reading 'INVALID_QUESTION')")
  /\ validateQuestion None
     = Throw (TypeError "Cannot read properties of undefined (reading 'INVALID_QUESTION')").
Proof.
  apply (validateQuestion_accepts "top 5 customers"). vm_compute. reflexivity.
Defined.

End ExtractFacts.

(** ** The sanitizer on the plans of the service *)

Module SanitizedPlans.

Import MCP ProcessFacts.







End SanitizedPlans.

(** ** Date filters and plans by question type *)

Module DateFacts.

Import Regex MCP RegexFacts StrFacts IncludesFacts SearchFacts ComparisonFacts
  ExtractFacts.

(** *** Splitting *)

Lemma head_split_from (sep s : list ascii) :
  forall cur, head (Str.split_from sep 0 cur s)
              = Some (rev cur ++ Str.before_first sep s).
Proof.
  induction s as [ | c s IH]; intros cur.
  - simpl. destruct (Str.starts_with sep []); now rewrite app_nil_r.
  - simpl. destruct (Str.starts_with sep (c :: s)).
    + simpl. now rewrite app_nil_r.
    + rewrite IH. simpl. now rewrite <- app_assoc.
Qed.

Lemma split_after_between (rest : string) :
  Str.split "between" ("between" +:+ rest)
  = "" :: Str.split "between" rest.
Proof. reflexivity. Qed.

Lemma buildDateRangeCondition_between (rest : string) :
  buildDateRangeCondition ("between" +:+ rest)
  = "order_date::date >= '' AND order_date::date < '"
    +:+ Str.trim (Str.split_head "between" rest) +:+ "'".
Proof.
  unfold buildDateRangeCondition. rewrite split_after_between.
  unfold Str.split, Str.split_head.
  destruct (Str.split_from (Str.chars "between") 0 [] (Str.chars rest))
    as [ | part parts] eqn:E;
    pose proof (head_split_from (Str.chars "between") (Str.chars rest) []) as H;
    rewrite E in H; [discriminate | ].
  simpl in H. injection H as ->. reflexivity.
Qed.

(** *** Letter case *)

Lemma toLowerCase_canonicalize (c : ascii) :
  Char.toLowerCase (Char.canonicalize c) = Char.toLowerCase c.
Proof. by_cases_on_char c. Qed.

Lemma toLowerCase_twice (c : ascii) :
  Char.toLowerCase (Char.toLowerCase c) = Char.toLowerCase c.
Proof. by_cases_on_char c. Qed.

Lemma eqb_ci_toLowerCase (a c : ascii) :
  Char.eqb_ci a c = true -> Char.toLowerCase c = Char.toLowerCase a.
Proof.
  unfold Char.eqb_ci. intros H. apply Ascii.eqb_eq in H.
  rewrite <- (toLowerCase_canonicalize c), <- H.
  apply toLowerCase_canonicalize.
Qed.

(** What a literal under the [i] flag consumes is the literal, up to case. *)
Lemma matches_seq_chars_ci (l : list ascii) :
  forall s s', matches (seq_chars Char.eqb_ci l) s s' ->
    exists w, rest s = w ++ rest s'
              /\ map Char.toLowerCase w = map Char.toLowerCase l.
Proof.
  induction l as [ | c l IH]; intros s s' M; simpl in M.
  - inversion M; subst. now exists [].
  - inversion M as [ | | r1 r2 s0 s1 s2 M1 M2 | | | | | | | | | ]; subst.
    inversion M1 as [ | p0 c0 tl s3 Hr Hp | | | | | | | | | | ]; subst.
    apply eqb_ci_toLowerCase in Hp. apply IH in M2 as (w & E & L).
    simpl in E. exists (c0 :: w). simpl. rewrite Hr, E, Hp, L.
    split; reflexivity.
Qed.

Lemma toLowerCase_app (a b : list ascii) :
  Str.toLowerCase (Str.of_chars (a ++ b))
  = Str.toLowerCase (Str.of_chars a) +:+ Str.toLowerCase (Str.of_chars b).
Proof.
  unfold Str.toLowerCase. rewrite !chars_of_chars, map_app.
  apply of_chars_app.
Qed.

(** *** Range entries *)

Lemma rangePattern_prefix (q : string) (f : found) :
  exec rangePattern q = Some f ->
  exists x, Str.toLowerCase (whole f) = "between" +:+ x.
Proof.
  intros H. apply search_sound in H as (pre & inp & s1 & M & _ & _ & _ & _ & C).
  unfold rangePattern in M.
  apply matches_seq_inv in M as (sa & Ma & M). apply matches_wordb in Ma as ->.
  apply matches_seq_inv in M as (sb & Mb & M).
  apply matches_seq_chars_ci in Mb as (w & Ew & Lw).
  apply matches_rest in M as (x & Ex).
  unfold whole. rewrite C.
  rewrite (consumed_app _ s1 (w ++ x))
    by (rewrite Ew, Ex; now rewrite app_assoc).
  rewrite toLowerCase_app. exists (Str.toLowerCase (Str.of_chars x)).
  unfold Str.toLowerCase at 1. rewrite chars_of_chars, Lw. reflexivity.
Qed.

Lemma range_entries (question : string) (context : SessionContext) (value : string) :
  In (range, value) (temporal (extractEntitiesAndSource question context).1) ->
  exists f, exec rangePattern question = Some f /\ value = whole f.
Proof.
  unfold extractEntitiesAndSource, datePatterns. simpl.
  destruct (exec absolutePattern question), (exec relativePattern question),
    (exec rangePattern question) as [m | ]; simpl; intros H;
    repeat (destruct H as [H | H]; try discriminate H); try contradiction;
    injection H as <-; now exists m.
Qed.

Lemma buildRelativeDateCondition_between (x : string) :
  buildRelativeDateCondition ("between" +:+ x) = "".
Proof. vm_compute. reflexivity. Qed.

Lemma includes_between (x : string) :
  Str.includes ("between" +:+ x) "between" = true.
Proof. vm_compute. reflexivity. Qed.

Lemma toLowerCase_truthy (value : string) :
  Str.truthy (Str.toLowerCase value) = Str.truthy value.
Proof. now destruct value. Qed.

(** X12.  [buildDateFilter] on a range entry of [extractEntitiesAndSource]
    never gives a range with a lower bound: the entry begins with
    [between], so the part before the separator [between] is empty. *)
Theorem range_entry_has_no_lower_bound
    (question : string) (context : SessionContext) (value : string) :
  In (range, value) (temporal (extractEntitiesAndSource question context).1) ->
  let filter := buildDateFilter (Some (entry range (Some value))) in
  filter = Some ("order_date::date = '" +:+ Str.toLowerCase value +:+ "'")
  \/ filter = Some ""
  \/ exists upper,
       filter = Some ("order_date::date >= '' AND order_date::date < '"
                      +:+ upper +:+ "'").
Proof.
  intros H. apply range_entries in H as (f & H & ->).
  apply rangePattern_prefix in H as (x & L).
  unfold buildDateFilter. cbn [value_of truthy_opt default].
  destruct (Str.truthy (whole f)) eqn:T.
  - cbn [truthy_opt default negb id]. rewrite toLowerCase_truthy, T.
    cbn [negb default].
    destruct (test isoDatePattern _); [now left | ].
    rewrite L. destruct (Str.includes _ "last").
    + right. left. now rewrite buildRelativeDateCondition_between.
    + rewrite includes_between. right. right.
      rewrite buildDateRangeCondition_between. eauto.
  - apply (f_equal Str.truthy) in L. rewrite toLowerCase_truthy, T in L.
    discriminate L.
Qed.

Lemma range_entry_has_no_lower_bound_witness :
  let filter :=
    buildDateFilter (Some (entry range (Some "between January and "))) in
  filter = Some ("order_date::date = '"
                 +:+ Str.toLowerCase "between January and " +:+ "'")
  \/ filter = Some ""
  \/ exists upper,
       filter = Some ("order_date::date >= '' AND order_date::date < '"
                      +:+ upper +:+ "'").
Proof.
  apply (range_entry_has_no_lower_bound
           "sales between January and March" newContext).
  vm_compute. left. reflexivity.
Defined.

(** *** What the filter never is *)

Lemma starts_with_map (f : ascii -> ascii) (t s : list ascii) :
  Str.starts_with t s = true -> Str.starts_with (map f t) (map f s) = true.
Proof.
  revert s. induction t as [ | a t IH]; intros [ | b s]; simpl;
    try easy.
  intros H. apply andb_prop in H as [H1 H2]. apply Ascii.eqb_eq in H1 as ->.
  now rewrite Ascii.eqb_refl, IH.
Qed.

Lemma includes_chars_map (f : ascii -> ascii) (s t : list ascii) :
  Str.includes_chars s t = true ->
  Str.includes_chars (map f s) (map f t) = true.
Proof.
  induction s as [ | c s IH]; simpl; intros H.
  - apply orb_prop in H as [H | H]; [ | discriminate].
    apply (starts_with_map f) in H. simpl in H. now rewrite H.
  - apply orb_prop in H as [H | H].
    + apply (starts_with_map f) in H. simpl in H. now rewrite H.
    + rewrite (IH H). apply orb_true_r.
Qed.

Lemma buildRelativeDateCondition_last (value : string) :
  Str.includes value "last" = true ->
  buildRelativeDateCondition value <> thisYearCondition.
Proof.
  intros H. unfold buildRelativeDateCondition.
  destruct (String.eqb _ "last month"); [discriminate | ].
  destruct (String.eqb _ "this year") eqn:E; [ | discriminate].
  apply String.eqb_eq in E. unfold Str.includes in H.
  apply (includes_chars_map Char.toLowerCase) in H.
  apply (f_equal Str.chars) in E. unfold Str.toLowerCase in E.
  rewrite chars_of_chars in E. rewrite E in H. discriminate H.
Qed.

(** X13.  [buildDateFilter] never gives the condition of the [this year]
    case of [buildRelativeDateCondition]: it calls that function only for
    a text that contains [last]. *)
Theorem buildDateFilter_never_this_year (temporal : option TemporalArg) :
  buildDateFilter temporal <> Some thisYearCondition.
Proof.
  unfold buildDateFilter. destruct temporal as [temporal | ]; [ | discriminate].
  destruct (negb _); [discriminate | ].
  destruct (test isoDatePattern _); [discriminate | ].
  destruct (Str.includes _ "last") eqn:L.
  - intros [= H]. now apply buildRelativeDateCondition_last in H.
  - destruct (Str.includes _ "between"); discriminate.
Qed.

End DateFacts.

(** ** Plans by question type *)

Module TypedPlanFacts.

Import Regex MCP RegexFacts StrFacts IncludesFacts SearchFacts ComparisonFacts
  ExtractFacts DateFacts.

Lemma buildQueryPlanForType_where (questionType : QuestionType) (entities : Entities) :
  where_ (buildQueryPlanForType questionType entities)
  = stateCondition (geographic entities).
Proof.
  unfold buildQueryPlanForType, stateCondition.
  destruct (String.eqb _ "ranking"), (truthy_opt (geographic entities));
    reflexivity.
Qed.

(** X14.  Whatever the question type and the entities, the plan of
    [buildQueryPlanForType] has no date condition, because the function
    hands the array of temporal entries to [buildDateFilter], which reads
    a [value] property; and its limit is absent or positive. *)
Theorem buildQueryPlanForType_where_and_limit
    (questionType : QuestionType) (entities : Entities) :
  let p := buildQueryPlanForType questionType entities in
  where_ p = stateCondition (geographic entities)
  /\ (limit p = None \/ exists n, limit p = Some n /\ (0 < n)%N).
Proof.
  split; [apply buildQueryPlanForType_where | ].
  unfold buildQueryPlanForType.
  destruct (String.eqb _ "ranking"); [ | now left].
  right. cbn [limit]. destruct (qlimit questionType) as [n | ]; cbn.
  - destruct (N.eqb_spec n 0); cbn; eexists; split; try reflexivity; lia.
  - eexists; split; [reflexivity | lia].
Qed.

(** The pattern of [extractLimit] needs the word [top]. *)
Lemma limitPattern_top (s : string) (f : found) :
  exec limitPattern s = Some f ->
  Str.includes (Str.toLowerCase s) "top" = true.
Proof.
  intros H. apply search_sound in H as (pre & inp & s1 & M & _ & E & _).
  unfold limitPattern in M.
  apply matches_seq_inv in M as (sa & Ma & M). apply matches_wordb in Ma as ->.
  apply matches_seq_inv in M as (sb & Mb & M).
  apply matches_seq_chars_ci in Mb as (w & Ew & Lw).
  simpl in E, Ew. unfold Str.includes, Str.toLowerCase.
  rewrite chars_of_chars, E, Ew, !map_app, Lw.
  apply includes_chars_spec. eauto.
Qed.

Lemma toLowerCase_idempotent (s : string) :
  Str.toLowerCase (Str.toLowerCase s) = Str.toLowerCase s.
Proof.
  unfold Str.toLowerCase. rewrite chars_of_chars, map_map.
  f_equal. apply map_ext. apply toLowerCase_twice.
Qed.

Lemma extractLimit_without_top (question : string) :
  Str.includes (Str.toLowerCase question) "top" = false ->
  extractLimit (Str.toLowerCase question) = None.
Proof.
  intros H. unfold extractLimit.
  destruct (exec limitPattern _) as [f | ] eqn:E; [ | reflexivity].
  apply limitPattern_top in E. rewrite toLowerCase_idempotent in E.
  congruence.
Qed.

(** X15.  A ranking in ascending order always has the limit 5: ascending
    order is chosen for a question with [bottom] and without [top], and
    [extractLimit] finds a number only after the word [top]. *)
Theorem ascending_ranking_has_limit_five (question : string) (entities : Entities) :
  orderBy (buildQueryPlanForType (determineQuestionType question) entities)
  = ["total_sales asc"] ->
  limit (buildQueryPlanForType (determineQuestionType question) entities)
  = Some 5%N.
Proof.
  unfold determineQuestionType.
  destruct (Str.includes _ "top") eqn:T; cbn [orb].
  - intros H. vm_compute in H. discriminate H.
  - destruct (Str.includes _ "bottom").
    + intros _. rewrite (extractLimit_without_top _ T). reflexivity.
    + repeat match goal with
             | |- context [if ?b then _ else _] => destruct b
             end; intros H; vm_compute in H; discriminate H.
Qed.

Lemma ascending_ranking_has_limit_five_witness :
  limit (buildQueryPlanForType (determineQuestionType "Bottom 3 customers")
           noEntities)
  = Some 5%N.
Proof.
  apply (ascending_ranking_has_limit_five "Bottom 3 customers" noEntities).
  vm_compute. reflexivity.
Defined.

Lemma determineQuestionType_cases (question : string) :
  (exists direction limit,
      (direction = "desc" \/ direction = "asc")
      /\ determineQuestionType question
         = {| qtype := "ranking"; qdirection := Some direction;
              qlimit := limit |})
  \/ (exists t, In t ["trend"; "comparison"; "distribution"; "composition";
                      "general"]
                /\ determineQuestionType question = typeOnly t).
Proof.
  unfold determineQuestionType.
  destruct (Str.includes _ "top") eqn:T; cbn [orb].
  { left. eauto. }
  destruct (Str.includes _ "bottom").
  { left. eauto. }
  right.
  repeat match goal with
         | |- context [if ?b then _ else _] => destruct b
         end; eexists; (split; [ | reflexivity]); simpl; tauto.
Qed.

(** X16.  What [sanitizeQueryPlan] would do to the plan built for the type
    of a question: it keeps [select] and [where], removes the [orderBy]
    entry, and for every type but a ranking removes the [groupBy] entry
    [month], which is an alias and no field of the schema. *)
Theorem sanitizer_on_typed_plans (question : string) (entities : Entities) :
  let t := determineQuestionType question in
  let p := buildQueryPlanForType t entities in
  let q := sanitizeQueryPlan p in
  select q = select p /\ where_ q = where_ p /\ orderBy q = []
  /\ (qtype t = "ranking" /\ groupBy q = ["customer_name"]
      \/ qtype t <> "ranking" /\ groupBy p = ["month"] /\ groupBy q = []).
Proof.
  intros t p q. subst t p q.
  assert (W : forall e, List.filter isValidCondition (stateCondition e)
                        = stateCondition e).
  { intros e. unfold stateCondition. destruct (truthy_opt e);
      vm_compute; reflexivity. }
  unfold sanitizeQueryPlan at 2. cbn [where_].
  rewrite buildQueryPlanForType_where, W.
  destruct (determineQuestionType_cases question)
    as [(d & l & D & ->) | (t & T & ->)].
  - destruct D as [-> | ->]; repeat split; try (vm_compute; reflexivity);
      left; split; vm_compute; reflexivity.
  - simpl in T.
    destruct T as [<- | [<- | [<- | [<- | [<- | []]]]]]; repeat split;
      try (vm_compute; reflexivity);
      right; repeat split; try discriminate; vm_compute; reflexivity.
Qed.

End TypedPlanFacts.

(** ** The plan for a time series *)

Module SeriesPlanFacts.

Import Regex MCP RegexFacts StrFacts IncludesFacts SearchFacts ComparisonFacts
  BaseFieldFacts WrapperFacts SanitizerFacts.

#[local] Arguments Ascii.eqb : simpl never.

Lemma wordAfterInPattern_group (q : string) (f : found) :
  exec wordAfterInPattern q = Some f ->
  exists w, w <> [] /\ Forall (fun c => Char.is_word c = true) w
            /\ group 1 f = Str.of_chars w.
Proof.
  intros H. apply search_sound in H as (pre & inp & s1 & M & G & _).
  unfold wordAfterInPattern in M.
  apply matches_seq_groupless in M as (sa & Ca & M); [ | reflexivity].
  apply matches_seq_groupless in M as (sb & Cb & M); [ | reflexivity].
  apply matches_seq_inv in M as (sc & Mc & M).
  apply (matches_group_plus 1 true Char.is_word) in Mc as (w & N & F & _ & Cc).
  apply matches_groupless in M; [ | reflexivity].
  exists w. unfold group. rewrite G, M, Cc. simpl.
  repeat split; assumption.
Qed.

(** A text without a blank is one piece. *)
Lemma split_from_no_blank (s : list ascii) :
  Forall (fun c => Ascii.eqb " " c = false) s ->
  forall cur, Str.split_from [" "%char] 0 cur s = [rev cur ++ s].
Proof.
  induction 1 as [ | c s Hc _ IH]; intros cur; simpl.
  - now rewrite app_nil_r.
  - rewrite Hc. simpl. rewrite IH. simpl. now rewrite <- app_assoc.
Qed.

Lemma split_word (w : list ascii) :
  Forall (fun c => Char.is_word c = true) w ->
  Str.split " " (Str.of_chars w) = [Str.of_chars w].
Proof.
  intros F. unfold Str.split. rewrite chars_of_chars.
  change (Str.chars " ") with [" "%char].
  rewrite split_from_no_blank; [reflexivity | ].
  eapply List.Forall_impl; [ | exact F]. intros c Hc.
  now apply word_no_punct in Hc.
Qed.

Lemma formatWord_titleCase (w : string) : formatWord w = titleCase w.
Proof. destruct w; reflexivity. Qed.

(** The two shapes of the plan. *)
Lemma buildQueryPlan_cases {Intent : Type} (intent : Intent) (sourceType : string)
    (entities : Entities) (question : string) :
  let p := buildQueryPlan intent sourceType entities question in
  p = {| select := [monthTrunc +:+ " as month"; "SUM(sales) as total_sales"];
         from := sourceType; where_ := [];
         groupBy := [monthTrunc]; orderBy := [monthTrunc +:+ " ASC"];
         limit := None |}
  \/ exists w, w <> [] /\ Forall (fun c => Char.is_word c = true) w
       /\ p = {| select := [monthTrunc +:+ " as month";
                            "SUM(sales) as total_sales";
                            "'" +:+ Str.of_chars w +:+ "' as state"];
                 from := sourceType;
                 where_ := ["state = '" +:+ titleCase (Str.of_chars w) +:+ "'"];
                 groupBy := [monthTrunc]; orderBy := [monthTrunc +:+ " ASC"];
                 limit := None |}.
Proof.
  unfold buildQueryPlan.
  destruct (exec wordAfterInPattern question) as [f | ] eqn:E; [ | now left].
  apply wordAfterInPattern_group in E as (w & N & F & ->).
  right. exists w. repeat split; try assumption.
  replace (truthy_opt (Some (Str.of_chars w))) with true
    by (destruct w; [contradiction | reflexivity]).
  cbn [default id]. rewrite (split_word w F). cbn [map Str.join].
  now rewrite formatWord_titleCase.
Qed.

(** X17.  The state condition of [buildQueryPlan] holds one title-cased
    word of [\w] characters, hence no quote and no blank, and the same
    word, as the question has it, is selected as the column [state]. *)
Theorem buildQueryPlan_state_is_one_word {Intent : Type} (intent : Intent)
    (sourceType : string) (entities : Entities) (question condition : string) :
  In condition (where_ (buildQueryPlan intent sourceType entities question)) ->
  exists w, word_token w
    /\ condition = "state = '" +:+ titleCase w +:+ "'"
    /\ where_ (buildQueryPlan intent sourceType entities question) = [condition]
    /\ select (buildQueryPlan intent sourceType entities question)
       = [monthTrunc +:+ " as month"; "SUM(sales) as total_sales";
          "'" +:+ w +:+ "' as state"].
Proof.
  destruct (buildQueryPlan_cases intent sourceType entities question)
    as [-> | (w & N & F & ->)]; cbn [where_ select].
  - intros [].
  - intros [<- | []]. exists (Str.of_chars w).
    split; [now apply word_token_of_chars | ]. repeat split.
Qed.

Lemma buildQueryPlan_state_is_one_word_witness :
  exists w, word_token w
    /\ "state = 'Texas'" = "state = '" +:+ titleCase w +:+ "'"
    /\ where_ (buildQueryPlan tt "orders" noEntities "monthly sales in TEXAS")
       = ["state = 'Texas'"]
    /\ select (buildQueryPlan tt "orders" noEntities "monthly sales in TEXAS")
       = [monthTrunc +:+ " as month"; "SUM(sales) as total_sales";
          "'" +:+ w +:+ "' as state"].
Proof.
  apply (buildQueryPlan_state_is_one_word tt "orders" noEntities
           "monthly sales in TEXAS" "state = 'Texas'").
  vm_compute. left. reflexivity.
Defined.

(** The base field of the state literal is the literal. *)
Lemma baseField_state_literal (w : list ascii) :
  Forall (fun c => Char.is_word c = true) w ->
  baseField ("'" +:+ Str.of_chars w +:+ "' as state")
  = "'" +:+ Str.of_chars w +:+ "'".
Proof.
  intros F.
  assert (P : Forall (fun c => Ascii.eqb " " c = false /\ Ascii.eqb "." c = false
                               /\ Ascii.eqb "(" c = false /\ Ascii.eqb ")" c = false)
                (("'"%char :: w) ++ ["'"%char])).
  { apply Forall_app. split; [constructor | repeat constructor].
    - repeat split.
    - eapply List.Forall_impl; [ | exact F]. intros c Hc.
      apply word_no_punct in Hc. tauto. }
  set (x := ("'"%char :: w) ++ ["'"%char]) in *.
  replace ("'" +:+ Str.of_chars w +:+ "' as state")
    with (Str.of_chars (x ++ Str.chars " as " ++ Str.chars "state")).
  2:{ unfold x. rewrite <- app_assoc. simpl.
      rewrite of_chars_app. reflexivity. }
  replace ("'" +:+ Str.of_chars w +:+ "'") with (Str.of_chars x).
  2:{ unfold x. simpl. rewrite of_chars_app. reflexivity. }
  unfold baseField, Str.split_head. rewrite chars_of_chars.
  rewrite before_first_as
    by (eapply List.Forall_impl; [ | exact P]; simpl; tauto).
  rewrite remove_all_no_match.
  - apply replace_aliasPrefix_no_dot.
    eapply List.Forall_impl; [ | exact P]; simpl; tauto.
  - apply search_sumWrapper_None.
    eapply List.Forall_impl; [ | exact P]; simpl; tauto.
Qed.

Lemma isValidExpression_state_literal (w : list ascii) :
  Forall (fun c => Char.is_word c = true) w ->
  isValidExpression ("'" +:+ Str.of_chars w +:+ "' as state")
  = Str.includes ("'" +:+ Str.of_chars w +:+ "' as state") "DATE_TRUNC".
Proof.
  intros F. unfold isValidExpression.
  destruct (Str.includes _ "DATE_TRUNC"); [reflexivity | ].
  rewrite (baseField_state_literal w F).
  apply bool_decide_eq_false. rewrite validFields_whitelist.
  simpl. intros H.
  repeat (destruct H as [H | H]; [discriminate H | ]). contradiction.
Qed.

Lemma isValidCondition_state (g : string) :
  isValidCondition ("state = '" +:+ g +:+ "'") = true.
Proof. vm_compute. reflexivity. Qed.

(** X18.  What [sanitizeQueryPlan] would do to the plan of [buildQueryPlan]:
    it keeps every clause but the selected state literal, which stays only
    if it mentions [DATE_TRUNC]. *)
Theorem sanitizer_on_series_plan {Intent : Type} (intent : Intent)
    (sourceType : string) (entities : Entities) (question : string) :
  let p := buildQueryPlan intent sourceType entities question in
  let q := sanitizeQueryPlan p in
  where_ q = where_ p /\ groupBy q = groupBy p /\ orderBy q = orderBy p
  /\ from q = from p /\ limit q = limit p
  /\ select q
     = [monthTrunc +:+ " as month"; "SUM(sales) as total_sales"]
       ++ List.filter (fun e => Str.includes e "DATE_TRUNC") (skipn 2 (select p)).
Proof.
  intros p q. subst p q.
  destruct (buildQueryPlan_cases intent sourceType entities question)
    as [-> | (w & N & F & ->)].
  - repeat split; vm_compute; reflexivity.
  - unfold sanitizeQueryPlan.
    cbn [select from where_ groupBy orderBy limit skipn List.filter app].
    rewrite isValidCondition_state.
    replace (isValidExpression (monthTrunc +:+ " as month")) with true
      by (vm_compute; reflexivity).
    replace (isValidExpression "SUM(sales) as total_sales") with true
      by (vm_compute; reflexivity).
    replace (isValidExpression monthTrunc) with true
      by (vm_compute; reflexivity).
    replace (isValidOrder (monthTrunc +:+ " ASC")) with true
      by (vm_compute; reflexivity).
    rewrite (isValidExpression_state_literal w F). repeat split.
Qed.

End SeriesPlanFacts.

(** ** The plan of an analysis *)

Module AnalysisPlanFacts.

Import Regex MCP StrFacts SanitizerFacts.

Lemma filter_all {A : Type} (f : A -> bool) (l : list A) :
  Forall (fun x => f x = true) l -> List.filter f l = l.
Proof.
  induction 1 as [ | x l Hx _ IH]; simpl; [reflexivity | ].
  now rewrite Hx, IH.
Qed.

Ltac each_field H :=
  cbv [whitelist orders.temporal orders.categorical orders.metrics app In] in H;
  repeat (destruct H as [<- | H]; [vm_compute; reflexivity | ]);
  destruct H.

Lemma field_is_valid (f : string) :
  In f whitelist -> isValidExpression f = true.
Proof. intros H. each_field H. Qed.

Lemma sum_of_field_is_valid (f : string) :
  In f orders.metrics ->
  isValidExpression ("SUM(" +:+ f +:+ ") as total_" +:+ f) = true.
Proof. intros H. each_field H. Qed.

Lemma total_of_field_is_no_order (f d : string) :
  In f orders.metrics -> d = "ASC" \/ d = "DESC" ->
  isValidOrder ("total_" +:+ f +:+ " " +:+ d) = false.
Proof. intros H [-> | ->]; each_field H. Qed.

(** X19.  For an analysis whose dimensions are valid fields and whose
    metrics are metrics of the schema, with the aggregation [SUM], [sanitizeQueryPlan] keeps the whole plan of
    [transformAnalysisToQueryPlan] but its ordering: the plan orders by the
    alias [total_<metric>], which is no field. *)
Theorem sanitizer_on_analysis_plan (analysis : Analysis) (entities : Entities) :
  Forall (fun f => In f whitelist) (dimensions analysis) ->
  Forall (fun f => In f orders.metrics) (analysisMetrics analysis) ->
  aggregation analysis = "SUM" ->
  In (queryOrderBy analysis) [None; Some "ASC"; Some "DESC"] ->
  let p := transformAnalysisToQueryPlan analysis entities in
  sanitizeQueryPlan p
  = {| select := select p; from := from p; where_ := where_ p;
       groupBy := groupBy p; orderBy := []; limit := limit p |}.
Proof.
  intros D M A O p. subst p.
  unfold sanitizeQueryPlan, transformAnalysisToQueryPlan.
  cbn [select from where_ groupBy orderBy limit]. rewrite A.
  f_equal.
  - apply filter_all. apply Forall_app. split.
    + eapply List.Forall_impl; [ | exact D]. apply field_is_valid.
    + apply List.Forall_map.
      eapply List.Forall_impl; [ | exact M]. apply sum_of_field_is_valid.
  - destruct (truthy_opt (filterGeographic analysis));
      vm_compute; reflexivity.
  - apply filter_all.
    eapply List.Forall_impl; [ | exact D]. apply field_is_valid.
  - destruct (queryOrderBy analysis) as [d | ]; [ | reflexivity].
    cbn [truthy_opt default id]. destruct (Str.truthy d); [ | reflexivity].
    cbn [List.filter].
    destruct (analysisMetrics analysis) as [ | m ms]; cbn [head default id].
    + destruct O as [O | [[= <-] | [[= <-] | []]]]; [discriminate O | | ];
        vm_compute; reflexivity.
    + inversion M; subst.
      rewrite total_of_field_is_no_order; [reflexivity | assumption | ].
      destruct O as [O | [[= <-] | [[= <-] | []]]]; [discriminate O | | ]; tauto.
Qed.

Lemma sanitizer_on_analysis_plan_witness :
  let analysis :=
    {| dimensions := ["customer_name"]; analysisMetrics := ["sales"];
       filterGeographic := Some "California"; analysisLimit := Some 5%N;
       aggregation := "SUM"; queryOrderBy := Some "DESC" |} in
  let p := transformAnalysisToQueryPlan analysis noEntities in
  sanitizeQueryPlan p
  = {| select := select p; from := from p; where_ := where_ p;
       groupBy := groupBy p; orderBy := []; limit := limit p |}.
Proof.
  apply (sanitizer_on_analysis_plan
           {| dimensions := ["customer_name"]; analysisMetrics := ["sales"];
              filterGeographic := Some "California"; analysisLimit := Some 5%N;
              aggregation := "SUM"; queryOrderBy := Some "DESC" |} noEntities).
  - repeat constructor; vm_compute; tauto.
  - repeat constructor; vm_compute; tauto.
  - reflexivity.
  - vm_compute. tauto.
Defined.

End AnalysisPlanFacts.

(** ** From a question to a chart *)

Module ChartFacts.

Import Regex Analyzer SelectorFacts.

Lemma size_list_to_set_le (l : list (option string)) :
  size (list_to_set l : gset (option string)) <= List.length l.
Proof.
  induction l as [ | x l IH].
  - rewrite list_to_set_nil, size_empty. reflexivity.
  - rewrite list_to_set_cons, size_union_alt, size_singleton.
    cbn [List.length].
    assert (S : size (list_to_set l ∖ {[x]} : gset (option string))
                <= size (list_to_set l : gset (option string))).
    { apply subseteq_size. apply subseteq_difference_l. reflexivity. }
    lia.
Qed.

Lemma uniqueCategories_le_recordCount (data : list Row) :
  (uniqueCategories (analyzeDataCharacteristics data)
   <= recordCount (analyzeDataCharacteristics data))%N.
Proof.
  destruct data as [ | row data]; [reflexivity | ].
  unfold analyzeDataCharacteristics. cbn [uniqueCategories recordCount].
  pose proof (size_list_to_set_le
                (map (fun row => firstTruthy row "category" "customer_name" "name")
                     (row :: data))) as H.
  rewrite length_map in H. lia.
Qed.

(** X20.  A histogram chosen for the rows of a result has between 4 and 20
    bins: it is chosen for more than ten distinct categories, so for more
    than ten rows. *)
Theorem histogram_of_rows_has_4_to_20_bins
    (question : string) (data : list Row) (bins : N) :
  config (determineVisualization question (array data)) = Bins bins ->
  (4 <= bins <= 20)%N.
Proof.
  unfold determineVisualization, selectVisualization.
  cbn [analyzeDataCharacteristicsOf].
  pose proof (uniqueCategories_le_recordCount data) as U.
  set (c := analyzeDataCharacteristics data) in *.
  repeat match goal with
         | |- context [if ?b then _ else _] =>
             lazymatch b with
             | (10 <? _)%N => fail
             | _ => destruct b; try (cbn [config line]; discriminate)
             end
         end.
  destruct (N.ltb_spec 10 (uniqueCategories c)) as [L | L];
    cbn [config]; [ | discriminate].
  intros [= <-].
  destruct (ceil_sqrt_spec (recordCount c)) as [S _].
  split; [ | lia].
  apply N.min_glb; [lia | ].
  assert (~ (ceil_sqrt (recordCount c) <= 3)%N); [ | lia].
  intros H. assert (ceil_sqrt (recordCount c) * ceil_sqrt (recordCount c) <= 9)%N by nia.
  lia.
Qed.

Lemma histogram_of_rows_has_4_to_20_bins_witness : (4 <= 4 <= 20)%N.
Proof.
  apply (histogram_of_rows_has_4_to_20_bins "spread of sales" elevenRows 4).
  vm_compute. reflexivity.
Defined.

(** X21.  The chart of [generateVisualization] is a bar chart, a line chart
    or a pie chart, whatever the rows are: it hands the characteristics
    object, not the rows, to [determineVisualization], which finds no array
    and decides as for an empty result; so no histogram and no treemap. *)
Theorem generateVisualization_charts (question : string) (data : list Row) :
  In (chartType (generateVisualization question data)) ["bar"; "line"; "pie"]
  /\ In (chartOrientation (generateVisualization question data))
        ["horizontal"; "vertical"].
Proof.
  unfold generateVisualization, determineVisualization, selectVisualization.
  cbn [analyzeDataCharacteristicsOf uniqueCategories hasTimeComponent
       recordCount].
  repeat match goal with
         | |- context [if ?b then _ else _] =>
             lazymatch b with
             | context [analyzeQuestionType] => destruct b
             end
         end; vm_compute; tauto.
Qed.

(** X22.  [analyzeQuestionType] gives a sub-type only to a question that it
    flags as a comparison: the other three pattern groups have no
    sub-types. *)
Theorem subType_only_for_comparison (question : string) :
  subType (analyzeQuestionType question) = None
  \/ comparison (analyzeQuestionType question) = true.
Proof.
  unfold analyzeQuestionType, questionPatterns.
  cbn [fold_left patterns subTypes find existsb].
  repeat match goal with
         | |- context [test ?p question] =>
             destruct (test p question);
             cbn [orb set_flag set_subType comparison trend distribution
                  composition subType String.eqb Ascii.eqb Bool.eqb]
         end; auto.
Qed.

End ChartFacts.

(** ** Follow-up questions *)

Module FollowUpFacts.

Import Regex MCP RegexFacts StrFacts IncludesFacts SearchFacts ComparisonFacts
  ExtractFacts DateFacts.

#[local] Arguments Ascii.eqb : simpl never.
#[local] Arguments Char.is_space : simpl never.
#[local] Arguments Char.is_alpha : simpl never.
#[local] Arguments Char.is_word : simpl never.
#[local] Arguments Char.eqb_ci : simpl never.

(** The loop of a lazy class repetition is [lazy_chars]. *)
Lemma star_loop_lazy_chars (p : ascii -> bool) (k : mstate -> option mstate) :
  forall (inp pre : list ascii) (cs : list (nat * list ascii)) (fuel : nat),
    (List.length inp < fuel)%nat ->
    star_loop false (run (Chr p)) k fuel {| prev := pre; rest := inp; caps := cs |}
    = lazy_chars p k pre cs inp.
Proof.
  induction inp as [ | c tl IH]; intros pre cs fuel Hf;
    (destruct fuel as [ | fuel]; [simpl in Hf; lia | ]); simpl.
  - destruct (k _); reflexivity.
  - destruct (k _); [reflexivity | ].
    destruct (p c); [ | reflexivity].
    unfold advance. simpl.
    replace (List.length tl <? S (List.length tl))%nat with true
      by (symmetry; apply Nat.ltb_lt; lia).
    rewrite IH by (simpl in Hf; lia). reflexivity.
Qed.

(** A lazy repetition runs to the end of the input when the continuation
    fails everywhere before it. *)
Lemma lazy_chars_to_the_end (p : ascii -> bool) (k : mstate -> option mstate)
    (cs : list (nat * list ascii)) :
  forall (inp pre : list ascii),
    Forall (fun c => p c = true) inp ->
    (forall a b, inp = a ++ b -> b <> [] ->
       k {| prev := rev a ++ pre; rest := b; caps := cs |} = None) ->
    lazy_chars p k pre cs inp
    = k {| prev := rev inp ++ pre; rest := []; caps := cs |}.
Proof.
  induction inp as [ | c tl IH]; intros pre F H.
  - simpl. destruct (k _); reflexivity.
  - pose proof (H [] (c :: tl) eq_refl) as H0. simpl in H0.
    simpl. rewrite H0 by discriminate.
    inversion F as [ | ? ? Hc F']; subst. rewrite Hc.
    rewrite IH; [now rewrite <- app_assoc | assumption | ].
    intros a b -> Hb. specialize (H (c :: a) b eq_refl Hb).
    simpl in H. now rewrite <- app_assoc in H.
Qed.

Lemma alpha_not_space (c : ascii) :
  Char.is_alpha c = true -> Char.is_space c = false.
Proof. by_cases_on_char c. Qed.

Lemma alpha_is_word (c : ascii) :
  Char.is_alpha c = true -> Char.is_word c = true.
Proof. by_cases_on_char c. Qed.

(** *** The equations of the matcher *)

Lemma run_seq (r1 r2 : regex) (s : mstate) (k : mstate -> option mstate) :
  run (Seq r1 r2) s k = run r1 s (fun s1 => run r2 s1 k).
Proof. reflexivity. Qed.

Lemma run_chr (p : ascii -> bool) (pre : list ascii) (c : ascii)
    (tl : list ascii) (cs : list (nat * list ascii))
    (k : mstate -> option mstate) :
  run (Chr p) {| prev := pre; rest := c :: tl; caps := cs |} k
  = if p c then k {| prev := c :: pre; rest := tl; caps := cs |} else None.
Proof. reflexivity. Qed.

Lemma run_chr_end (p : ascii -> bool) (pre : list ascii)
    (cs : list (nat * list ascii)) (k : mstate -> option mstate) :
  run (Chr p) {| prev := pre; rest := []; caps := cs |} k = None.
Proof. reflexivity. Qed.

Lemma run_star (g : bool) (r : regex) (s : mstate) (k : mstate -> option mstate) :
  run (Star g r) s k = star_loop g (run r) k (S (List.length (rest s))) s.
Proof. reflexivity. Qed.

Lemma run_group (n : nat) (r : regex) (s : mstate) (k : mstate -> option mstate) :
  run (Group n r) s k = run r s (fun s1 => k (set_cap n (consumed s s1) s1)).
Proof. reflexivity. Qed.

(** *** The state pattern at the end of a follow-up question *)

(** The lookahead [(?=\s+|$)] before a letter fails. *)
Lemma look_before_letter (pre : list ascii) (c : ascii) (tl : list ascii)
    (cs : list (nat * list ascii)) :
  Char.is_alpha c = true ->
  run (Look (Alt (plus space) Eol))
      {| prev := pre; rest := c :: tl; caps := cs |} Some = None.
Proof.
  intros Hc. apply alpha_not_space in Hc.
  change (run (Look (Alt (plus space) Eol))
            {| prev := pre; rest := c :: tl; caps := cs |} Some)
    with (match
             match (if Char.is_space c
                    then run (Star true space)
                           {| prev := c :: pre; rest := tl; caps := cs |} Some
                    else None)
             with
             | Some x => Some x
             | None => None
             end
           with
           | Some s1 =>
               Some (with_caps (caps s1)
                       {| prev := pre; rest := c :: tl; caps := cs |})
           | None => None
           end).
  now rewrite Hc.
Qed.

(** The group [([A-Za-z\s]+?)] and the lookahead on a word of letters that
    ends the input: the group takes the word. *)
Lemma group_to_the_end (pre : list ascii) (c : ascii) (tl : list ascii) :
  Forall (fun c => Char.is_alpha c = true) (c :: tl) ->
  run (Seq (Group 1 (plus_lazy (Chr (fun c => Char.is_alpha c || Char.is_space c))))
           (Look (Alt (plus space) Eol)))
      {| prev := pre; rest := c :: tl; caps := [] |} Some
  = Some {| prev := rev tl ++ c :: pre; rest := []; caps := [(1, c :: tl)] |}.
Proof.
  intros F. inversion F as [ | ? ? Hc F']; subst.
  set (cls := fun c => Char.is_alpha c || Char.is_space c).
  unfold plus_lazy.
  rewrite run_seq, run_group, run_seq, run_chr.
  replace (cls c) with true by (unfold cls; now rewrite Hc).
  rewrite run_star. cbn [rest].
  rewrite star_loop_lazy_chars by lia.
  rewrite lazy_chars_to_the_end.
  - cbn [set_cap prev rest caps]. 
    replace (consumed _ _) with (c :: tl).
    2:{ unfold consumed. cbn [rest List.length].
        rewrite Nat.sub_0_r. symmetry. apply (firstn_all (c :: tl)). }
    reflexivity.
  - eapply List.Forall_impl; [ | exact F']. intros x Hx. unfold cls.
    now rewrite Hx.
  - intros a b -> Hb. destruct b as [ | b0 b]; [contradiction | ].
    cbn [set_cap prev rest caps]. apply look_before_letter.
    apply Forall_app in F' as [_ F']. now inversion F'.
Qed.

(** The whole pattern on [in <word>] after a blank. *)
Lemma statePattern_at_the_end (pre : list ascii) (c : ascii) (tl : list ascii) :
  Forall (fun c => Char.is_alpha c = true) (c :: tl) ->
  run statePattern (start (" "%char :: pre) (Str.chars "in " ++ c :: tl)) Some
  = Some {| prev := rev tl ++ c :: Str.chars " ni " ++ pre; rest := [];
            caps := [(1, c :: tl)] |}.
Proof.
  intros F. pose proof F as F0. inversion F0 as [ | ? ? Hc _]; subst.
  apply alpha_not_space in Hc.
  rewrite <- (group_to_the_end (Str.chars " ni " ++ pre) c tl F).
  unfold statePattern.
  set (tail := Seq (Group 1 _) _).
  change (run (Seq WordB (Seq (Alt (liti "in") (liti "for"))
                             (Seq (plus space) tail)))
              (start (" "%char :: pre) (Str.chars "in " ++ c :: tl)) Some)
    with (match
             (if Char.eqb_ci "i" "i" then
                if Char.eqb_ci "n" "n" then
                  if Char.is_space " " then
                    star_loop true (run (Chr Char.is_space))
                      (fun s => run tail s Some)
                      (S (List.length (c :: tl)))
                      {| prev := Str.chars " ni " ++ pre; rest := c :: tl;
                         caps := [] |}
                  else None
                else None
              else None)
           with
           | Some x => Some x
           | None =>
               if Char.eqb_ci "f" "i" then
                 run (Seq (Chr (Char.eqb_ci "o")) (Seq (Chr (Char.eqb_ci "r")) Eps))
                   {| prev := "i"%char :: " "%char :: pre;
                      rest := Str.chars "n " ++ c :: tl; caps := [] |}
                   (fun s => run (Seq (plus space) tail) s Some)
               else None
           end).
  replace (Char.eqb_ci "i" "i") with true by reflexivity.
  replace (Char.eqb_ci "n" "n") with true by reflexivity.
  replace (Char.is_space " ") with true by reflexivity.
  replace (Char.eqb_ci "f" "i") with false by reflexivity.
  rewrite star_loop_greedy_chars by (simpl; lia).
  cbn [greedy_chars]. rewrite Hc.
  destruct (run tail _ Some); reflexivity.
Qed.

(** *** No state before the end *)

Lemma no_state_here (pre inp : list ascii) :
  Str.starts_with (Str.chars "in") (map Char.toLowerCase inp) = false ->
  Str.starts_with (Str.chars "for") (map Char.toLowerCase inp) = false ->
  run statePattern (start pre inp) Some = None.
Proof.
  intros Hin Hfor.
  destruct (run statePattern (start pre inp) Some) as [x | ] eqn:E;
    [exfalso | reflexivity].
  apply run_sound in E as (s' & M & _). unfold statePattern in M.
  apply matches_seq_inv in M as (sa & Ma & M). apply matches_wordb in Ma as ->.
  apply matches_seq_inv in M as (sb & Mb & _).
  assert (L : forall t, matches (liti t) (start pre inp) sb ->
                        Str.starts_with (map Char.toLowerCase (Str.chars t))
                          (map Char.toLowerCase inp) = true).
  { intros t Mt. apply matches_seq_chars_ci in Mt as (w & Ew & Lw).
    simpl in Ew. rewrite Ew, map_app, Lw. apply starts_with_spec. eauto. }
  inversion Mb; subst;
    match goal with
    | H : matches (liti ?t) _ _ |- _ =>
        apply L in H;
        change (map Char.toLowerCase (Str.chars t)) with (Str.chars t) in H
    end; congruence.
Qed.

Lemma starts_with_before_blank (t l1 l2 : list ascii) :
  ~ In " "%char t ->
  Str.starts_with t l1 = false ->
  Str.starts_with t (l1 ++ " "%char :: l2) = false.
Proof.
  revert l1. induction t as [ | a t IH]; intros l1 Hn H; [discriminate H | ].
  destruct l1 as [ | x l1]; simpl.
  - destruct (Ascii.eqb_spec a " "); [subst; simpl in Hn; tauto | reflexivity].
  - simpl in H. apply andb_false_iff in H as [H | H].
    + now rewrite H.
    + rewrite (IH l1); [apply andb_false_r | simpl in Hn; tauto | exact H].
Qed.

(** A question without [in] and [for] holds no state: the search goes on
    behind it. *)
Lemma search_through_question (tail : list ascii) :
  forall (q pre : list ascii),
    Str.includes_chars (map Char.toLowerCase q) (Str.chars "in") = false ->
    Str.includes_chars (map Char.toLowerCase q) (Str.chars "for") = false ->
    search statePattern pre (q ++ " "%char :: tail)
    = search statePattern (" "%char :: rev q ++ pre) tail.
Proof.
  induction q as [ | c q IH]; intros pre Hin Hfor.
  - apply search_next. now apply no_state_here.
  - change (map Char.toLowerCase (c :: q))
      with (Char.toLowerCase c :: map Char.toLowerCase q) in Hin, Hfor.
    cbn [Str.includes_chars] in Hin, Hfor.
    apply orb_false_elim in Hin as [Sin Hin].
    apply orb_false_elim in Hfor as [Sfor Hfor].
    change ((c :: q) ++ " "%char :: tail) with (c :: (q ++ " "%char :: tail)).
    rewrite search_next.
    + rewrite IH by assumption. simpl. now rewrite <- app_assoc.
    + change (c :: (q ++ " "%char :: tail)) with ((c :: q) ++ " "%char :: tail).
      apply no_state_here; rewrite map_app;
        change (map Char.toLowerCase (" "%char :: tail))
          with (" "%char :: map Char.toLowerCase tail);
        apply starts_with_before_blank; try assumption;
        simpl; intuition discriminate.
Qed.

(** The state is read back from a text that ends with [in <word>]. *)
Lemma geographic_after_in (question g : string) (context : SessionContext) :
  g <> "" ->
  Forall (fun c => Char.is_alpha c = true) (Str.chars g) ->
  Str.includes (Str.toLowerCase question) "in" = false ->
  Str.includes (Str.toLowerCase question) "for" = false ->
  geographic (extractEntitiesAndSource (question +:+ " in " +:+ g) context).1
  = Some g.
Proof.
  intros Hg F Hin Hfor.
  unfold extractEntitiesAndSource. cbn [fst geographic].
  destruct (Str.chars g) as [ | c tl] eqn:Eg.
  { apply (f_equal Str.of_chars) in Eg. rewrite of_chars_chars in Eg.
    now subst. }
  assert (X : exec statePattern (question +:+ " in " +:+ g)
              = search statePattern (" "%char :: rev (Str.chars question))
                  (Str.chars "in " ++ c :: tl)).
  { unfold exec. rewrite chars_app.
    change (Str.chars (" in " +:+ g))
      with (" "%char :: Str.chars "in " ++ Str.chars g).
    rewrite Eg, search_through_question, app_nil_r; [reflexivity | | ].
    - unfold Str.includes, Str.toLowerCase in Hin.
      now rewrite chars_of_chars in Hin.
    - unfold Str.includes, Str.toLowerCase in Hfor.
      now rewrite chars_of_chars in Hfor. }
  rewrite X.
  rewrite (search_here _ _ _ _ (statePattern_at_the_end _ c tl F)).
  unfold group. cbn [groups caps assoc Nat.eqb].
  rewrite <- Eg, of_chars_chars. f_equal.
  rewrite <- (of_chars_chars g). apply trim_word.
  eapply List.Forall_impl; [ | rewrite Eg; exact F]. apply alpha_is_word.
Qed.

Lemma enhanceQuestionWithContext_appends
    (question : string) (context : SessionContext) (g : string) :
  questions context <> [] ->
  lastState context = Some g ->
  g <> "" ->
  Str.includes (Str.toLowerCase question) "in" = false ->
  Str.includes (Str.toLowerCase question) "top"
  || Str.includes (Str.toLowerCase question) "sales" = true ->
  enhanceQuestionWithContext question context = question +:+ " in " +:+ g.
Proof.
  intros Hq Hs Hg Hin Htop.
  unfold enhanceQuestionWithContext. cbv zeta.
  destruct (questions context); [contradiction | ].
  rewrite Hin, Hs, Htop. destruct g; [contradiction | reflexivity].
Qed.

(** X23.  A follow-up question gets the state of the session: when the
    session has a history and a last state that is one word of letters, and
    the question mentions [top] or [sales] but neither [in] nor [for], then
    [enhanceQuestionWithContext] appends the state and
    [extractEntitiesAndSource] reads it back from the enhanced question. *)
Theorem follow_up_takes_the_last_state
    (question : string) (context : SessionContext) (g : string) :
  questions context <> [] ->
  lastState context = Some g ->
  g <> "" ->
  Forall (fun c => Char.is_alpha c = true) (Str.chars g) ->
  Str.includes (Str.toLowerCase question) "in" = false ->
  Str.includes (Str.toLowerCase question) "for" = false ->
  Str.includes (Str.toLowerCase question) "top"
  || Str.includes (Str.toLowerCase question) "sales" = true ->
  enhanceQuestionWithContext question context = question +:+ " in " +:+ g
  /\ geographic
       (extractEntitiesAndSource (enhanceQuestionWithContext question context)
          context).1
     = Some g.
Proof.
  intros Hq Hs Hg F Hin Hfor Htop.
  rewrite (enhanceQuestionWithContext_appends question context g)
    by assumption.
  split; [reflexivity | ]. now apply geographic_after_in.
Qed.

Lemma follow_up_takes_the_last_state_witness :
  let context :=
    {| lastState := Some "Texas"; lastYear := None; lastMetric := "sales";
       lastLimit := 5;
       questions := [{| question := "top customers in Texas"; timestamp := 0;
                        type := "horizontal-bar" |}] |} in
  enhanceQuestionWithContext "top 3 customers" context
  = "top 3 customers" +:+ " in " +:+ "Texas"
  /\ geographic
       (extractEntitiesAndSource
          (enhanceQuestionWithContext "top 3 customers" context) context).1
     = Some "Texas".
Proof.
  apply (follow_up_takes_the_last_state "top 3 customers"
           {| lastState := Some "Texas"; lastYear := None;
              lastMetric := "sales"; lastLimit := 5;
              questions := [{| question := "top customers in Texas";
                               timestamp := 0; type := "horizontal-bar" |}] |}
           "Texas").
  - discriminate.
  - reflexivity.
  - discriminate.
  - vm_compute. repeat constructor.
  - vm_compute. reflexivity.
  - vm_compute. reflexivity.
  - vm_compute. reflexivity.
Defined.


(** *** How about *)

Lemma howAbout_at_the_start (g : string) :
  replace howAbout "show sales in" ("how about " +:+ g) = "show sales in " +:+ g.
Proof.
  unfold replace, exec.
  rewrite (search_here howAbout [] (Str.chars ("how about " +:+ g))
             {| prev := rev (Str.chars "how about");
                rest := " "%char :: Str.chars g; caps := [] |})
    by reflexivity.
  cbn [before after rest rev app].
  change (Str.of_chars (Str.chars "show sales in" ++ " "%char :: Str.chars g))
    with ("show sales in " +:+ Str.of_chars (Str.chars g)).
  now rewrite of_chars_chars.
Qed.

Lemma includes_how_about (g : string) :
  Str.includes (Str.toLowerCase ("how about " +:+ g)) "how about" = true.
Proof. vm_compute. reflexivity. Qed.

(** X24.  A question [how about <word>] in a session with a history, a last
    state and the metric [sales] is read as [show sales in <word>], and the
    word becomes the state of the question, unless the first rule of
    [enhanceQuestionWithContext] applies to it. *)
Theorem how_about_names_the_state (context : SessionContext) (g old : string) :
  questions context <> [] ->
  lastState context = Some old -> old <> "" ->
  lastMetric context = "sales" ->
  g <> "" ->
  Forall (fun c => Char.is_alpha c = true) (Str.chars g) ->
  Str.includes (Str.toLowerCase ("how about " +:+ g)) "in" = true
  \/ Str.includes (Str.toLowerCase ("how about " +:+ g)) "top"
     || Str.includes (Str.toLowerCase ("how about " +:+ g)) "sales" = false ->
  enhanceQuestionWithContext ("how about " +:+ g) context
  = "show sales in " +:+ g
  /\ geographic
       (extractEntitiesAndSource
          (enhanceQuestionWithContext ("how about " +:+ g) context) context).1
     = Some g.
Proof.
  intros Hq Hs Ho Hm Hg F H.
  assert (E : enhanceQuestionWithContext ("how about " +:+ g) context
              = "show sales in " +:+ g).
  { unfold enhanceQuestionWithContext. cbv zeta.
    destruct (questions context); [contradiction | ].
    cbn [List.length Nat.ltb Nat.leb].
    rewrite includes_how_about, Hs, Hm.
    replace (truthy_opt (Some old)) with true
      by (destruct old; [contradiction | reflexivity]).
    change ("show " +:+ "sales" +:+ " in") with "show sales in".
    rewrite howAbout_at_the_start.
    destruct H as [-> | ->]; [reflexivity | ].
    now rewrite andb_false_r. }
  split; [exact E | ]. rewrite E.
  change ("show sales in " +:+ g) with ("show sales" +:+ " in " +:+ g).
  apply geographic_after_in; try assumption; reflexivity.
Qed.

Lemma how_about_names_the_state_witness :
  let context :=
    {| lastState := Some "Texas"; lastYear := None; lastMetric := "sales";
       lastLimit := 5;
       questions := [{| question := "top customers in Texas"; timestamp := 0;
                        type := "horizontal-bar" |}] |} in
  enhanceQuestionWithContext ("how about " +:+ "Ohio") context
  = "show sales in " +:+ "Ohio"
  /\ geographic
       (extractEntitiesAndSource
          (enhanceQuestionWithContext ("how about " +:+ "Ohio") context)
          context).1
     = Some "Ohio".
Proof.
  apply (how_about_names_the_state
           {| lastState := Some "Texas"; lastYear := None;
              lastMetric := "sales"; lastLimit := 5;
              questions := [{| question := "top customers in Texas";
                               timestamp := 0; type := "horizontal-bar" |}] |}
           "Ohio" "Texas").
  - discriminate.
  - reflexivity.
  - discriminate.
  - reflexivity.
  - discriminate.
  - vm_compute. repeat constructor.
  - right. vm_compute. reflexivity.
Defined.

End FollowUpFacts.

(** ** The chart of a question type *)

Module ChartTypeFacts.

Import MCP TypedPlanFacts.

(** X25.  For the types [comparison], [distribution], [composition] and
    [general], for which [getVisualizationType] names a bar chart, a
    histogram or a pie chart, [buildQueryPlanForType] builds the plan of a
    trend: sales by month. *)
Theorem other_charts_plot_the_monthly_series
    (question : string) (entities : Entities) :
  In (getVisualizationType (determineQuestionType question))
     ["bar-horizontal"; "histogram"; "pie"; "bar-vertical"] ->
  buildQueryPlanForType (determineQuestionType question) entities
  = buildQueryPlanForType (typeOnly "trend") entities.
Proof.
  destruct (determineQuestionType_cases question)
    as [(d & l & _ & ->) | (t & T & ->)].
  - intros H. vm_compute in H. intuition discriminate.
  - intros _. simpl in T.
    destruct T as [<- | [<- | [<- | [<- | [<- | []]]]]]; reflexivity.
Qed.

Lemma other_charts_plot_the_monthly_series_witness :
  buildQueryPlanForType (determineQuestionType "distribution of profit")
    noEntities
  = buildQueryPlanForType (typeOnly "trend") noEntities.
Proof.
  apply (other_charts_plot_the_monthly_series "distribution of profit"
           noEntities).
  vm_compute. tauto.
Defined.

End ChartTypeFacts.

(** ** A follow-up question in a session *)

Module ConversationFacts.

Import Regex MCP StrFacts ProcessFacts FollowUpFacts.

(** X26.  In a session whose context has a history and a last state of one
    word of letters, a question that mentions [top] or [sales], neither [in]
    nor [for], and that is no comparison once the state is appended, runs
    one statement, and that statement is filtered by the last state. *)
Theorem follow_up_is_filtered_by_the_last_state
    pgQuery now toISOString (contexts : gmap string SessionContext)
    (question sessionId : string) (context : SessionContext) (g : string) :
  contexts !! sessionId = Some context ->
  questions context <> [] ->
  lastState context = Some g ->
  g <> "" ->
  Forall (fun c => Char.is_alpha c = true) (Str.chars g) ->
  Str.includes (Str.toLowerCase question) "in" = false ->
  Str.includes (Str.toLowerCase question) "for" = false ->
  Str.includes (Str.toLowerCase question) "top"
  || Str.includes (Str.toLowerCase question) "sales" = true ->
  isComparisonQuery (question +:+ " in " +:+ g) = false ->
  exists p others,
    executed (processQuestion pgQuery now toISOString contexts question sessionId) = [p]
    /\ where_ p = ("state = '" +:+ g +:+ "'") :: others.
Proof.
  intros Hc Hq Hs Hg F Hin Hfor Htop Hcmp.
  pose proof (geographic_after_in question g context Hg F Hin Hfor) as G.
  unfold processQuestion, getContext. rewrite Hc.
  rewrite (enhanceQuestionWithContext_appends question context g)
    by assumption.
  destruct (extractEntitiesAndSource _ context) as [entities sourceType].
  cbn [fst] in G. rewrite Hcmp.
  assert (S : stateCondition (geographic entities) = ["state = '" +:+ g +:+ "'"]).
  { rewrite G. unfold stateCondition.
    destruct g; [contradiction | reflexivity]. }
  destruct (Str.includes (Str.toLowerCase (question +:+ " in " +:+ g)) "top");
    simpl negb; cbv iota;
    eexists _, _; (split; [apply executed_finish | ]);
    cbn [where_ rankingPlan trendPlan]; rewrite S; reflexivity.
Qed.

Lemma follow_up_is_filtered_by_the_last_state_witness :
  exists p others,
    executed
      (processQuestion oneRow 0 isoOfDay
         {[ "s1" :=
              {| lastState := Some "Texas"; lastYear := None;
                 lastMetric := "sales"; lastLimit := 5;
                 questions := [{| question := "top customers in Texas";
                                  timestamp := 0;
                                  type := "horizontal-bar" |}] |} ]}
         "top 3 customers" "s1")
    = [p]
    /\ where_ p = ("state = '" +:+ "Texas" +:+ "'") :: others.
Proof.
  apply (follow_up_is_filtered_by_the_last_state oneRow 0 isoOfDay
           {[ "s1" :=
                {| lastState := Some "Texas"; lastYear := None;
                   lastMetric := "sales"; lastLimit := 5;
                   questions := [{| question := "top customers in Texas";
                                    timestamp := 0;
                                    type := "horizontal-bar" |}] |} ]}
           "top 3 customers" "s1"
           {| lastState := Some "Texas"; lastYear := None;
              lastMetric := "sales"; lastLimit := 5;
              questions := [{| question := "top customers in Texas";
                               timestamp := 0;
                               type := "horizontal-bar" |}] |}
           "Texas").
  - vm_compute. reflexivity.
  - discriminate.
  - reflexivity.
  - discriminate.
  - vm_compute. repeat constructor.
  - vm_compute. reflexivity.
  - vm_compute. reflexivity.
  - vm_compute. reflexivity.
  - vm_compute. reflexivity.
Defined.

End ConversationFacts.
